(** * Neighbor resolution of the IPv6 stack: nexthop pool, hold queue, NDP probes

    A shallow embedding of
      - modules/ip6/control/nexthop.c      (control loop callbacks, NH_ADD / NH_DEL),
      - modules/ip6/datapath/ndp_ns_input.c  (neighbor solicitation input node),
      - modules/ip6/datapath/ndp_ns_output.c (neighbor solicitation output node),
    together with the collaborators these files call (nexthop pool, route
    table, control/data bridge, packet buffers), and of
      - modules/ip/datapath/icmp_input.c     (ICMP echo node of the IPv4 stack),
      - api/br_net_types.h                   (parsing of IPv4 prefixes). *)

From Stdlib Require Import NArith Lia Bool.
From stdpp Require Import base option list gmap numbers.

Set Default Proof Using "Type".

(** ** Network types *)

Module Net.

(** [struct rte_ipv6_addr] is sixteen bytes [a[0..15]]; an address is read here
    as the 128-bit number whose most significant byte is [a[0]]. A
    [struct rte_ether_addr] is the 48-bit number of its six bytes. *)
Abbreviation rte_ipv6_addr := N (only parsing).
Abbreviation rte_ether_addr := N (only parsing).

Definition RTE_IPV6_MAX_DEPTH : N := 128.

Definition rte_ipv6_addr_eq (a b : rte_ipv6_addr) : bool := N.eqb a b.

(** all sixteen bytes are zero *)
Definition rte_ipv6_addr_is_unspec (a : rte_ipv6_addr) : bool := N.eqb a 0.

(** [a[0] == 0xff] *)
Definition rte_ipv6_addr_is_mcast (a : rte_ipv6_addr) : bool :=
  N.eqb (N.shiftr a 120) 0xff.

(** ff02::1 *)
Definition RTE_IPV6_ADDR_ALLNODES_LINK_LOCAL : rte_ipv6_addr :=
  0xff020000000000000000000000000001%N.

(** ff02::1:ff00:0/104 *)
Definition RTE_IPV6_SOLNODE_PREFIX : rte_ipv6_addr :=
  0xff0200000000000000000001ff000000%N.

(** ff02::1:ffXX:XXXX with the low 24 bits of the address *)
Definition rte_ipv6_solnode_from_addr (a : rte_ipv6_addr) : rte_ipv6_addr :=
  N.lor RTE_IPV6_SOLNODE_PREFIX (N.land a 0xffffff).

(** membership in ff02::1:ff00:0/104 *)
Definition rte_ipv6_addr_is_solnode (a : rte_ipv6_addr) : bool :=
  N.eqb (N.shiftr a 24) (N.shiftr RTE_IPV6_SOLNODE_PREFIX 24).

Definition rte_is_same_ether_addr (a b : rte_ether_addr) : bool := N.eqb a b.

(** errno values of Linux *)
Definition ENOENT : N := 2.
Definition EAGAIN : N := 11.
Definition ENOMEM : N := 12.
Definition EBUSY : N := 16.
Definition EEXIST : N := 17.
Definition ENODEV : N := 19.
Definition EINVAL : N := 22.
Definition ENOSPC : N := 28.
Definition EOVERFLOW : N := 75.

Definition IPPROTO_ICMPV6 : N := 58.

(** ICMPv6 message and option types of RFC 4861 *)
Definition ICMP6_TYPE_NEIGH_SOLICIT : N := 135.
Definition ICMP6_TYPE_NEIGH_ADVERT : N := 136.
Definition ICMP6_OPT_SRC_LLADDR : N := 1.
Definition ICMP6_OPT_TARGET_LLADDR : N := 2.

Definition GR_IFACE_ID_UNDEF : N := 0.

End Net.
Export Net.

(** ** Nexthop flags *)

Module Flags.

Definition GR_BIT16 (n : N) : N := N.shiftl 1 n.

(** Modelled from the spec: the [GR_NH_F_*] constants are declared in an API
    header that is not part of the sources at hand. The data model (section 3)
    lists the flags as a bit set over STATIC, LOCAL, LINK, GATEWAY, REACHABLE,
    STALE, PENDING, FAILED; each flag is one bit, taken in that order. *)
Definition GR_NH_F_STATIC : N := GR_BIT16 0.
Definition GR_NH_F_LOCAL : N := GR_BIT16 1.
Definition GR_NH_F_LINK : N := GR_BIT16 2.
Definition GR_NH_F_GATEWAY : N := GR_BIT16 3.
Definition GR_NH_F_REACHABLE : N := GR_BIT16 4.
Definition GR_NH_F_STALE : N := GR_BIT16 5.
Definition GR_NH_F_PENDING : N := GR_BIT16 6.
Definition GR_NH_F_FAILED : N := GR_BIT16 7.

(** the C test [flags & mask] *)
Definition has_flag (flags mask : N) : bool := negb (N.eqb (N.land flags mask) 0).

(** [flags |= mask] *)
Definition set_flag (flags mask : N) : N := N.lor flags mask.

(** [flags &= ~mask] *)
Definition clear_flag (flags mask : N) : N := N.ldiff flags mask.

End Flags.
Export Flags.

(** ** Data model *)

Module Model.

(** Pointers: a [struct nexthop *] is the index of its slot in the pool, a
    [struct rte_mbuf *] is a key of the packet buffer store; [NULL] is [None]. *)
Abbreviation nh_ptr := nat (only parsing).
Abbreviation mbuf_ptr := nat (only parsing).

Record iface := {
  if_id : N;
  if_vrf_id : N;
}.

(** Modelled from the spec: [struct nexthop] is declared in a header that is not
    part of the sources at hand; the fields are those of the data model
    (section 3) under the names the code uses. The probe and hold counters are
    natural numbers, the width of their C types is not known. *)
Record nexthop := {
  nh_flags : N;
  nh_lladdr : rte_ether_addr;
  nh_vrf_id : N;
  nh_iface_id : N;
  nh_ipv6 : rte_ipv6_addr;
  nh_last_reply : N;
  nh_last_request : N;
  nh_ref_count : N;
  nh_ucast_probes : N;
  nh_bcast_probes : N;
  nh_held_pkts_num : N;
  nh_held_pkts_head : option mbuf_ptr;
  nh_held_pkts_tail : option mbuf_ptr;
}.

Definition nh_set_flags (v : N) (nh : nexthop) : nexthop :=
  {| nh_flags := v; nh_lladdr := nh_lladdr nh; nh_vrf_id := nh_vrf_id nh;
     nh_iface_id := nh_iface_id nh; nh_ipv6 := nh_ipv6 nh;
     nh_last_reply := nh_last_reply nh; nh_last_request := nh_last_request nh;
     nh_ref_count := nh_ref_count nh; nh_ucast_probes := nh_ucast_probes nh;
     nh_bcast_probes := nh_bcast_probes nh; nh_held_pkts_num := nh_held_pkts_num nh;
     nh_held_pkts_head := nh_held_pkts_head nh; nh_held_pkts_tail := nh_held_pkts_tail nh |}.

Definition nh_set_lladdr (v : rte_ether_addr) (nh : nexthop) : nexthop :=
  {| nh_flags := nh_flags nh; nh_lladdr := v; nh_vrf_id := nh_vrf_id nh;
     nh_iface_id := nh_iface_id nh; nh_ipv6 := nh_ipv6 nh;
     nh_last_reply := nh_last_reply nh; nh_last_request := nh_last_request nh;
     nh_ref_count := nh_ref_count nh; nh_ucast_probes := nh_ucast_probes nh;
     nh_bcast_probes := nh_bcast_probes nh; nh_held_pkts_num := nh_held_pkts_num nh;
     nh_held_pkts_head := nh_held_pkts_head nh; nh_held_pkts_tail := nh_held_pkts_tail nh |}.

Definition nh_set_iface_id (v : N) (nh : nexthop) : nexthop :=
  {| nh_flags := nh_flags nh; nh_lladdr := nh_lladdr nh; nh_vrf_id := nh_vrf_id nh;
     nh_iface_id := v; nh_ipv6 := nh_ipv6 nh;
     nh_last_reply := nh_last_reply nh; nh_last_request := nh_last_request nh;
     nh_ref_count := nh_ref_count nh; nh_ucast_probes := nh_ucast_probes nh;
     nh_bcast_probes := nh_bcast_probes nh; nh_held_pkts_num := nh_held_pkts_num nh;
     nh_held_pkts_head := nh_held_pkts_head nh; nh_held_pkts_tail := nh_held_pkts_tail nh |}.

Definition nh_set_last_reply (v : N) (nh : nexthop) : nexthop :=
  {| nh_flags := nh_flags nh; nh_lladdr := nh_lladdr nh; nh_vrf_id := nh_vrf_id nh;
     nh_iface_id := nh_iface_id nh; nh_ipv6 := nh_ipv6 nh;
     nh_last_reply := v; nh_last_request := nh_last_request nh;
     nh_ref_count := nh_ref_count nh; nh_ucast_probes := nh_ucast_probes nh;
     nh_bcast_probes := nh_bcast_probes nh; nh_held_pkts_num := nh_held_pkts_num nh;
     nh_held_pkts_head := nh_held_pkts_head nh; nh_held_pkts_tail := nh_held_pkts_tail nh |}.

Definition nh_set_last_request (v : N) (nh : nexthop) : nexthop :=
  {| nh_flags := nh_flags nh; nh_lladdr := nh_lladdr nh; nh_vrf_id := nh_vrf_id nh;
     nh_iface_id := nh_iface_id nh; nh_ipv6 := nh_ipv6 nh;
     nh_last_reply := nh_last_reply nh; nh_last_request := v;
     nh_ref_count := nh_ref_count nh; nh_ucast_probes := nh_ucast_probes nh;
     nh_bcast_probes := nh_bcast_probes nh; nh_held_pkts_num := nh_held_pkts_num nh;
     nh_held_pkts_head := nh_held_pkts_head nh; nh_held_pkts_tail := nh_held_pkts_tail nh |}.

Definition nh_set_ref_count (v : N) (nh : nexthop) : nexthop :=
  {| nh_flags := nh_flags nh; nh_lladdr := nh_lladdr nh; nh_vrf_id := nh_vrf_id nh;
     nh_iface_id := nh_iface_id nh; nh_ipv6 := nh_ipv6 nh;
     nh_last_reply := nh_last_reply nh; nh_last_request := nh_last_request nh;
     nh_ref_count := v; nh_ucast_probes := nh_ucast_probes nh;
     nh_bcast_probes := nh_bcast_probes nh; nh_held_pkts_num := nh_held_pkts_num nh;
     nh_held_pkts_head := nh_held_pkts_head nh; nh_held_pkts_tail := nh_held_pkts_tail nh |}.

Definition nh_set_ucast_probes (v : N) (nh : nexthop) : nexthop :=
  {| nh_flags := nh_flags nh; nh_lladdr := nh_lladdr nh; nh_vrf_id := nh_vrf_id nh;
     nh_iface_id := nh_iface_id nh; nh_ipv6 := nh_ipv6 nh;
     nh_last_reply := nh_last_reply nh; nh_last_request := nh_last_request nh;
     nh_ref_count := nh_ref_count nh; nh_ucast_probes := v;
     nh_bcast_probes := nh_bcast_probes nh; nh_held_pkts_num := nh_held_pkts_num nh;
     nh_held_pkts_head := nh_held_pkts_head nh; nh_held_pkts_tail := nh_held_pkts_tail nh |}.

Definition nh_set_bcast_probes (v : N) (nh : nexthop) : nexthop :=
  {| nh_flags := nh_flags nh; nh_lladdr := nh_lladdr nh; nh_vrf_id := nh_vrf_id nh;
     nh_iface_id := nh_iface_id nh; nh_ipv6 := nh_ipv6 nh;
     nh_last_reply := nh_last_reply nh; nh_last_request := nh_last_request nh;
     nh_ref_count := nh_ref_count nh; nh_ucast_probes := nh_ucast_probes nh;
     nh_bcast_probes := v; nh_held_pkts_num := nh_held_pkts_num nh;
     nh_held_pkts_head := nh_held_pkts_head nh; nh_held_pkts_tail := nh_held_pkts_tail nh |}.

Definition nh_set_held_pkts_num (v : N) (nh : nexthop) : nexthop :=
  {| nh_flags := nh_flags nh; nh_lladdr := nh_lladdr nh; nh_vrf_id := nh_vrf_id nh;
     nh_iface_id := nh_iface_id nh; nh_ipv6 := nh_ipv6 nh;
     nh_last_reply := nh_last_reply nh; nh_last_request := nh_last_request nh;
     nh_ref_count := nh_ref_count nh; nh_ucast_probes := nh_ucast_probes nh;
     nh_bcast_probes := nh_bcast_probes nh; nh_held_pkts_num := v;
     nh_held_pkts_head := nh_held_pkts_head nh; nh_held_pkts_tail := nh_held_pkts_tail nh |}.

Definition nh_set_held_pkts_head (v : option mbuf_ptr) (nh : nexthop) : nexthop :=
  {| nh_flags := nh_flags nh; nh_lladdr := nh_lladdr nh; nh_vrf_id := nh_vrf_id nh;
     nh_iface_id := nh_iface_id nh; nh_ipv6 := nh_ipv6 nh;
     nh_last_reply := nh_last_reply nh; nh_last_request := nh_last_request nh;
     nh_ref_count := nh_ref_count nh; nh_ucast_probes := nh_ucast_probes nh;
     nh_bcast_probes := nh_bcast_probes nh; nh_held_pkts_num := nh_held_pkts_num nh;
     nh_held_pkts_head := v; nh_held_pkts_tail := nh_held_pkts_tail nh |}.

Definition nh_set_held_pkts_tail (v : option mbuf_ptr) (nh : nexthop) : nexthop :=
  {| nh_flags := nh_flags nh; nh_lladdr := nh_lladdr nh; nh_vrf_id := nh_vrf_id nh;
     nh_iface_id := nh_iface_id nh; nh_ipv6 := nh_ipv6 nh;
     nh_last_reply := nh_last_reply nh; nh_last_request := nh_last_request nh;
     nh_ref_count := nh_ref_count nh; nh_ucast_probes := nh_ucast_probes nh;
     nh_bcast_probes := nh_bcast_probes nh; nh_held_pkts_num := nh_held_pkts_num nh;
     nh_held_pkts_head := nh_held_pkts_head nh; nh_held_pkts_tail := v |}.

(** *** Packets *)

Record rte_ipv6_hdr := {
  payload_len : N;
  proto : N;
  hop_limits : N;
  src_addr : rte_ipv6_addr;
  dst_addr : rte_ipv6_addr;
}.

(** an option of a neighbor discovery message that carries a link-layer address *)
Record icmp6_opt := {
  opt_type : N;
  opt_mac : rte_ether_addr;
}.

(** [struct icmp6] followed by [struct icmp6_neigh_solicit] or
    [struct icmp6_neigh_advert] (both end with the target address) and by the
    options. The three flags are those of an advertisement. *)
Record icmp6_msg := {
  icmp6_type : N;
  icmp6_code : N;
  na_router : bool;
  na_solicited : bool;
  na_override : bool;
  nd_target : rte_ipv6_addr;
  nd_opts : list icmp6_opt;
}.

(** the callbacks a data path node can name in [control_output_mbuf_data] *)
Inductive control_output_cb :=
  | cb_ndp_probe_input
  | cb_ip6_nexthop_unreachable.

(** A packet buffer as the code looks at it. [m_pkt_len] is
    [rte_pktmbuf_pkt_len]; [m_ip6] and [m_icmp6] are the views
    [rte_pktmbuf_mtod] gives of the packet data (a view the packet does not have
    holds unspecified values). The [md_] fields are the private metadata area:
    [md_iface] is shared by every typed view of it, the others are
    [ip6_output_mbuf_data.nh], [queue_mbuf_data.next], the fields of
    [ip6_local_mbuf_data], [control_output_mbuf_data.callback] and
    [control_input_mbuf_data.data]. That the typed views overlay one another in
    memory is not modelled. *)
Record rte_mbuf := {
  m_pkt_len : N;
  m_ip6 : rte_ipv6_hdr;
  m_icmp6 : icmp6_msg;
  md_iface : option iface;
  md_nh : option nh_ptr;
  md_next : option mbuf_ptr;
  md_src : rte_ipv6_addr;
  md_dst : rte_ipv6_addr;
  md_hop_limit : N;
  md_len : N;
  md_callback : option control_output_cb;
  md_data : option nh_ptr;
}.

Definition mbuf_set_next (v : option mbuf_ptr) (m : rte_mbuf) : rte_mbuf :=
  {| m_pkt_len := m_pkt_len m; m_ip6 := m_ip6 m; m_icmp6 := m_icmp6 m; md_iface := md_iface m; md_nh := md_nh m;
     md_next := v; md_src := md_src m; md_dst := md_dst m;
     md_hop_limit := md_hop_limit m; md_len := md_len m;
     md_callback := md_callback m; md_data := md_data m |}.

Definition mbuf_set_nh (v : option nh_ptr) (m : rte_mbuf) : rte_mbuf :=
  {| m_pkt_len := m_pkt_len m; m_ip6 := m_ip6 m; m_icmp6 := m_icmp6 m; md_iface := md_iface m; md_nh := v;
     md_next := md_next m; md_src := md_src m; md_dst := md_dst m;
     md_hop_limit := md_hop_limit m; md_len := md_len m;
     md_callback := md_callback m; md_data := md_data m |}.

Definition mbuf_set_iface (v : option iface) (m : rte_mbuf) : rte_mbuf :=
  {| m_pkt_len := m_pkt_len m; m_ip6 := m_ip6 m; m_icmp6 := m_icmp6 m; md_iface := v; md_nh := md_nh m;
     md_next := md_next m; md_src := md_src m; md_dst := md_dst m;
     md_hop_limit := md_hop_limit m; md_len := md_len m;
     md_callback := md_callback m; md_data := md_data m |}.

Definition mbuf_set_callback (v : option control_output_cb) (m : rte_mbuf) : rte_mbuf :=
  {| m_pkt_len := m_pkt_len m; m_ip6 := m_ip6 m; m_icmp6 := m_icmp6 m; md_iface := md_iface m; md_nh := md_nh m;
     md_next := md_next m; md_src := md_src m; md_dst := md_dst m;
     md_hop_limit := md_hop_limit m; md_len := md_len m;
     md_callback := v; md_data := md_data m |}.

Definition mbuf_set_ip6 (v : rte_ipv6_hdr) (m : rte_mbuf) : rte_mbuf :=
  {| m_pkt_len := m_pkt_len m; m_ip6 := v; m_icmp6 := m_icmp6 m; md_iface := md_iface m; md_nh := md_nh m;
     md_next := md_next m; md_src := md_src m; md_dst := md_dst m;
     md_hop_limit := md_hop_limit m; md_len := md_len m;
     md_callback := md_callback m; md_data := md_data m |}.

Definition mbuf_set_pkt_len (v : N) (m : rte_mbuf) : rte_mbuf :=
  {| m_pkt_len := v; m_ip6 := m_ip6 m; m_icmp6 := m_icmp6 m; md_iface := md_iface m;
     md_nh := md_nh m; md_next := md_next m; md_src := md_src m; md_dst := md_dst m;
     md_hop_limit := md_hop_limit m; md_len := md_len m;
     md_callback := md_callback m; md_data := md_data m |}.

Definition mbuf_set_icmp6 (v : icmp6_msg) (m : rte_mbuf) : rte_mbuf :=
  {| m_pkt_len := m_pkt_len m; m_ip6 := m_ip6 m; m_icmp6 := v; md_iface := md_iface m; md_nh := md_nh m;
     md_next := md_next m; md_src := md_src m; md_dst := md_dst m;
     md_hop_limit := md_hop_limit m; md_len := md_len m;
     md_callback := md_callback m; md_data := md_data m |}.

(** Modelled from the spec: [icmp6_get_opt] is not part of the sources at hand.
    It looks for the first option of the given type behind the message and
    copies its link-layer address out. *)
Definition icmp6_get_opt (msg : icmp6_msg) (type : N) : option rte_ether_addr :=
  opt_mac <$> List.find (λ o, N.eqb (opt_type o) type) (nd_opts msg).

(** *** The control/data bridge *)

(** handlers registered with [gr_control_input_register_handler] *)
Inductive control_input_t :=
  | ip6_output_node
  | ndp_solicit.

(** what is posted: a packet for a stack handler, a nexthop for [ndp_solicit] *)
Inductive control_input_data :=
  | data_mbuf (m : mbuf_ptr)
  | data_nh (nh : nh_ptr).

Record control_input_msg := {
  msg_type : control_input_t;
  msg_data : control_input_data;
}.

(** *** The state the control loop and the data path share *)

Record world := {
  w_pool : list (option nexthop);
  w_rib6 : gmap (N * N * N) nh_ptr;
  w_ifaces : gmap N iface;
  w_addrs : gmap N (list nh_ptr);
  w_mbufs : gmap mbuf_ptr rte_mbuf;
  w_ring : list control_input_msg;
  w_tsc : N;
}.

Definition w_set_pool (v : list (option nexthop)) (w : world) : world :=
  {| w_pool := v; w_rib6 := w_rib6 w; w_ifaces := w_ifaces w; w_addrs := w_addrs w;
     w_mbufs := w_mbufs w; w_ring := w_ring w; w_tsc := w_tsc w |}.

Definition w_set_rib6 (v : gmap (N * N * N) nh_ptr) (w : world) : world :=
  {| w_pool := w_pool w; w_rib6 := v; w_ifaces := w_ifaces w; w_addrs := w_addrs w;
     w_mbufs := w_mbufs w; w_ring := w_ring w; w_tsc := w_tsc w |}.

Definition w_set_mbufs (v : gmap mbuf_ptr rte_mbuf) (w : world) : world :=
  {| w_pool := w_pool w; w_rib6 := w_rib6 w; w_ifaces := w_ifaces w; w_addrs := w_addrs w;
     w_mbufs := v; w_ring := w_ring w; w_tsc := w_tsc w |}.

Definition w_set_ring (v : list control_input_msg) (w : world) : world :=
  {| w_pool := w_pool w; w_rib6 := w_rib6 w; w_ifaces := w_ifaces w; w_addrs := w_addrs w;
     w_mbufs := w_mbufs w; w_ring := v; w_tsc := w_tsc w |}.

(** a C [int] result: zero, or a failure with its [errno] *)
Inductive status :=
  | ok
  | failed (errno : N).

End Model.
Export Model.

(** ** Collaborators of the three source files *)

Module Infra.

(** the value a C function returns through a pointer, or its [errno] *)
Inductive result (A : Type) :=
  | Ret (a : A)
  | Err (errno : N).
Arguments Ret {A} a.
Arguments Err {A} errno.

(** *** Nexthop pool *)

Definition nexthop_init (vrf_id iface_id : N) (ip : rte_ipv6_addr) : nexthop :=
  {| nh_flags := 0; nh_lladdr := 0; nh_vrf_id := vrf_id; nh_iface_id := iface_id;
     nh_ipv6 := ip; nh_last_reply := 0; nh_last_request := 0; nh_ref_count := 0;
     nh_ucast_probes := 0; nh_bcast_probes := 0; nh_held_pkts_num := 0;
     nh_held_pkts_head := None; nh_held_pkts_tail := None |}.

Definition slot_is_free (s : option nexthop) : bool :=
  match s with
  | None => true
  | Some _ => false
  end.

(** Modelled from the spec: [nexthop_new] (section 4.A) is not part of the
    sources at hand. It fails with INVALID_ARG for a multicast or unspecified
    address and with NO_CAPACITY when the free list is empty; otherwise it takes
    a slot off the free list and initialises it for (vrf, iface, addr) with no
    reference yet. The free list is the [None] slots; which of them is taken is
    not said in section 4.A, and is here the one of lowest index. *)
Definition nexthop_new (pool : list (option nexthop)) (vrf_id iface_id : N)
    (ip : rte_ipv6_addr) : result (nh_ptr * list (option nexthop)) :=
  if rte_ipv6_addr_is_unspec ip || rte_ipv6_addr_is_mcast ip then Err EINVAL
  else
    match list_find (λ s, Is_true (slot_is_free s)) pool with
    | Some (i, _) => Ret (i, <[i := Some (nexthop_init vrf_id iface_id ip)]> pool)
    | None => Err ENOMEM
    end.

Definition nh_matches (vrf_id iface_id : N) (ip : rte_ipv6_addr)
    (s : option nexthop) : bool :=
  match s with
  | Some nh =>
      N.ltb 0 (nh_ref_count nh)
      && N.eqb (nh_vrf_id nh) vrf_id
      && rte_ipv6_addr_eq (nh_ipv6 nh) ip
      && (N.eqb iface_id GR_IFACE_ID_UNDEF || N.eqb (nh_iface_id nh) iface_id)
  | None => false
  end.

(** Modelled from the spec: [nexthop_lookup] (section 4.A) is not part of the
    sources at hand. The index is keyed by (vrf_id, iface_id, addr) and holds
    the nexthops with [ref_count > 0] (invariant 1); with [iface_id = UNDEF] any
    interface matches and the lowest index wins; a miss sets NOT_FOUND. *)
Definition nexthop_lookup (pool : list (option nexthop)) (vrf_id iface_id : N)
    (ip : rte_ipv6_addr) : result nh_ptr :=
  match list_find (λ s, Is_true (nh_matches vrf_id iface_id ip s)) pool with
  | Some (i, _) => Ret i
  | None => Err ENOENT
  end.

(** Modelled from the spec: [incref] and [decref] (section 4.A) adjust
    [ref_count]; when it reaches zero the entry returns to the free list. *)
Definition nexthop_incref (pool : list (option nexthop)) (p : nh_ptr) :
    list (option nexthop) :=
  match pool !! p with
  | Some (Some nh) => <[p := Some (nh_set_ref_count (nh_ref_count nh + 1) nh)]> pool
  | _ => pool
  end.

Definition nexthop_decref (pool : list (option nexthop)) (p : nh_ptr) :
    list (option nexthop) :=
  match pool !! p with
  | Some (Some nh) =>
      if N.leb (nh_ref_count nh) 1 then <[p := None]> pool
      else <[p := Some (nh_set_ref_count (nh_ref_count nh - 1) nh)]> pool
  | _ => pool
  end.

(** the nexthop a pointer refers to *)
Definition nh_at (w : world) (p : nh_ptr) : option nexthop :=
  match w_pool w !! p with
  | Some s => s
  | None => None
  end.

(** a store through a nexthop pointer *)
Definition nh_update (p : nh_ptr) (f : nexthop → nexthop) (w : world) : world :=
  match nh_at w p with
  | Some nh => w_set_pool (<[p := Some (f nh)]> (w_pool w)) w
  | None => w
  end.

(** *** Route table *)

(** the prefix of the given depth of an address *)
Definition prefix_of (ip : rte_ipv6_addr) (depth : N) : rte_ipv6_addr :=
  N.shiftl (N.shiftr ip (128 - depth)) (128 - depth).

Definition rib6_key (vrf_id : N) (ip : rte_ipv6_addr) (depth : N) : N * N * N :=
  (vrf_id, prefix_of ip depth, depth).

(** longest prefix first *)
Fixpoint rib6_lpm (rib : gmap (N * N * N) nh_ptr) (vrf_id : N) (ip : rte_ipv6_addr)
    (depth : nat) : option nh_ptr :=
  match rib !! rib6_key vrf_id ip (N.of_nat depth) with
  | Some nh => Some nh
  | None =>
      match depth with
      | O => None
      | S d => rib6_lpm rib vrf_id ip d
      end
  end.

Section Capacities.

(** number of routes the table of one address family can hold *)
Variable IP6_MAX_ROUTES : nat.
(** size of the ring that carries posts from the control loop to the data path *)
Variable RING_SIZE : nat.
(** number of buffers of the packet pool *)
Variable MBUF_POOL_SIZE : nat.

(** Modelled from the spec: the route table (section 6) is a collaborator of
    which only the contracts [route_lookup(vrf, iface, addr) -> nh | null],
    [route_insert(vrf, iface, addr, prefix_len, nh) -> 0/err] and
    [route_delete(vrf, iface, addr, prefix_len) -> 0/err] are given. The table
    is keyed by (vrf, prefix, prefix_len); the interface argument is carried
    and not used. A lookup is a longest prefix match. An insert takes a
    reference on the nexthop, overwrites an entry already there and fails when
    the table is full. A delete fails when the entry is not there and drops the
    reference of the route (nexthop.c, line 247: "this also does
    ip6_nexthop_decref(), freeing the next hop"). *)
Definition ip6_route_lookup (w : world) (vrf_id iface_id : N) (ip : rte_ipv6_addr) :
    option nh_ptr :=
  rib6_lpm (w_rib6 w) vrf_id ip 128.

Definition ip6_route_insert (w : world) (vrf_id iface_id : N) (ip : rte_ipv6_addr)
    (depth : N) (nh : nh_ptr) : status * world :=
  let key := rib6_key vrf_id ip depth in
  if bool_decide (is_Some (w_rib6 w !! key)) || bool_decide (size (w_rib6 w) < IP6_MAX_ROUTES) then
    (ok, w_set_pool (nexthop_incref (w_pool w) nh) (w_set_rib6 (<[key := nh]> (w_rib6 w)) w))
  else (failed ENOSPC, w).

Definition ip6_route_delete (w : world) (vrf_id iface_id : N) (ip : rte_ipv6_addr)
    (depth : N) : status * world :=
  let key := rib6_key vrf_id ip depth in
  match w_rib6 w !! key with
  | Some nh =>
      (ok, w_set_pool (nexthop_decref (w_pool w) nh) (w_set_rib6 (delete key (w_rib6 w)) w))
  | None => (failed ENOENT, w)
  end.

(** *** Interfaces *)

(** Modelled from the spec: [iface_from_id(id) -> iface | null] (section 6);
    an unknown id is the NoDevice error (section 7). *)
Definition iface_from_id (w : world) (id : N) : result iface :=
  match w_ifaces w !! id with
  | Some i => Ret i
  | None => Err ENODEV
  end.

(** *** Control/data bridge *)

(** Modelled from the spec: [post_to_stack(handler_id, payload)] (section 4.F)
    is not part of the sources at hand. It enqueues one unit, never blocks, and
    fails with AGAIN when the ring is full. *)
Definition post_to_stack (type : control_input_t) (data : control_input_data)
    (w : world) : status * world :=
  if bool_decide (length (w_ring w) < RING_SIZE) then
    (ok, w_set_ring (w_ring w ++ [{| msg_type := type; msg_data := data |}]) w)
  else (failed EAGAIN, w).

(** *** Packet buffers *)

Definition rte_pktmbuf_free (m : mbuf_ptr) (w : world) : world :=
  w_set_mbufs (delete m (w_mbufs w)) w.

(** what [rte_pktmbuf_copy] writes to the new buffer: the packet data is
    copied, the private metadata area is not written (it is empty here) *)
Definition copy_of (b : rte_mbuf) : rte_mbuf :=
  {| m_pkt_len := m_pkt_len b; m_ip6 := m_ip6 b; m_icmp6 := m_icmp6 b;
     md_iface := None; md_nh := None; md_next := None; md_src := 0; md_dst := 0;
     md_hop_limit := 0; md_len := 0; md_callback := None; md_data := None |}.

(** [rte_pktmbuf_copy(m, m->pool, 0, UINT32_MAX)]: a copy of the packet data in
    a buffer taken from the pool; [None] when the pool is empty *)
Definition rte_pktmbuf_copy (m : mbuf_ptr) (w : world) : option (mbuf_ptr * world) :=
  match w_mbufs w !! m with
  | Some buf =>
      if bool_decide (size (w_mbufs w) < MBUF_POOL_SIZE) then
        let c := fresh (dom (w_mbufs w)) in
        Some (c, w_set_mbufs (<[c := copy_of buf]> (w_mbufs w)) w)
      else None
  | None => None
  end.

(** a store through a packet pointer *)
Definition mbuf_update (m : mbuf_ptr) (f : rte_mbuf → rte_mbuf) (w : world) : world :=
  w_set_mbufs (alter f m (w_mbufs w)) w.

End Capacities.

(** [rte_get_tsc_cycles()] *)
Definition rte_get_tsc_cycles (w : world) : N := w_tsc w.

End Infra.
Export Infra.

(** ** How a C function ends *)

Module Outcome.

Inductive outcome (A : Type) :=
  | Done (a : A)   (* the function returned *)
  | Aborted        (* ABORT(...) *)
  | Fault          (* a load through NULL or through a pointer to a freed object *)
  | OutOfFuel.     (* the loop did not end within the fuel given *)
Arguments Done {A} a.
Arguments Aborted {A}.
Arguments Fault {A}.
Arguments OutOfFuel {A}.

#[global] Instance outcome_ret : MRet outcome := λ A a, Done a.

#[global] Instance outcome_bind : MBind outcome := λ A B f o,
  match o with
  | Done a => f a
  | Aborted => Aborted
  | Fault => Fault
  | OutOfFuel => OutOfFuel
  end.

#[global] Instance outcome_fmap : FMap outcome := λ A B f o,
  match o with
  | Done a => Done (f a)
  | Aborted => Aborted
  | Fault => Fault
  | OutOfFuel => OutOfFuel
  end.

(** a load through a pointer *)
Definition deref {A : Type} (o : option A) : outcome A :=
  match o with
  | Some a => Done a
  | None => Fault
  end.

End Outcome.
Export Outcome.

(** ** modules/ip6/datapath/ndp_ns_output.c *)

Module NdpNsOutput.

Inductive edge :=
  | OUTPUT
  | ERROR.

(** fe80::/10 *)
Definition rte_ipv6_addr_is_linklocal (a : rte_ipv6_addr) : bool :=
  N.eqb (N.shiftr a 118) 0x3fa.

(** Modelled from the spec: [ip6_addr_get_preferred] is not part of the sources
    at hand. Section 4.C: the source address of a solicit is the preferred
    address of the outgoing interface matching the target's scope; there may be
    none. The addresses of an interface are LOCAL nexthops; the first one whose
    scope (link-local or not) is that of the target is preferred. *)
Definition ip6_addr_get_preferred (w : world) (iface_id : N) (ip : rte_ipv6_addr) :
    option nh_ptr :=
  List.find
    (λ p, match nh_at w p with
          | Some a => Bool.eqb (rte_ipv6_addr_is_linklocal (nh_ipv6 a))
                               (rte_ipv6_addr_is_linklocal ip)
          | None => false
          end)
    (default [] (w_addrs w !! iface_id)).

(** Modelled from the spec: [ip6_set_fields(ip, len, proto, src, dst)] is an
    inline helper of a header that is not part of the sources at hand; it fills
    the IPv6 header, for NDP with hop limit 255 (section 4.D). *)
Definition ip6_set_fields (len proto : N) (src dst : rte_ipv6_addr) : rte_ipv6_hdr :=
  {| payload_len := len; proto := proto; hop_limits := 255;
     src_addr := src; dst_addr := dst |}.

(** sizes of [struct rte_ipv6_hdr], [struct icmp6], [struct icmp6_neigh_solicit] (and
    [icmp6_neigh_advert]), [struct icmp6_opt], [struct icmp6_opt_lladdr] on the
    wire (RFC 4443, RFC 4861) *)
Definition sizeof_ipv6_hdr : N := 40.
Definition sizeof_icmp6 : N := 4.
Definition sizeof_neigh : N := 20.
Definition sizeof_icmp6_opt : N := 2.
Definition sizeof_icmp6_opt_lladdr : N := 6.

Section Process.

Variable NH_UCAST_PROBES : N.
Variable RING_SIZE : nat.

(** [int ip6_nexthop_solicit(struct nexthop *nh)] *)
Definition ip6_nexthop_solicit (nh : option nh_ptr) (w : world) : status * world :=
  match nh with
  | None => (failed EINVAL, w)
  | Some p => post_to_stack RING_SIZE ndp_solicit (data_nh p) w
  end.

(** the body of the loop of [ndp_ns_output_process] for one object: the edge the
    buffer is enqueued to and the state it leaves. The ICMPv6 checksum and the
    trace records are not modelled. *)
Definition ndp_ns_output_one (w : world) (mbuf : mbuf_ptr) : outcome (edge * world) :=
  buf ← deref (w_mbufs w !! mbuf);
  match md_data buf with
  | None => Done (ERROR, w)
  | Some nh =>
      n ← deref (nh_at w nh);
      match ip6_addr_get_preferred w (nh_iface_id n) (nh_ipv6 n) with
      | None => Done (ERROR, w)
      | Some local =>
          l ← deref (nh_at w local);
          (* Fill ICMP6 layer. *)
          let icmp6 :=
            {| icmp6_type := ICMP6_TYPE_NEIGH_SOLICIT; icmp6_code := 0;
               na_router := false; na_solicited := false; na_override := false;
               nd_target := nh_ipv6 n;
               nd_opts := [{| opt_type := ICMP6_OPT_SRC_LLADDR;
                              opt_mac := nh_lladdr l |}] |} in
          let '(dst, w1) :=
            if negb (N.eqb (nh_last_reply n) 0)
               && N.ltb (nh_ucast_probes n) NH_UCAST_PROBES
            then (nh_ipv6 n,
                  nh_update nh (λ x, nh_set_ucast_probes (nh_ucast_probes x + 1) x) w)
            else (rte_ipv6_solnode_from_addr (nh_ipv6 n),
                  nh_update nh (λ x, nh_set_bcast_probes (nh_bcast_probes x + 1) x) w) in
          (* Fill IPv6 layer *)
          let payload_len :=
            (m_pkt_len buf + sizeof_icmp6 + sizeof_neigh + sizeof_icmp6_opt
             + sizeof_icmp6_opt_lladdr)%N in
          l1 ← deref (nh_at w1 local);
          let ip := ip6_set_fields payload_len IPPROTO_ICMPV6 (nh_ipv6 l1) dst in
          let w2 := nh_update nh (nh_set_last_request (rte_get_tsc_cycles w1)) w1 in
          let w3 :=
            mbuf_update mbuf
              (λ b, mbuf_set_nh (Some nh)
                      (mbuf_set_pkt_len (payload_len + sizeof_ipv6_hdr)
                         (mbuf_set_ip6 ip (mbuf_set_icmp6 icmp6 b)))) w2 in
          Done (OUTPUT, w3)
      end
  end.

(** [ndp_ns_output_process]: the objects in order, each enqueued to its edge *)
Fixpoint ndp_ns_output_process (w : world) (objs : list mbuf_ptr) :
    outcome (list (edge * mbuf_ptr) * world) :=
  match objs with
  | [] => Done ([], w)
  | mbuf :: rest =>
      '(next, w1) ← ndp_ns_output_one w mbuf;
      '(out, w2) ← ndp_ns_output_process w1 rest;
      Done ((next, mbuf) :: out, w2)
  end.

End Process.

End NdpNsOutput.

(** ** modules/ip6/control/nexthop.c *)

Module Control.

(** the fields of [struct gr_nexthop] a request carries *)
Record gr_nexthop := {
  api_ipv6 : rte_ipv6_addr;
  api_iface_id : N;
  api_vrf_id : N;
  api_mac : rte_ether_addr;
}.

Record gr_ip6_nh_add_req := {
  add_nh : gr_nexthop;
  add_exist_ok : bool;
}.

Record gr_ip6_nh_del_req := {
  del_vrf_id : N;
  del_host : rte_ipv6_addr;
  del_missing_ok : bool;
}.

Section Callbacks.

Variable NH_MAX_HELD_PKTS : N.
Variable MAX_VRFS : N.
Variable IP6_MAX_ROUTES : nat.
Variable RING_SIZE : nat.

(** the static [nh_pool] is the pool of the state *)
Definition ip6_nexthop_new (w : world) (vrf_id iface_id : N) (ip : rte_ipv6_addr) :
    result (nh_ptr * world) :=
  match nexthop_new (w_pool w) vrf_id iface_id ip with
  | Ret (p, pool) => Ret (p, w_set_pool pool w)
  | Err e => Err e
  end.

Definition ip6_nexthop_lookup (w : world) (vrf_id iface_id : N) (ip : rte_ipv6_addr) :
    result nh_ptr :=
  nexthop_lookup (w_pool w) vrf_id iface_id ip.

(** the label [free:] of both callbacks *)
Definition free (m : mbuf_ptr) (w : world) : outcome world :=
  Done (rte_pktmbuf_free m w).

(** lines 48-84 of [ip6_nexthop_unreachable_cb]: the nexthop the packet is to
    wait for, or [None] when the callback has gone to [free:] *)
Definition unreachable_resolve (w : world) (m : mbuf_ptr) :
    outcome (option nh_ptr * world) :=
  buf ← deref (w_mbufs w !! m);
  let dst := dst_addr (m_ip6 buf) in
  ifc ← deref (md_iface buf);
  match ip6_route_lookup w (if_vrf_id ifc) (if_id ifc) dst with
  | None => Done (None, w) (* route to dst has disappeared *)
  | Some nh =>
      n ← deref (nh_at w nh);
      if has_flag (nh_flags n) GR_NH_F_LINK && negb (rte_ipv6_addr_eq dst (nh_ipv6 n)) then
        let found := ip6_nexthop_lookup w (nh_vrf_id n) (if_id ifc) dst in
        r1 ← match found with
             | Err _ =>
                 (* No existing nexthop for this IP, create one. *)
                 match ip6_nexthop_new w (nh_vrf_id n) (nh_iface_id n) dst with
                 | Ret (remote, w1) => Done (Some remote, w1)
                 | Err _ => Done (None, w)
                 end
             | Ret remote =>
                 r ← deref (nh_at w remote);
                 if has_flag (nh_flags r) GR_NH_F_GATEWAY && N.eqb (nh_iface_id r) 0 then
                   (* Gateway route with uninitialized destination. *)
                   Done (Some remote, nh_update remote (nh_set_iface_id (nh_iface_id n)) w)
                 else Done (Some remote, w)
             end;
        match r1 with
        | (None, w1) => Done (None, w1) (* cannot allocate nexthop *)
        | (Some remote, w1) =>
            r ← deref (nh_at w1 remote);
            n1 ← deref (nh_at w1 nh);
            if negb (N.eqb (nh_iface_id r) (nh_iface_id n1)) then Aborted
            else
              match ip6_route_insert IP6_MAX_ROUTES w1 (nh_vrf_id n1) (nh_iface_id n1) dst
                      RTE_IPV6_MAX_DEPTH remote with
              | (failed _, w2) => Done (None, w2) (* failed to insert route *)
              | (ok, w2) => Done (Some remote, w2)
              end
        end
      else Done (Some nh, w)
  end.

(** lines 86-113 of [ip6_nexthop_unreachable_cb] for the nexthop resolved *)
Definition unreachable_hold (w : world) (m : mbuf_ptr) (nh : nh_ptr) : outcome world :=
  n ← deref (nh_at w nh);
  if has_flag (nh_flags n) GR_NH_F_REACHABLE then
    (* The nexthop may have become reachable while the packet was passed from
       the datapath to here. Re-send it to datapath. *)
    let w1 := mbuf_update m (mbuf_set_nh (Some nh)) w in
    match post_to_stack RING_SIZE ip6_output_node (data_mbuf m) w1 with
    | (failed _, w2) => free m w2
    | (ok, w2) => Done w2
    end
  else if N.ltb (nh_held_pkts_num n) NH_MAX_HELD_PKTS then
    let w1 := mbuf_update m (mbuf_set_next None) w in
    w2 ← match nh_held_pkts_head n with
         | None => Done (nh_update nh (nh_set_held_pkts_head (Some m)) w1)
         | Some _ =>
             tail ← deref (nh_held_pkts_tail n);
             _ ← deref (w_mbufs w1 !! tail);
             Done (mbuf_update tail (mbuf_set_next (Some m)) w1)
         end;
    let w3 := nh_update nh (nh_set_held_pkts_tail (Some m)) w2 in
    let w4 := nh_update nh (λ x, nh_set_held_pkts_num (nh_held_pkts_num x + 1) x) w3 in
    n4 ← deref (nh_at w4 nh);
    if negb (has_flag (nh_flags n4) GR_NH_F_PENDING) then
      let w5 := snd (NdpNsOutput.ip6_nexthop_solicit RING_SIZE (Some nh) w4) in
      Done (nh_update nh (λ x, nh_set_flags (set_flag (nh_flags x) GR_NH_F_PENDING) x) w5)
    else Done w4
  else
    (* hold queue full *)
    free m w.

(** [void ip6_nexthop_unreachable_cb(struct rte_mbuf *m)] *)
Definition ip6_nexthop_unreachable_cb (w : world) (m : mbuf_ptr) : outcome world :=
  r ← unreachable_resolve w m;
  match r with
  | (None, w1) => free m w1
  | (Some nh, w1) => unreachable_hold w1 m nh
  end.

(** the loop that flushes the held packets, lines 184-195; the result of
    [post_to_stack] is not looked at *)
Fixpoint flush_held (fuel : nat) (nh : nh_ptr) (held : option mbuf_ptr) (w : world) :
    outcome world :=
  match held with
  | None => Done w
  | Some h =>
      match fuel with
      | O => OutOfFuel
      | S fuel' =>
          b ← deref (w_mbufs w !! h);
          let next := md_next b in
          let w1 := mbuf_update h (λ o, mbuf_set_iface None (mbuf_set_nh (Some nh) o)) w in
          let w2 := snd (post_to_stack RING_SIZE ip6_output_node (data_mbuf h) w1) in
          flush_held fuel' nh next w2
      end
  end.

(** lines 170-198 of [ndp_probe_input_cb] for the nexthop looked up or created *)
Definition probe_refresh (fuel : nat) (w : world) (m : mbuf_ptr) (ifc : iface)
    (mac : rte_ether_addr) (nh : nh_ptr) : outcome world :=
  n ← deref (nh_at w nh);
  (* Static next hops never need updating. *)
  if has_flag (nh_flags n) GR_NH_F_STATIC then free m w
  else
    (* Refresh all fields. *)
    let w1 :=
      nh_update nh
        (λ x,
           let x := nh_set_last_reply (rte_get_tsc_cycles w) x in
           let x := nh_set_iface_id (if_id ifc) x in
           let x := nh_set_flags (set_flag (nh_flags x) GR_NH_F_REACHABLE) x in
           let x := nh_set_flags
                      (clear_flag (nh_flags x)
                         (N.lor (N.lor GR_NH_F_STALE GR_NH_F_PENDING) GR_NH_F_FAILED)) x in
           let x := nh_set_ucast_probes 0 x in
           let x := nh_set_bcast_probes 0 x in
           nh_set_lladdr mac x) w in
    (* Flush all held packets. *)
    n1 ← deref (nh_at w1 nh);
    w2 ← flush_held fuel nh (nh_held_pkts_head n1) w1;
    let w3 :=
      nh_update nh
        (λ x, nh_set_held_pkts_num 0
                (nh_set_held_pkts_tail None (nh_set_held_pkts_head None x))) w2 in
    free m w3.

(** lines 128-149 of [ndp_probe_input_cb]: the address of the probe sender and
    the link-layer address of the option; [None] is [goto free] *)
Definition probe_parse (icmp6 : icmp6_msg) : option (rte_ipv6_addr * rte_ether_addr) :=
  if N.eqb (icmp6_type icmp6) ICMP6_TYPE_NEIGH_SOLICIT then
    (* the target IP contains the SOURCE address of the NS sender *)
    match icmp6_get_opt icmp6 ICMP6_OPT_SRC_LLADDR with
    | Some mac => Some (nd_target icmp6, mac)
    | None => None
    end
  else if N.eqb (icmp6_type icmp6) ICMP6_TYPE_NEIGH_ADVERT then
    match icmp6_get_opt icmp6 ICMP6_OPT_TARGET_LLADDR with
    | Some mac => Some (nd_target icmp6, mac)
    | None => None
    end
  else None.

(** lines 151-168 of [ndp_probe_input_cb]: the nexthop looked up or created;
    [None] is [goto free] *)
Definition probe_nexthop (w : world) (ifc : iface) (target : rte_ipv6_addr) :
    option nh_ptr * world :=
  match ip6_nexthop_lookup w (if_vrf_id ifc) (if_id ifc) target with
  | Ret nh => (Some nh, w)
  | Err _ =>
      (* We don't have an entry for the probe sender address yet. *)
      match ip6_nexthop_new w (if_vrf_id ifc) (if_id ifc) target with
      | Err _ => (None, w)
      | Ret (nh, w1) =>
          (* Add an internal /128 route to reference the newly created nexthop. *)
          match ip6_route_insert IP6_MAX_ROUTES w1 (if_vrf_id ifc) (if_id ifc) target
                  RTE_IPV6_MAX_DEPTH nh with
          | (failed _, w2) => (None, w2)
          | (ok, w2) => (Some nh, w2)
          end
      end
  end.

(** [void ndp_probe_input_cb(struct rte_mbuf *m)] *)
Definition ndp_probe_input_cb (fuel : nat) (w : world) (m : mbuf_ptr) : outcome world :=
  buf ← deref (w_mbufs w !! m);
  match probe_parse (m_icmp6 buf) with
  | None => free m w
  | Some (target, mac) =>
      ifc ← deref (md_iface buf);
      match probe_nexthop w ifc target with
      | (None, w1) => free m w1
      | (Some nh, w1) => probe_refresh fuel w1 m ifc mac nh
      end
  end.

(** [nh6_add]: the code given to [api_out] and the state left *)
Definition nh6_add (w : world) (req : gr_ip6_nh_add_req) : outcome (N * world) :=
  let rnh := add_nh req in
  if rte_ipv6_addr_is_unspec (api_ipv6 rnh) || rte_ipv6_addr_is_mcast (api_ipv6 rnh) then
    Done (EINVAL, w)
  else if N.leb MAX_VRFS (api_vrf_id rnh) then Done (EOVERFLOW, w)
  else
    match iface_from_id w (api_iface_id rnh) with
    | Err e => Done (e, w)
    | Ret _ =>
        match ip6_nexthop_lookup w (api_vrf_id rnh) (api_iface_id rnh) (api_ipv6 rnh) with
        | Ret nh =>
            n ← deref (nh_at w nh);
            if add_exist_ok req
               && N.eqb (api_iface_id rnh) (nh_iface_id n)
               && rte_is_same_ether_addr (api_mac rnh) (nh_lladdr n)
            then Done (0%N, w)
            else Done (EEXIST, w)
        | Err _ =>
            match ip6_nexthop_new w (api_vrf_id rnh) (api_iface_id rnh) (api_ipv6 rnh) with
            | Err e => Done (e, w)
            | Ret (nh, w1) =>
                let w2 := nh_update nh (nh_set_lladdr (api_mac rnh)) w1 in
                let w3 :=
                  nh_update nh (nh_set_flags (N.lor GR_NH_F_STATIC GR_NH_F_REACHABLE)) w2 in
                n ← deref (nh_at w3 nh);
                match ip6_route_insert IP6_MAX_ROUTES w3 (nh_vrf_id n) (nh_iface_id n)
                        (nh_ipv6 n) RTE_IPV6_MAX_DEPTH nh with
                | (ok, w4) => Done (0%N, w4)
                | (failed e, w4) => Done (e, w4)
                end
            end
        end
    end.

(** [nh6_del] *)
Definition nh6_del (w : world) (req : gr_ip6_nh_del_req) : outcome (N * world) :=
  if N.leb MAX_VRFS (del_vrf_id req) then Done (EOVERFLOW, w)
  else
    match ip6_nexthop_lookup w (del_vrf_id req) GR_IFACE_ID_UNDEF (del_host req) with
    | Err e =>
        if N.eqb e ENOENT && del_missing_ok req then Done (0%N, w) else Done (e, w)
    | Ret nh =>
        n ← deref (nh_at w nh);
        if has_flag (nh_flags n) (N.lor (N.lor GR_NH_F_LOCAL GR_NH_F_LINK) GR_NH_F_GATEWAY)
           || N.ltb 1 (nh_ref_count n)
        then Done (EBUSY, w)
        else
          (* this also does ip6_nexthop_decref(), freeing the next hop *)
          match ip6_route_delete w (del_vrf_id req) GR_IFACE_ID_UNDEF (del_host req)
                  RTE_IPV6_MAX_DEPTH with
          | (failed e, w1) => Done (e, w1)
          | (ok, w1) => Done (0%N, w1)
          end
    end.

End Callbacks.

End Control.

(** ** modules/ip6/datapath/ndp_ns_input.c *)

Module NdpNsInput.

Inductive edge :=
  | IP_OUTPUT
  | CONTROL
  | INVAL
  | ERROR
  | IGNORE.

Definition icmp6_set_target (v : rte_ipv6_addr) (msg : icmp6_msg) : icmp6_msg :=
  {| icmp6_type := icmp6_type msg; icmp6_code := icmp6_code msg;
     na_router := na_router msg; na_solicited := na_solicited msg;
     na_override := na_override msg; nd_target := v; nd_opts := nd_opts msg |}.

(** what lines 95-140 leave for the reply: the address the reply goes to, the
    Solicited flag, the nexthop of the sender if there is one, and the buffers
    enqueued to the control edge *)
Record reply_plan := {
  rp_dst : rte_ipv6_addr;
  rp_solicited : bool;
  rp_remote : option nh_ptr;
  rp_enqueued : list (edge * mbuf_ptr);
  rp_world : world;
}.

Section Process.

Variable MBUF_POOL_SIZE : nat.

(** lines 95-140: [inl next] is [goto next] with that edge *)
Definition ns_plan (w : world) (mbuf : mbuf_ptr) (ifc : iface) (src dst : rte_ipv6_addr)
    (lladdr_found : bool) : edge + reply_plan :=
  if rte_ipv6_addr_is_unspec src then
    if negb (rte_ipv6_addr_is_mcast dst) then inl INVAL
    else if negb (negb lladdr_found) then inl INVAL
    else
      inr {| rp_dst := RTE_IPV6_ADDR_ALLNODES_LINK_LOCAL; rp_solicited := false;
             rp_remote := None; rp_enqueued := []; rp_world := w |}
  else
    let remote :=
      match Control.ip6_nexthop_lookup w (if_vrf_id ifc) (if_id ifc) src with
      | Ret p => Some p
      | Err _ => None
      end in
    if lladdr_found then
      (* Copy the NS probe and send it to control plane for processing. *)
      match rte_pktmbuf_copy MBUF_POOL_SIZE mbuf w with
      | None => inl ERROR
      | Some (copy, w1) =>
          let w2 :=
            mbuf_update copy
              (λ c, mbuf_set_callback (Some cb_ndp_probe_input)
                      (mbuf_set_iface (Some ifc)
                         (mbuf_set_icmp6 (icmp6_set_target src (m_icmp6 c)) c))) w1 in
          inr {| rp_dst := src; rp_solicited := true; rp_remote := remote;
                 rp_enqueued := [(CONTROL, copy)]; rp_world := w2 |}
      end
    else
      inr {| rp_dst := src; rp_solicited := true; rp_remote := remote;
             rp_enqueued := []; rp_world := w |}.

(** lines 142-173: the buffer is reused for the neighbor advertisement *)
Definition forge_advert (solicited : bool) (local : nexthop) (nh : nh_ptr)
    (dst : rte_ipv6_addr) (b : rte_mbuf) : rte_mbuf :=
  let icmp6 :=
    {| icmp6_type := ICMP6_TYPE_NEIGH_ADVERT; icmp6_code := 0;
       na_router := true; na_solicited := solicited; na_override := true;
       nd_target := nh_ipv6 local;
       nd_opts := [{| opt_type := ICMP6_OPT_TARGET_LLADDR; opt_mac := nh_lladdr local |}] |} in
  let payload_len :=
    (NdpNsOutput.sizeof_icmp6 + NdpNsOutput.sizeof_neigh + NdpNsOutput.sizeof_icmp6_opt
     + NdpNsOutput.sizeof_icmp6_opt_lladdr)%N in
  let ip := NdpNsOutput.ip6_set_fields payload_len IPPROTO_ICMPV6 (nd_target icmp6) dst in
  mbuf_set_pkt_len (payload_len + NdpNsOutput.sizeof_ipv6_hdr)
    (mbuf_set_ip6 ip (mbuf_set_nh (Some nh) (mbuf_set_icmp6 icmp6 b))).

(** the body of the loop of [ndp_ns_input_process] for one object: the buffers
    enqueued, in order, each with its edge, and the state left. The ICMPv6
    checksum and the trace records are not modelled. *)
Definition ndp_ns_input_one (w : world) (mbuf : mbuf_ptr) :
    outcome (list (edge * mbuf_ptr) * world) :=
  buf ← deref (w_mbufs w !! mbuf);
  let icmp6 := m_icmp6 buf in
  let src := md_src buf in
  let dst := md_dst buf in
  (* Validation of Neighbor Solicitations *)
  if negb (N.eqb (md_hop_limit buf) 255) then Done ([(INVAL, mbuf)], w)
  else if negb (N.eqb (icmp6_code icmp6) 0) then Done ([(INVAL, mbuf)], w)
  else if negb (N.leb 0 (md_len buf)) then Done ([(INVAL, mbuf)], w)
  else if negb (negb (rte_ipv6_addr_is_mcast (nd_target icmp6))) then Done ([(INVAL, mbuf)], w)
  else
    ifc ← deref (md_iface buf);
    match Control.ip6_nexthop_lookup w (if_vrf_id ifc) (if_id ifc) (nd_target icmp6) with
    | Err _ => Done ([(IGNORE, mbuf)], w)
    | Ret local =>
        l ← deref (nh_at w local);
        if negb (has_flag (nh_flags l) GR_NH_F_LOCAL) then Done ([(IGNORE, mbuf)], w)
        else
          let lladdr_found :=
            bool_decide (is_Some (icmp6_get_opt icmp6 ICMP6_OPT_SRC_LLADDR)) in
          match ns_plan w mbuf ifc src dst lladdr_found with
          | inl next => Done ([(next, mbuf)], w)
          | inr plan =>
              let w1 := rp_world plan in
              l1 ← deref (nh_at w1 local);
              let nh := default local (rp_remote plan) in
              let w2 :=
                mbuf_update mbuf (forge_advert (rp_solicited plan) l1 nh (rp_dst plan)) w1 in
              Done (rp_enqueued plan ++ [(IP_OUTPUT, mbuf)], w2)
          end
    end.

(** [ndp_ns_input_process]: the objects in order *)
Fixpoint ndp_ns_input_process (w : world) (objs : list mbuf_ptr) :
    outcome (list (edge * mbuf_ptr) * world) :=
  match objs with
  | [] => Done ([], w)
  | mbuf :: rest =>
      '(out1, w1) ← ndp_ns_input_one w mbuf;
      '(out2, w2) ← ndp_ns_input_process w1 rest;
      Done (out1 ++ out2, w2)
  end.

End Process.

End NdpNsInput.

(** ** modules/ip6/control/nexthop.c: NH_LIST *)

Module ControlList.

Import Control.

(** [struct gr_nexthop] as [nh_list_cb] fills it. The width of [age] and
    [held_pkts] is that of a header that is not part of the sources at hand:
    the values are kept as they are computed. *)
Record gr_nexthop_entry := {
  e_ipv6 : rte_ipv6_addr;
  e_iface_id : N;
  e_vrf_id : N;
  e_mac : rte_ether_addr;
  e_flags : N;
  e_age : N;
  e_held_pkts : N;
}.

Record gr_ip6_nh_list_req := {
  list_vrf_id : N;
}.

(** [struct gr_ip6_nh_list_resp]: a count and the array behind it *)
Record gr_ip6_nh_list_resp := {
  n_nhs : N;
  nhs : list gr_nexthop_entry;
}.

Definition UINT16_MAX : N := 65535.

(** the difference of two [uint64_t] *)
Definition u64_sub (a b : N) : N := ((a + 2 ^ 64 - b mod 2 ^ 64) mod 2 ^ 64)%N.
#[global] Arguments u64_sub : simpl never.

(** Modelled from the spec: [nh_pool_iter] (section 4.A, [iter(callback, ctx)])
    is not part of the sources at hand. It is a traversal of all live entries,
    the nexthops of the index ([ref_count > 0], invariant 1), in the order of
    the pool. *)
Definition nh_pool_iter {A : Type} (pool : list (option nexthop))
    (cb : nexthop → A → A) (priv : A) : A :=
  foldl (λ ctx s,
           match s with
           | Some nh => if N.ltb 0 (nh_ref_count nh) then cb nh ctx else ctx
           | None => ctx
           end) priv pool.

Section List.

(** [rte_get_tsc_hz()] *)
Variable tsc_hz : N.
(** [sizeof(struct gr_ip6_nh_list_resp)] and [sizeof(struct gr_nexthop)] *)
Variable sizeof_resp : N.
Variable sizeof_gr_nexthop : N.
(** whether [calloc(1, len)] gives memory *)
Variable calloc : N → bool.

(** [nh_list_cb]: [ctx->vrf_id] is [vrf_id], [ctx->nh] is the vector; the vector
    after the call *)
Definition nh_list_cb (w : world) (vrf_id : N) (nh : nexthop)
    (vec : list gr_nexthop_entry) : list gr_nexthop_entry :=
  if (negb (N.eqb (nh_vrf_id nh) vrf_id) && negb (N.eqb vrf_id UINT16_MAX))
     || rte_ipv6_addr_is_mcast (nh_ipv6 nh)
  then vec
  else
    let age :=
      if N.ltb 0 (nh_last_reply nh)
      then N.div (u64_sub (rte_get_tsc_cycles w) (nh_last_reply nh)) tsc_hz
      else 0%N in
    (* gr_vec_add(ctx->nh, api_nh) *)
    vec ++ [{| e_ipv6 := nh_ipv6 nh; e_iface_id := nh_iface_id nh;
               e_vrf_id := nh_vrf_id nh; e_mac := nh_lladdr nh;
               e_flags := nh_flags nh; e_age := age;
               e_held_pkts := nh_held_pkts_num nh |}].

(** [nh6_list]: the status and the length given to [api_out], and the response *)
Definition nh6_list (w : world) (req : gr_ip6_nh_list_req) :
    N * N * option gr_ip6_nh_list_resp :=
  let vec := nh_pool_iter (w_pool w) (nh_list_cb w (list_vrf_id req)) [] in
  let len := (sizeof_resp + N.of_nat (length vec) * sizeof_gr_nexthop)%N in
  if calloc len then
    (0%N, len, Some {| n_nhs := N.of_nat (length vec); nhs := vec |})
  else (ENOMEM, 0%N, None).

End List.

End ControlList.

(** ** modules/ip/datapath/icmp_input.c *)

Module IcmpInput.

Inductive edge :=
  | OUTPUT
  | INVALID
  | UNSUPPORTED.

Definition ICMP_MIN_SIZE : N := 8.

(** RFC 792 *)
Definition RTE_ICMP_TYPE_ECHO_REPLY : N := 0.
Definition RTE_ICMP_TYPE_ECHO_REQUEST : N := 8.

(** the ICMP message a buffer holds: the two fields of [struct rte_icmp_hdr]
    the node reads, and the bytes after them (checksum, identifier, sequence
    number, payload) *)
Record icmp_data := {
  icmp_type : N;
  icmp_code : N;
  icmp_rest : list N;
}.

(** the fields of [struct ip_local_mbuf_data] the node uses *)
Record ip_local_mbuf_data := {
  l_src : N;
  l_dst : N;
  l_len : N;
}.

Record icmp_mbuf := {
  m_icmp : icmp_data;
  m_local : ip_local_mbuf_data;
}.

(** [(uint16_t)~v] for a [uint16_t v] *)
Definition uint16_not (v : N) : N := N.lxor (v mod 2 ^ 16) 0xffff.

Section Process.

(** [rte_raw_cksum(icmp, len)] of the DPDK: the 16-bit sum of the first [len]
    bytes of the message *)
Variable rte_raw_cksum : icmp_data → N → N.

(** the body of the loop of [icmp_input_process] for one object: the edge the
    buffer is enqueued to and the buffer as the node leaves it *)
Definition icmp_input_one (mbuf : icmp_mbuf) : edge * icmp_mbuf :=
  let icmp := m_icmp mbuf in
  let ip_data := m_local mbuf in
  if N.ltb (l_len ip_data) ICMP_MIN_SIZE
     || negb (N.eqb (uint16_not (rte_raw_cksum icmp (l_len ip_data))) 0)
  then (INVALID, mbuf)
  else if N.eqb (icmp_type icmp) RTE_ICMP_TYPE_ECHO_REQUEST then
    if negb (N.eqb (icmp_code icmp) 0) then (INVALID, mbuf)
    else
      let icmp' := {| icmp_type := RTE_ICMP_TYPE_ECHO_REPLY; icmp_code := icmp_code icmp;
                      icmp_rest := icmp_rest icmp |} in
      let ip := l_dst ip_data in
      let ip_data' := {| l_src := ip; l_dst := l_src ip_data; l_len := l_len ip_data |} in
      (OUTPUT, {| m_icmp := icmp'; m_local := ip_data' |})
  else (UNSUPPORTED, mbuf).

(** [icmp_input_process]: the objects in order, each enqueued to its edge *)
Definition icmp_input_process (objs : list icmp_mbuf) : list (edge * icmp_mbuf) :=
  icmp_input_one <$> objs.

End Process.

End IcmpInput.


(** ** api/br_net_types.h *)

Module NetTypes.

(** a C string, as its bytes *)
Abbreviation cstring := (list N) (only parsing).

(** [struct ip4_net]; [ip] is the value of the [uint32_t] whose bytes in
    memory are the address in network order *)
Record ip4_net := {
  ip : N;
  prefixlen : N;
}.

Definition UINT64_MAX : N := 2 ^ 64 - 1.

(** what [sscanf(s, "%m[0-9.]/%hhu%*c", &addr, &net->prefixlen)] has converted:
    nothing, the address only, or the address and the prefix length *)
Inductive scanned :=
  | scan_none
  | scan_addr (addr : cstring)
  | scan_both (addr : cstring) (prefixlen : N).

(** the number [sscanf] returns *)
Definition scan_count (r : scanned) : N :=
  match r with
  | scan_none => 0
  | scan_addr _ => 1
  | scan_both _ _ => 2
  end.

(** the bytes of a 32-bit number in the reverse order *)
Definition bswap32 (x : N) : N :=
  N.lor (N.lor (N.land (N.shiftl x 24) 0xff000000) (N.land (N.shiftl x 8) 0x00ff0000))
        (N.lor (N.land (N.shiftr x 8) 0x0000ff00) (N.land (N.shiftr x 24) 0x000000ff)).

Section Host.

(** the byte order of the host *)
Variable little_endian : bool.

(** the two calls to the C library: the conversions of [sscanf], and
    [inet_pton(AF_INET, addr, &net->ip)], which gives the address [a.b.c.d] as
    the number [a·2^24 + b·2^16 + c·2^8 + d] stored in network order, or
    fails *)
Variable sscanf_net : cstring → scanned.
Variable inet_pton : cstring → option N.

(** [htonl] *)
Definition htonl (x : N) : N := if little_endian then bswap32 x else x.

(** [int br_ip4_net_parse(const char *s, struct ip4_net *net, bool zero_mask)]:
    the value returned, [errno] if it is set, and [*net] *)
Definition br_ip4_net_parse (s : cstring) (net : ip4_net) (zero_mask : bool) :
    Z * option N * ip4_net :=
  let r := sscanf_net s in
  let net :=
    match r with
    | scan_both _ p => {| ip := ip net; prefixlen := p |}
    | _ => net
    end in
  if negb (N.eqb (scan_count r) 2) then ((-1)%Z, Some EINVAL, net)
  else if N.ltb 32 (prefixlen net) then ((-1)%Z, Some EINVAL, net)
  else
    match r with
    | scan_both addr _ =>
        match inet_pton addr with
        | None => ((-1)%Z, Some EINVAL, net)
        | Some a =>
            let net := {| ip := htonl a; prefixlen := prefixlen net |} in
            let net :=
              if zero_mask then
                (* mask non network bits to zero *)
                {| ip := N.land (ip net)
                           (htonl ((N.shiftl UINT64_MAX (32 - prefixlen net) mod 2 ^ 64)
                                   mod 2 ^ 32));
                   prefixlen := prefixlen net |}
              else net in
            (0%Z, None, net)
        end
    | _ => ((-1)%Z, Some EINVAL, net)
    end.

End Host.

End NetTypes.


(** ** Notions the properties are stated with *)

Module Notions.

(** what the ring holds after a run of posts: it takes them in order while
    there is room *)
Definition ring_after (RING_SIZE : nat) (ring msgs : list control_input_msg) :
    list control_input_msg :=
  ring ++ take (RING_SIZE - length ring) msgs.

(** the posts of the two callbacks *)
Definition to_output (m : mbuf_ptr) : control_input_msg :=
  {| msg_type := ip6_output_node; msg_data := data_mbuf m |}.

Definition to_solicit (nh : nh_ptr) : control_input_msg :=
  {| msg_type := ndp_solicit; msg_data := data_nh nh |}.

(** the packets reached from a head pointer through [queue_mbuf_data(m)->next],
    up to [NULL] *)
Inductive held_chain (mb : gmap mbuf_ptr rte_mbuf) : option mbuf_ptr → list mbuf_ptr → Prop :=
  | held_chain_nil : held_chain mb None []
  | held_chain_cons (h : mbuf_ptr) (b : rte_mbuf) (l : list mbuf_ptr) :
      mb !! h = Some b →
      held_chain mb (md_next b) l →
      held_chain mb (Some h) (h :: l).

(** the hold queue of a nexthop holds the packets [l], oldest first *)
Definition hold_queue (w : world) (n : nexthop) (l : list mbuf_ptr) : Prop :=
  held_chain (w_mbufs w) (nh_held_pkts_head n) l
  ∧ nh_held_pkts_tail n = list.last l
  ∧ nh_held_pkts_num n = N.of_nat (length l).

(** a neighbor discovery message carries a link-layer address option of a type *)
Definition carries_lladdr (msg : icmp6_msg) (type : N) : Prop :=
  ∃ o, o ∈ nd_opts msg ∧ opt_type o = type.

(** the nexthop after the refresh of lines 174-198 *)
Definition refreshed (now : N) (ifc : iface) (mac : rte_ether_addr) (n : nexthop) :
    nexthop :=
  {| nh_flags :=
       clear_flag (set_flag (nh_flags n) GR_NH_F_REACHABLE)
         (N.lor (N.lor GR_NH_F_STALE GR_NH_F_PENDING) GR_NH_F_FAILED);
     nh_lladdr := mac; nh_vrf_id := nh_vrf_id n; nh_iface_id := if_id ifc;
     nh_ipv6 := nh_ipv6 n; nh_last_reply := now;
     nh_last_request := nh_last_request n; nh_ref_count := nh_ref_count n;
     nh_ucast_probes := 0; nh_bcast_probes := 0; nh_held_pkts_num := 0;
     nh_held_pkts_head := None; nh_held_pkts_tail := None |}.


(** a gateway nexthop whose output interface is not known yet *)
Definition gateway_uninit (r : nexthop) : bool :=
  has_flag (nh_flags r) GR_NH_F_GATEWAY && N.eqb (nh_iface_id r) 0.

(** the callback has switched from the nexthop [n] of a link route to the host
    nexthop [remote] of [dst]: the state [w'] holds it on the interface of the
    link route and routes [dst/128] to it *)
Definition pivoted (w' : world) (n : nexthop) (ifc : iface) (dst : rte_ipv6_addr)
    (remote : nh_ptr) : Prop :=
  ∃ r', nh_at w' remote = Some r'
        ∧ nh_vrf_id r' = nh_vrf_id n
        ∧ nh_ipv6 r' = dst
        ∧ nh_iface_id r' = nh_iface_id n
        ∧ w_rib6 w' !! rib6_key (nh_vrf_id n) dst RTE_IPV6_MAX_DEPTH = Some remote
        ∧ ip6_route_lookup w' (nh_vrf_id n) (if_id ifc) dst = Some remote.

(** C4 as it is stated: a link route whose address is not the destination
    always ends in the switch to the host nexthop, or in the abort *)
Definition unreachable_always_pivots (NH_MAX_HELD_PKTS : N)
    (IP6_MAX_ROUTES RING_SIZE : nat) : Prop :=
  ∀ (w : world) (m : mbuf_ptr) (buf : rte_mbuf) (ifc : iface) (nh : nh_ptr)
    (n : nexthop),
    w_mbufs w !! m = Some buf →
    md_iface buf = Some ifc →
    ip6_route_lookup w (if_vrf_id ifc) (if_id ifc) (dst_addr (m_ip6 buf)) = Some nh →
    nh_at w nh = Some n →
    has_flag (nh_flags n) GR_NH_F_LINK = true →
    nh_ipv6 n ≠ dst_addr (m_ip6 buf) →
    Control.ip6_nexthop_unreachable_cb NH_MAX_HELD_PKTS IP6_MAX_ROUTES RING_SIZE w m
    = Aborted
    ∨ ∃ remote w',
        Control.unreachable_resolve IP6_MAX_ROUTES w m = Done (Some remote, w')
        ∧ pivoted w' n ifc (dst_addr (m_ip6 buf)) remote.

(** a nexthop the operator may not delete: one of LOCAL, LINK, GATEWAY is set
    or more than one reference is held *)
Definition nh_protected (n : nexthop) : bool :=
  has_flag (nh_flags n) GR_NH_F_LOCAL
  || has_flag (nh_flags n) GR_NH_F_LINK
  || has_flag (nh_flags n) GR_NH_F_GATEWAY
  || N.ltb 1 (nh_ref_count n).




(** a request passes the checks of lines 208-213 of [nh6_add] *)
Definition add_checked (MAX_VRFS : N) (w : world) (a : Control.gr_nexthop) : Prop :=
  rte_ipv6_addr_is_unspec (Control.api_ipv6 a) || rte_ipv6_addr_is_mcast (Control.api_ipv6 a)
  = false
  ∧ N.leb MAX_VRFS (Control.api_vrf_id a) = false
  ∧ ∃ i, iface_from_id w (Control.api_iface_id a) = Ret i.

(** the target of a solicitation is an address of the router on the receiving
    interface: the lookup gives a nexthop with the LOCAL flag *)
Definition target_local (w : world) (ifc : iface) (target : rte_ipv6_addr) : Prop :=
  ∃ p l, Control.ip6_nexthop_lookup w (if_vrf_id ifc) (if_id ifc) target = Ret p
         ∧ nh_at w p = Some l
         ∧ has_flag (nh_flags l) GR_NH_F_LOCAL = true.

(** a solicitation goes to the inval edge: it is the only buffer enqueued, no
    reply is built and nothing is handed to the control edge *)
Definition ns_to_inval (MBUF_POOL_SIZE : nat) (w : world) (mbuf : mbuf_ptr) : Prop :=
  NdpNsInput.ndp_ns_input_one MBUF_POOL_SIZE w mbuf
  = Done ([(NdpNsInput.INVAL, mbuf)], w).

(** the validation of C5, in the words of the claim *)
Definition ns_validation_fails (b : rte_mbuf) : Prop :=
  md_hop_limit b ≠ 255%N
  ∨ icmp6_code (m_icmp6 b) ≠ 0%N
  ∨ rte_ipv6_addr_is_mcast (nd_target (m_icmp6 b)) = true
  ∨ (rte_ipv6_addr_is_unspec (md_src b) = true
     ∧ (rte_ipv6_addr_is_solnode (md_dst b) = false
        ∨ carries_lladdr (m_icmp6 b) ICMP6_OPT_SRC_LLADDR)).

(** C5 as it is stated: inval exactly when the validation fails *)
Definition ns_inval_exactly_when_invalid (MBUF_POOL_SIZE : nat) : Prop :=
  ∀ (w : world) (mbuf : mbuf_ptr) (b : rte_mbuf) (ifc : iface),
    w_mbufs w !! mbuf = Some b →
    md_iface b = Some ifc →
    ns_to_inval MBUF_POOL_SIZE w mbuf ↔ ns_validation_fails b.

(** a valid solicitation, in the words of section 4.E *)
Definition ns_valid (b : rte_mbuf) : Prop :=
  md_hop_limit b = 255%N
  ∧ icmp6_code (m_icmp6 b) = 0%N
  ∧ rte_ipv6_addr_is_mcast (nd_target (m_icmp6 b)) = false
  ∧ (rte_ipv6_addr_is_unspec (md_src b) = true →
     rte_ipv6_addr_is_solnode (md_dst b) = true
     ∧ ¬ carries_lladdr (m_icmp6 b) ICMP6_OPT_SRC_LLADDR).

(** a property of every nexthop of the pool *)
Definition pool_all (P : nexthop → Prop) (w : world) : Prop :=
  ∀ p n, nh_at w p = Some n → P n.

(** invariant 2 of the data model: [held_count ≤ NH_MAX_HELD_PKTS] *)
Definition held_bounded (NH_MAX_HELD_PKTS : N) : nexthop → Prop :=
  λ n, (nh_held_pkts_num n ≤ NH_MAX_HELD_PKTS)%N.

(** invariant 3 of the data model, second half: a REACHABLE nexthop holds no
    packet *)
Definition reachable_holds_nothing : nexthop → Prop :=
  λ n, has_flag (nh_flags n) GR_NH_F_REACHABLE = true → nh_held_pkts_num n = 0%N.

(** the events of these files: a packet handed to one of the two control
    callbacks, an API request, an object of one of the two nodes *)
Inductive event :=
  | ev_unreachable (m : mbuf_ptr)
  | ev_probe (fuel : nat) (m : mbuf_ptr)
  | ev_nh_add (req : Control.gr_ip6_nh_add_req)
  | ev_nh_del (req : Control.gr_ip6_nh_del_req)
  | ev_ns_output (m : mbuf_ptr)
  | ev_ns_input (m : mbuf_ptr).

Section Runs.

Variable NH_MAX_HELD_PKTS : N.
Variable NH_UCAST_PROBES : N.
Variable MAX_VRFS : N.
Variable IP6_MAX_ROUTES : nat.
Variable RING_SIZE : nat.
Variable MBUF_POOL_SIZE : nat.

(** one event takes the state [w] to the state [w'] *)
Definition step (e : event) (w w' : world) : Prop :=
  match e with
  | ev_unreachable m =>
      Control.ip6_nexthop_unreachable_cb NH_MAX_HELD_PKTS IP6_MAX_ROUTES RING_SIZE w m
      = Done w'
  | ev_probe fuel m =>
      Control.ndp_probe_input_cb IP6_MAX_ROUTES RING_SIZE fuel w m = Done w'
  | ev_nh_add req =>
      ∃ code, Control.nh6_add MAX_VRFS IP6_MAX_ROUTES w req = Done (code, w')
  | ev_nh_del req => ∃ code, Control.nh6_del MAX_VRFS w req = Done (code, w')
  | ev_ns_output m =>
      ∃ next, NdpNsOutput.ndp_ns_output_one NH_UCAST_PROBES w m = Done (next, w')
  | ev_ns_input m =>
      ∃ out, NdpNsInput.ndp_ns_input_one MBUF_POOL_SIZE w m = Done (out, w')
  end.

(** the states a sequence of events leads to from [w] *)
Inductive run (w : world) : world → Prop :=
  | run_nil : run w w
  | run_step (e : event) (w1 w2 : world) : run w w1 → step e w1 w2 → run w w2.

End Runs.

End Notions.
Export Notions.

(** ** Notions for the rest of the code *)

Module Frames.

(** every nexthop of [w] is still there in [w'], related to what it was *)
Definition pool_kept (R : nexthop → nexthop → Prop) (w w' : world) : Prop :=
  ∀ p x, nh_at w p = Some x → ∃ x', nh_at w' p = Some x' ∧ R x x'.

(** what identifies a neighbor and what was learned about it: everything but
    the flags, the hold queue, the reference count and [last_request] *)
Definition same_neighbor (x x' : nexthop) : Prop :=
  nh_vrf_id x' = nh_vrf_id x
  ∧ nh_iface_id x' = nh_iface_id x
  ∧ nh_ipv6 x' = nh_ipv6 x
  ∧ nh_lladdr x' = nh_lladdr x
  ∧ nh_last_reply x' = nh_last_reply x
  ∧ nh_ucast_probes x' = nh_ucast_probes x
  ∧ nh_bcast_probes x' = nh_bcast_probes x.

(** the nexthop NH_ADD creates for a request, once its route refers to it *)
Definition static_entry (a : Control.gr_nexthop) : nexthop :=
  {| nh_flags := N.lor GR_NH_F_STATIC GR_NH_F_REACHABLE;
     nh_lladdr := Control.api_mac a; nh_vrf_id := Control.api_vrf_id a;
     nh_iface_id := Control.api_iface_id a; nh_ipv6 := Control.api_ipv6 a;
     nh_last_reply := 0; nh_last_request := 0; nh_ref_count := 1; nh_ucast_probes := 0;
     nh_bcast_probes := 0; nh_held_pkts_num := 0; nh_held_pkts_head := None;
     nh_held_pkts_tail := None |}.

(** a nexthop NH_LIST reports for a vrf: it is in the index, in the vrf asked
    for (or any vrf is asked for), and its address is not multicast *)
Definition listed (vrf_id : N) (n : nexthop) : Prop :=
  (0 < nh_ref_count n)%N
  ∧ (nh_vrf_id n = vrf_id ∨ vrf_id = ControlList.UINT16_MAX)
  ∧ rte_ipv6_addr_is_mcast (nh_ipv6 n) = false.

(** the entry NH_LIST reports for a nexthop *)
Definition entry_of (tsc_hz : N) (w : world) (n : nexthop) :
    ControlList.gr_nexthop_entry :=
  {| ControlList.e_ipv6 := nh_ipv6 n; ControlList.e_iface_id := nh_iface_id n;
     ControlList.e_vrf_id := nh_vrf_id n; ControlList.e_mac := nh_lladdr n;
     ControlList.e_flags := nh_flags n;
     ControlList.e_age :=
       if N.ltb 0 (nh_last_reply n)
       then N.div (ControlList.u64_sub (rte_get_tsc_cycles w) (nh_last_reply n)) tsc_hz
       else 0%N;
     ControlList.e_held_pkts := nh_held_pkts_num n |}.

#[global] Arguments entry_of : simpl never.

(** what NH_LIST reports for one slot of the pool *)
Definition reported (tsc_hz : N) (w : world) (vrf_id : N) (s : option nexthop) :
    option ControlList.gr_nexthop_entry :=
  match s with
  | Some n =>
      if N.ltb 0 (nh_ref_count n)
         && (N.eqb (nh_vrf_id n) vrf_id || N.eqb vrf_id ControlList.UINT16_MAX)
         && negb (rte_ipv6_addr_is_mcast (nh_ipv6 n))
      then Some (entry_of tsc_hz w n)
      else None
  | None => None
  end.

(** the nexthop the callback leaves for a sender it did not know *)
Definition learned_entry (w : world) (ifc : iface) (target : rte_ipv6_addr)
    (mac : rte_ether_addr) : nexthop :=
  {| nh_flags := GR_NH_F_REACHABLE; nh_lladdr := mac;
     nh_vrf_id := if_vrf_id ifc; nh_iface_id := if_id ifc;
     nh_ipv6 := target; nh_last_reply := rte_get_tsc_cycles w;
     nh_last_request := 0; nh_ref_count := 1; nh_ucast_probes := 0;
     nh_bcast_probes := 0; nh_held_pkts_num := 0;
     nh_held_pkts_head := None; nh_held_pkts_tail := None |}.

(** the nexthop of the sender of a solicitation, if the pool has one *)
Definition sender_nexthop (w : world) (ifc : iface) (src : rte_ipv6_addr) :
    option nh_ptr :=
  match Control.ip6_nexthop_lookup w (if_vrf_id ifc) (if_id ifc) src with
  | Ret p => Some p
  | Err _ => None
  end.

(** a solicitation passes the checks of lines 73-81 of [ndp_ns_input_process]
    and asks for an address of the router on the receiving interface *)
Definition ns_for_router (w : world) (b : rte_mbuf) (ifc : iface) (local : nh_ptr)
    (l : nexthop) : Prop :=
  md_iface b = Some ifc
  ∧ md_hop_limit b = 255%N
  ∧ icmp6_code (m_icmp6 b) = 0%N
  ∧ rte_ipv6_addr_is_mcast (nd_target (m_icmp6 b)) = false
  ∧ Control.ip6_nexthop_lookup w (if_vrf_id ifc) (if_id ifc) (nd_target (m_icmp6 b))
    = Ret local
  ∧ nh_at w local = Some l
  ∧ has_flag (nh_flags l) GR_NH_F_LOCAL = true.

(** a buffer holds the neighbor advertisement of [l] for [dst] *)
Definition advert_of (l : nexthop) (solicited : bool) (dst : rte_ipv6_addr)
    (b : rte_mbuf) : Prop :=
  icmp6_type (m_icmp6 b) = ICMP6_TYPE_NEIGH_ADVERT
  ∧ icmp6_code (m_icmp6 b) = 0%N
  ∧ na_solicited (m_icmp6 b) = solicited
  ∧ na_router (m_icmp6 b) = true
  ∧ na_override (m_icmp6 b) = true
  ∧ nd_target (m_icmp6 b) = nh_ipv6 l
  ∧ nd_opts (m_icmp6 b)
    = [{| opt_type := ICMP6_OPT_TARGET_LLADDR; opt_mac := nh_lladdr l |}]
  ∧ src_addr (m_ip6 b) = nh_ipv6 l
  ∧ dst_addr (m_ip6 b) = dst
  ∧ hop_limits (m_ip6 b) = 255%N
  ∧ proto (m_ip6 b) = IPPROTO_ICMPV6.

(** a nexthop after a solicit: only the probe counters and [last_request] may
    differ, and the unicast probes stay within [NH_UCAST_PROBES] *)
Definition probed_only (NH_UCAST_PROBES : N) (x x' : nexthop) : Prop :=
  nh_flags x' = nh_flags x
  ∧ nh_lladdr x' = nh_lladdr x
  ∧ nh_vrf_id x' = nh_vrf_id x
  ∧ nh_iface_id x' = nh_iface_id x
  ∧ nh_ipv6 x' = nh_ipv6 x
  ∧ nh_last_reply x' = nh_last_reply x
  ∧ nh_ref_count x' = nh_ref_count x
  ∧ nh_held_pkts_num x' = nh_held_pkts_num x
  ∧ nh_held_pkts_head x' = nh_held_pkts_head x
  ∧ nh_held_pkts_tail x' = nh_held_pkts_tail x
  ∧ ((nh_ucast_probes x ≤ NH_UCAST_PROBES)%N → (nh_ucast_probes x' ≤ NH_UCAST_PROBES)%N).

End Frames.
Export Frames.

(** ** Concrete states *)

Module Scenario.

Definition if1 : iface := {| if_id := 1; if_vrf_id := 0 |}.

(** 2001:db8::1, the address of the router on interface 1 *)
Definition addr_router : rte_ipv6_addr := 0x20010db8000000000000000000000001%N.
(** 2001:db8::2, a neighbor *)
Definition addr_peer : rte_ipv6_addr := 0x20010db8000000000000000000000002%N.
(** 2001:db8::3, another neighbor *)
Definition addr_other : rte_ipv6_addr := 0x20010db8000000000000000000000003%N.
(** aa:aa:aa:aa:aa:01 and bb:bb:bb:bb:bb:02 *)
Definition mac_router : rte_ether_addr := 0xaaaaaaaaaa01%N.
Definition mac_peer : rte_ether_addr := 0xbbbbbbbbbb02%N.

Definition no_icmp6 : icmp6_msg :=
  {| icmp6_type := 0; icmp6_code := 0; na_router := false; na_solicited := false;
     na_override := false; nd_target := 0; nd_opts := [] |}.

Definition no_ip6 : rte_ipv6_hdr :=
  {| payload_len := 0; proto := 0; hop_limits := 0; src_addr := 0; dst_addr := 0 |}.

(** a packet of the data path sent to [dst], received on interface 1 *)
Definition data_pkt (dst : rte_ipv6_addr) (next : option mbuf_ptr) : rte_mbuf :=
  {| m_pkt_len := 60;
     m_ip6 := {| payload_len := 20; proto := 17; hop_limits := 64;
                 src_addr := addr_router; dst_addr := dst |};
     m_icmp6 := no_icmp6; md_iface := Some if1; md_nh := None; md_next := next;
     md_src := 0; md_dst := 0; md_hop_limit := 0; md_len := 0;
     md_callback := None; md_data := None |}.

(** an ICMPv6 message posted to the control loop from interface 1 *)
Definition icmp6_pkt (msg : icmp6_msg) : rte_mbuf :=
  {| m_pkt_len := 32; m_ip6 := no_ip6; m_icmp6 := msg; md_iface := Some if1;
     md_nh := None; md_next := None; md_src := 0; md_dst := 0; md_hop_limit := 0;
     md_len := 0; md_callback := Some cb_ndp_probe_input; md_data := None |}.

(** a neighbor advertisement of [addr_peer] with its link-layer address *)
Definition advert_of_peer : icmp6_msg :=
  {| icmp6_type := ICMP6_TYPE_NEIGH_ADVERT; icmp6_code := 0; na_router := false;
     na_solicited := true; na_override := true; nd_target := addr_peer;
     nd_opts := [{| opt_type := ICMP6_OPT_TARGET_LLADDR; opt_mac := mac_peer |}] |}.

(** an echo request *)
Definition echo_request : icmp6_msg :=
  {| icmp6_type := 128; icmp6_code := 0; na_router := false; na_solicited := false;
     na_override := false; nd_target := 0; nd_opts := [] |}.

(** the nexthop of [addr_peer], being resolved, with two packets held *)
Definition peer_pending : nexthop :=
  {| nh_flags := GR_NH_F_PENDING; nh_lladdr := 0; nh_vrf_id := 0; nh_iface_id := 1;
     nh_ipv6 := addr_peer; nh_last_reply := 0; nh_last_request := 900;
     nh_ref_count := 1; nh_ucast_probes := 0; nh_bcast_probes := 1;
     nh_held_pkts_num := 2; nh_held_pkts_head := Some 20; nh_held_pkts_tail := Some 21 |}.

(** the nexthop of [addr_peer] as the operator has configured it *)
Definition peer_static : nexthop :=
  {| nh_flags := N.lor GR_NH_F_STATIC GR_NH_F_REACHABLE; nh_lladdr := 0xcccccccccc03;
     nh_vrf_id := 0; nh_iface_id := 1; nh_ipv6 := addr_peer; nh_last_reply := 0;
     nh_last_request := 0; nh_ref_count := 1; nh_ucast_probes := 0;
     nh_bcast_probes := 0; nh_held_pkts_num := 0; nh_held_pkts_head := None;
     nh_held_pkts_tail := None |}.

(** [addr_peer] is being resolved, packets 20 and 21 wait for it, packet 22
    for it has missed, and its advertisement has been posted as packet 30; the
    ring holds [ring] *)
Definition w_pending (ring : list control_input_msg) : world :=
  {| w_pool := [Some peer_pending; None];
     w_rib6 := {[ rib6_key 0 addr_peer 128 := 0 ]};
     w_ifaces := {[ 1%N := if1 ]};
     w_addrs := ∅;
     w_mbufs := {[ 20 := data_pkt addr_peer (Some 21);
                   21 := data_pkt addr_peer None;
                   22 := data_pkt addr_peer None;
                   30 := icmp6_pkt advert_of_peer ]};
     w_ring := ring;
     w_tsc := 1000 |}.

(** [addr_peer] is a static nexthop and an advertisement of it has been posted
    as packet 30 *)
Definition w_static : world :=
  {| w_pool := [Some peer_static; None];
     w_rib6 := {[ rib6_key 0 addr_peer 128 := 0 ]};
     w_ifaces := {[ 1%N := if1 ]};
     w_addrs := ∅;
     w_mbufs := {[ 30 := icmp6_pkt advert_of_peer ]};
     w_ring := [];
     w_tsc := 1000 |}.

(** an echo request has been posted as packet 30 *)
Definition w_echo : world :=
  {| w_pool := [Some peer_pending; None];
     w_rib6 := {[ rib6_key 0 addr_peer 128 := 0 ]};
     w_ifaces := {[ 1%N := if1 ]};
     w_addrs := ∅;
     w_mbufs := {[ 30 := icmp6_pkt echo_request ]};
     w_ring := [];
     w_tsc := 1000 |}.

(** the address of the router on interface 1, with its connected route *)
Definition link_router : nexthop :=
  {| nh_flags := N.lor GR_NH_F_LOCAL GR_NH_F_LINK; nh_lladdr := mac_router;
     nh_vrf_id := 0; nh_iface_id := 1; nh_ipv6 := addr_router; nh_last_reply := 0;
     nh_last_request := 0; nh_ref_count := 2; nh_ucast_probes := 0;
     nh_bcast_probes := 0; nh_held_pkts_num := 0; nh_held_pkts_head := None;
     nh_held_pkts_tail := None |}.

(** only the connected route 2001:db8::/64 is known, and packet 10 for
    [addr_peer] has missed; [spare] are the other slots of the pool *)
Definition w_link (spare : list (option nexthop)) : world :=
  {| w_pool := Some link_router :: spare;
     w_rib6 := {[ rib6_key 0 addr_router 64 := 0 ]};
     w_ifaces := {[ 1%N := if1 ]};
     w_addrs := {[ 1%N := [0] ]};
     w_mbufs := {[ 10 := data_pkt addr_peer None ]};
     w_ring := [];
     w_tsc := 1000 |}.

(** NH_ADD of [addr_peer] on an interface, with a link-layer address *)
Definition add_peer (iface_id : N) (mac : rte_ether_addr) (exist_ok : bool) :
    Control.gr_ip6_nh_add_req :=
  {| Control.add_nh := {| Control.api_ipv6 := addr_peer; Control.api_iface_id := iface_id;
                          Control.api_vrf_id := 0; Control.api_mac := mac |};
     Control.add_exist_ok := exist_ok |}.

(** NH_DEL of an address in vrf 0 *)
Definition del_host_req (host : rte_ipv6_addr) : Control.gr_ip6_nh_del_req :=
  {| Control.del_vrf_id := 0; Control.del_host := host; Control.del_missing_ok := false |}.

(** the state after NH_ADD of [addr_peer] on interface 1 in [w_link [None]] *)
Definition w_added : world :=
  match Control.nh6_add 16 8 (w_link [None]) (add_peer 1 mac_peer false) with
  | Done (_, w1) => w1
  | _ => w_link [None]
  end.




(** fe80::1, a link-local address of the router on interface 1 *)
Definition addr_ll : rte_ipv6_addr := 0xfe800000000000000000000000000001%N.
(** ff02::1:ff00:1, its solicited-node multicast group *)
Definition addr_ll_solnode : rte_ipv6_addr := 0xff0200000000000000000001ff000001%N.

Definition local_ll : nexthop :=
  {| nh_flags := GR_NH_F_LOCAL; nh_lladdr := mac_router; nh_vrf_id := 0;
     nh_iface_id := 1; nh_ipv6 := addr_ll; nh_last_reply := 0; nh_last_request := 0;
     nh_ref_count := 1; nh_ucast_probes := 0; nh_bcast_probes := 0;
     nh_held_pkts_num := 0; nh_held_pkts_head := None; nh_held_pkts_tail := None |}.

(** a neighbor solicitation as [ndp_ns_input] receives it on interface 1 *)
Definition solicit_pkt (src dst target : rte_ipv6_addr) (hop : N)
    (opts : list icmp6_opt) : rte_mbuf :=
  {| m_pkt_len := 24;
     m_ip6 := no_ip6;
     m_icmp6 := {| icmp6_type := ICMP6_TYPE_NEIGH_SOLICIT; icmp6_code := 0;
                   na_router := false; na_solicited := false; na_override := false;
                   nd_target := target; nd_opts := opts |};
     md_iface := Some if1; md_nh := None; md_next := None; md_src := src;
     md_dst := dst; md_hop_limit := hop; md_len := 24; md_callback := None;
     md_data := None |}.

(** the router has fe80::1 on interface 1 and has received solicitation [b] as
    packet 40 *)
Definition w_solicited (b : rte_mbuf) : world :=
  {| w_pool := [Some local_ll; None];
     w_rib6 := {[ rib6_key 0 addr_ll 128 := 0 ]};
     w_ifaces := {[ 1%N := if1 ]};
     w_addrs := {[ 1%N := [0] ]};
     w_mbufs := {[ 40 := b ]};
     w_ring := [];
     w_tsc := 1000 |}.

(** the nexthop of fe80::2 on interface 1, resolved once ([last_reply] is not
    zero) or never, with [probes] unicast probes sent *)
Definition addr_ll_peer : rte_ipv6_addr := 0xfe800000000000000000000000000002%N.

Definition peer_probed (last_reply probes : N) : nexthop :=
  {| nh_flags := GR_NH_F_PENDING; nh_lladdr := mac_peer; nh_vrf_id := 0;
     nh_iface_id := 1; nh_ipv6 := addr_ll_peer; nh_last_reply := last_reply;
     nh_last_request := 900; nh_ref_count := 1; nh_ucast_probes := probes;
     nh_bcast_probes := 0; nh_held_pkts_num := 0; nh_held_pkts_head := None;
     nh_held_pkts_tail := None |}.

(** the buffer the control input node hands to [ndp_ns_output] for a nexthop *)
Definition solicit_request (nh : nh_ptr) : rte_mbuf :=
  {| m_pkt_len := 0; m_ip6 := no_ip6; m_icmp6 := no_icmp6; md_iface := None;
     md_nh := None; md_next := None; md_src := 0; md_dst := 0; md_hop_limit := 0;
     md_len := 0; md_callback := None; md_data := Some nh |}.

(** a solicit for nexthop 1 has been requested as packet 50 *)
Definition w_soliciting (peer : nexthop) : world :=
  {| w_pool := [Some local_ll; Some peer];
     w_rib6 := {[ rib6_key 0 addr_ll 128 := 0; rib6_key 0 addr_ll_peer 128 := 1 ]};
     w_ifaces := {[ 1%N := if1 ]};
     w_addrs := {[ 1%N := [0] ]};
     w_mbufs := {[ 50 := solicit_request 1 ]};
     w_ring := [];
     w_tsc := 1000 |}.

(** the control loop runs the unreachable callback on the packets posted to
    it, in the order of the posts *)
Fixpoint unreachable_all (NH_MAX_HELD_PKTS : N) (IP6_MAX_ROUTES RING_SIZE : nat)
    (w : world) (ms : list mbuf_ptr) : outcome world :=
  match ms with
  | [] => Done w
  | m :: rest =>
      w1 ← Control.ip6_nexthop_unreachable_cb NH_MAX_HELD_PKTS IP6_MAX_ROUTES RING_SIZE w m;
      unreachable_all NH_MAX_HELD_PKTS IP6_MAX_ROUTES RING_SIZE w1 rest
  end.

(** scenario S3: six packets for the unresolved [addr_peer] have missed *)
Definition w_six_misses : world :=
  {| w_pool := [Some link_router; None];
     w_rib6 := {[ rib6_key 0 addr_router 64 := 0 ]};
     w_ifaces := {[ 1%N := if1 ]};
     w_addrs := {[ 1%N := [0] ]};
     w_mbufs := {[ 10 := data_pkt addr_peer None; 11 := data_pkt addr_peer None;
                   12 := data_pkt addr_peer None; 13 := data_pkt addr_peer None;
                   14 := data_pkt addr_peer None; 15 := data_pkt addr_peer None ]};
     w_ring := [];
     w_tsc := 1000 |}.

(** a solicitation of fe80::1 from fe80::2 that carries the link-layer address
    of its sender *)
Definition solicit_from_peer : rte_mbuf :=
  solicit_pkt addr_ll_peer addr_ll addr_ll 255
    [{| opt_type := ICMP6_OPT_SRC_LLADDR; opt_mac := mac_peer |}].

(** the state a run ends in, if it ends *)
Definition done_state (o : outcome world) : option world :=
  match o with
  | Done w => Some w
  | _ => None
  end.

(** scenario S1 for IPv6: two packets for the unresolved [addr_peer] have
    missed, and the advertisement of [addr_peer] is posted as packet 30 *)
Definition w_two_misses : world :=
  {| w_pool := [Some link_router; None];
     w_rib6 := {[ rib6_key 0 addr_router 64 := 0 ]};
     w_ifaces := {[ 1%N := if1 ]};
     w_addrs := {[ 1%N := [0] ]};
     w_mbufs := {[ 10 := data_pkt addr_peer None; 11 := data_pkt addr_peer None;
                   30 := icmp6_pkt advert_of_peer ]};
     w_ring := [];
     w_tsc := 1000 |}.

(** the misses, then the advertisement *)
Definition resolve_two_misses : outcome world :=
  w1 ← unreachable_all 4 8 8 w_two_misses [10; 11];
  Control.ndp_probe_input_cb 8 8 4 w1 30.

End Scenario.

(** ** More concrete states *)

Module Cases.

Import Scenario.

(** the state a callback leaves, or the state it started from if it does not
    return *)
Definition state_after (w : world) (o : outcome world) : world :=
  match o with
  | Done w' => w'
  | _ => w
  end.

(** [w_pending []] after packet 22 has missed, with room for four packets *)
Definition w_third_held : world :=
  state_after (w_pending [])
    (Control.ip6_nexthop_unreachable_cb 4 8 8 (w_pending []) 22).

(** [addr_peer] is a static nexthop and packet 10 for it has missed; the ring
    holds [ring] *)
Definition w_static_miss (ring : list control_input_msg) : world :=
  {| w_pool := [Some peer_static; None];
     w_rib6 := {[ rib6_key 0 addr_peer 128 := 0 ]};
     w_ifaces := {[ 1%N := if1 ]};
     w_addrs := ∅;
     w_mbufs := {[ 10 := data_pkt addr_peer None ]};
     w_ring := ring;
     w_tsc := 1000 |}.

(** [w_two_misses] after the resolution of packet 10, and after the callback *)
Definition w_first_resolved : world :=
  match Control.unreachable_resolve 8 w_two_misses 10 with
  | Done (_, w1) => w1
  | _ => w_two_misses
  end.

Definition w_first_held : world :=
  state_after w_two_misses (Control.ip6_nexthop_unreachable_cb 4 8 8 w_two_misses 10).

(** only the connected route is known and the advertisement of [addr_peer],
    which has no nexthop, has been posted as packet 30; [spare] are the other
    slots of the pool *)
Definition w_advert_unknown (spare : list (option nexthop)) : world :=
  {| w_pool := Some link_router :: spare;
     w_rib6 := {[ rib6_key 0 addr_router 64 := 0 ]};
     w_ifaces := {[ 1%N := if1 ]};
     w_addrs := {[ 1%N := [0] ]};
     w_mbufs := {[ 30 := icmp6_pkt advert_of_peer ]};
     w_ring := [];
     w_tsc := 1000 |}.

(** NH_ADD of a host in a vrf, on an interface *)
Definition add_host (vrf_id iface_id : N) (host : rte_ipv6_addr) (mac : rte_ether_addr) :
    Control.gr_ip6_nh_add_req :=
  {| Control.add_nh := {| Control.api_ipv6 := host; Control.api_iface_id := iface_id;
                          Control.api_vrf_id := vrf_id; Control.api_mac := mac |};
     Control.add_exist_ok := false |}.

(** NH_DEL of a host of vrf 0 that may be missing *)
Definition del_if_there (host : rte_ipv6_addr) : Control.gr_ip6_nh_del_req :=
  {| Control.del_vrf_id := 0; Control.del_host := host; Control.del_missing_ok := true |}.

(** a neighbor of vrf 1, resolved at tick 400 *)
Definition peer_vrf1 : nexthop :=
  {| nh_flags := GR_NH_F_REACHABLE; nh_lladdr := mac_peer; nh_vrf_id := 1;
     nh_iface_id := 3; nh_ipv6 := addr_other; nh_last_reply := 400;
     nh_last_request := 300; nh_ref_count := 1; nh_ucast_probes := 0;
     nh_bcast_probes := 0; nh_held_pkts_num := 0; nh_held_pkts_head := None;
     nh_held_pkts_tail := None |}.

(** the all-nodes group as a nexthop of vrf 0 *)
Definition group_vrf0 : nexthop :=
  {| nh_flags := GR_NH_F_LOCAL; nh_lladdr := 0; nh_vrf_id := 0;
     nh_iface_id := 1; nh_ipv6 := RTE_IPV6_ADDR_ALLNODES_LINK_LOCAL; nh_last_reply := 0;
     nh_last_request := 0; nh_ref_count := 1; nh_ucast_probes := 0;
     nh_bcast_probes := 0; nh_held_pkts_num := 0; nh_held_pkts_head := None;
     nh_held_pkts_tail := None |}.

(** nexthops of two vrfs, a multicast one and a free slot, at tick 2400 *)
Definition w_two_vrfs : world :=
  {| w_pool := [Some link_router; Some peer_vrf1; None; Some group_vrf0; Some peer_pending];
     w_rib6 := ∅;
     w_ifaces := {[ 1%N := if1 ]};
     w_addrs := ∅;
     w_mbufs := ∅;
     w_ring := [];
     w_tsc := 2400 |}.

(** a solicit for nexthop 1 has been requested as packet 50, and interface 1
    has no address *)
Definition w_soliciting_unaddressed : world :=
  {| w_pool := [Some local_ll; Some (peer_probed 0 0)];
     w_rib6 := {[ rib6_key 0 addr_ll_peer 128 := 1 ]};
     w_ifaces := {[ 1%N := if1 ]};
     w_addrs := ∅;
     w_mbufs := {[ 50 := solicit_request 1 ]};
     w_ring := [];
     w_tsc := 1000 |}.

(** the 16-bit one's complement sum of the first [len] bytes of a message, the
    bytes taken in pairs, low byte first *)
Fixpoint sum16 (bytes : list N) : N :=
  match bytes with
  | lo :: hi :: rest => (lo + 256 * hi + sum16 rest)%N
  | [lo] => lo
  | [] => 0%N
  end.

Definition raw_cksum (icmp : IcmpInput.icmp_data) (len : N) : N :=
  let bytes := take (N.to_nat len)
                 (IcmpInput.icmp_type icmp :: IcmpInput.icmp_code icmp
                  :: IcmpInput.icmp_rest icmp) in
  let s := sum16 bytes in
  let s := (s mod 2 ^ 16 + s / 2 ^ 16)%N in
  (s mod 2 ^ 16 + s / 2 ^ 16)%N.

(** an echo request from 192.0.2.2 to 192.0.2.1, identifier 0 and sequence
    number 0, no payload, with its checksum *)
Definition ping : IcmpInput.icmp_mbuf :=
  {| IcmpInput.m_icmp :=
       {| IcmpInput.icmp_type := 8; IcmpInput.icmp_code := 0;
          IcmpInput.icmp_rest := [0xf7; 0xff; 0; 0; 0; 0]%N |};
     IcmpInput.m_local :=
       {| IcmpInput.l_src := 0xc0000202; IcmpInput.l_dst := 0xc0000201;
          IcmpInput.l_len := 8 |} |}.



(** [w_two_misses] when the ring, of one slot, holds the post of an earlier
    packet *)
Definition w_miss_ring_full : world :=
  w_set_ring [to_output 12] w_two_misses.

End Cases.

(** * Properties *)

(** ** Flag arithmetic *)

Module FlagsFacts.

Lemma has_flag_bit (f n : N) : has_flag f (GR_BIT16 n) = N.testbit f n.
Proof.
  unfold has_flag, GR_BIT16.
  destruct (N.testbit f n) eqn:Hb.
  - apply negb_true_iff, N.eqb_neq. intros Hz.
    assert (Ht : N.testbit (N.land f (N.shiftl 1 n)) n = true).
    { rewrite N.land_spec, Hb, N.shiftl_spec_high' by lia.
      rewrite N.sub_diag. reflexivity. }
    rewrite Hz in Ht. rewrite N.bits_0 in Ht. discriminate.
  - apply negb_false_iff, N.eqb_eq. apply N.bits_inj_0. intros k.
    rewrite N.land_spec.
    destruct (N.eq_dec k n) as [->|Hne].
    + rewrite Hb. reflexivity.
    + rewrite N.shiftl_1_l, N.pow2_bits_false by congruence.
      apply andb_false_r.
Qed.

Lemma has_flag_set_same (f n : N) : has_flag (set_flag f (GR_BIT16 n)) (GR_BIT16 n) = true.
Proof.
  rewrite has_flag_bit. unfold set_flag, GR_BIT16.
  rewrite N.lor_spec, N.shiftl_1_l, N.pow2_bits_true. apply orb_true_r.
Qed.

Lemma has_flag_set_other (f n k : N) :
  n ≠ k → has_flag (set_flag f (GR_BIT16 n)) (GR_BIT16 k) = has_flag f (GR_BIT16 k).
Proof.
  intros Hne. rewrite !has_flag_bit. unfold set_flag, GR_BIT16.
  rewrite N.lor_spec, N.shiftl_1_l, N.pow2_bits_false by congruence.
  apply orb_false_r.
Qed.


(** a test against a union of flags succeeds when one of them is set *)
Lemma has_flag_lor (f a b : N) : has_flag f (N.lor a b) = has_flag f a || has_flag f b.
Proof.
  unfold has_flag. rewrite N.land_lor_distr_r.
  destruct (N.eqb_spec (N.land f a) 0) as [Ha|Ha];
    destruct (N.eqb_spec (N.land f b) 0) as [Hb|Hb]; simpl.
  - rewrite Ha, Hb. reflexivity.
  - apply negb_true_iff, N.eqb_neq. intros H. apply N.lor_eq_0_iff in H. tauto.
  - apply negb_true_iff, N.eqb_neq. intros H. apply N.lor_eq_0_iff in H. tauto.
  - apply negb_true_iff, N.eqb_neq. intros H. apply N.lor_eq_0_iff in H. tauto.
Qed.



End FlagsFacts.
Import FlagsFacts.

(** ** Loads and stores *)

Module StoreFacts.

Lemma bind_Done {A B : Type} (a : A) (f : A → outcome B) : Done a ≫= f = f a.
Proof. reflexivity. Qed.

Lemma deref_Some {A : Type} (a : A) : deref (Some a) = Done a.
Proof. reflexivity. Qed.

Lemma nh_at_Some (w : world) (p : nh_ptr) (n : nexthop) :
  nh_at w p = Some n ↔ w_pool w !! p = Some (Some n).
Proof.
  unfold nh_at. destruct (w_pool w !! p) as [[x|]|]; split; intros H; congruence.
Qed.

Lemma nh_at_lt (w : world) (p : nh_ptr) (n : nexthop) :
  nh_at w p = Some n → p < length (w_pool w).
Proof. rewrite nh_at_Some. apply lookup_lt_Some. Qed.

Lemma nh_at_update_eq (w : world) (p : nh_ptr) (f : nexthop → nexthop) (n : nexthop) :
  nh_at w p = Some n → nh_at (nh_update p f w) p = Some (f n).
Proof.
  intros H. unfold nh_update. rewrite H. apply nh_at_Some. simpl.
  apply list_lookup_insert_eq. eapply nh_at_lt; eauto.
Qed.

Lemma nh_at_update_ne (w : world) (p q : nh_ptr) (f : nexthop → nexthop) :
  p ≠ q → nh_at (nh_update p f w) q = nh_at w q.
Proof.
  intros Hne. unfold nh_update. destruct (nh_at w p); [|reflexivity].
  unfold nh_at. simpl. rewrite list_lookup_insert_ne by done. reflexivity.
Qed.

Lemma nh_update_mbufs (w : world) (p : nh_ptr) (f : nexthop → nexthop) :
  w_mbufs (nh_update p f w) = w_mbufs w.
Proof. unfold nh_update. destruct (nh_at w p); reflexivity. Qed.

Lemma nh_update_ring (w : world) (p : nh_ptr) (f : nexthop → nexthop) :
  w_ring (nh_update p f w) = w_ring w.
Proof. unfold nh_update. destruct (nh_at w p); reflexivity. Qed.

Lemma nh_update_rib6 (w : world) (p : nh_ptr) (f : nexthop → nexthop) :
  w_rib6 (nh_update p f w) = w_rib6 w.
Proof. unfold nh_update. destruct (nh_at w p); reflexivity. Qed.

Lemma nh_update_tsc (w : world) (p : nh_ptr) (f : nexthop → nexthop) :
  w_tsc (nh_update p f w) = w_tsc w.
Proof. unfold nh_update. destruct (nh_at w p); reflexivity. Qed.

Lemma nh_at_mbuf_update (w : world) (m : mbuf_ptr) (f : rte_mbuf → rte_mbuf) (p : nh_ptr) :
  nh_at (mbuf_update m f w) p = nh_at w p.
Proof. reflexivity. Qed.

Lemma mbuf_update_lookup_eq (w : world) (m : mbuf_ptr) (f : rte_mbuf → rte_mbuf) :
  w_mbufs (mbuf_update m f w) !! m = f <$> w_mbufs w !! m.
Proof. simpl. apply lookup_alter_eq. Qed.

Lemma mbuf_update_lookup_ne (w : world) (m k : mbuf_ptr) (f : rte_mbuf → rte_mbuf) :
  m ≠ k → w_mbufs (mbuf_update m f w) !! k = w_mbufs w !! k.
Proof. intros H. simpl. by apply lookup_alter_ne. Qed.


Lemma ring_after_room (RING_SIZE : nat) (ring msgs : list control_input_msg) :
  length ring + length msgs ≤ RING_SIZE → ring_after RING_SIZE ring msgs = ring ++ msgs.
Proof. intros H. unfold ring_after. rewrite take_ge by lia. reflexivity. Qed.

Lemma post_to_stack_ring (RING_SIZE : nat) (t : control_input_t) (d : control_input_data)
    (w : world) :
  w_ring (snd (post_to_stack RING_SIZE t d w))
  = ring_after RING_SIZE (w_ring w) [{| msg_type := t; msg_data := d |}].
Proof.
  unfold post_to_stack, ring_after. case_bool_decide; simpl.
  - rewrite take_ge; [reflexivity | simpl; lia].
  - replace (RING_SIZE - length (w_ring w)) with 0 by lia.
    simpl. by rewrite app_nil_r.
Qed.


Lemma post_to_stack_rest (RING_SIZE : nat) (t : control_input_t) (d : control_input_data)
    (w : world) :
  let w' := snd (post_to_stack RING_SIZE t d w) in
  w_pool w' = w_pool w ∧ w_mbufs w' = w_mbufs w ∧ w_rib6 w' = w_rib6 w
  ∧ w_tsc w' = w_tsc w.
Proof. unfold post_to_stack. case_bool_decide; simpl; auto. Qed.

End StoreFacts.
Import StoreFacts.

(** ** The nexthop pool and the route table *)

Module PoolFacts.

Lemma nexthop_lookup_Ret (pool : list (option nexthop)) (vrf_id iface_id : N)
    (ip : rte_ipv6_addr) (p : nh_ptr) :
  nexthop_lookup pool vrf_id iface_id ip = Ret p →
  ∃ n, pool !! p = Some (Some n)
       ∧ nh_matches vrf_id iface_id ip (Some n) = true
       ∧ ∀ j s, pool !! j = Some s → j < p → nh_matches vrf_id iface_id ip s = false.
Proof.
  unfold nexthop_lookup.
  destruct (list_find _ pool) as [[i s]|] eqn:Hf; [|discriminate].
  intros [= <-]. apply list_find_Some in Hf as (Hi & Hm & Hfirst).
  destruct s as [n|]; [|destruct Hm].
  exists n. split; [done|]. split; [by apply Is_true_true|].
  intros j s Hj Hlt. specialize (Hfirst j s Hj Hlt).
  destruct (nh_matches vrf_id iface_id ip s); [|done]. by destruct Hfirst.
Qed.

Lemma nexthop_lookup_Err (pool : list (option nexthop)) (vrf_id iface_id : N)
    (ip : rte_ipv6_addr) (e : N) :
  nexthop_lookup pool vrf_id iface_id ip = Err e →
  e = ENOENT ∧ ∀ j s, pool !! j = Some s → nh_matches vrf_id iface_id ip s = false.
Proof.
  unfold nexthop_lookup.
  destruct (list_find _ pool) as [[i s]|] eqn:Hf; [discriminate|].
  intros [= <-]. split; [done|]. intros j s Hj.
  apply list_find_None in Hf.
  pose proof (Forall_lookup_1 _ _ _ _ Hf Hj) as Hs. simpl in Hs.
  destruct (nh_matches vrf_id iface_id ip s); [|done]. exfalso. by apply Hs.
Qed.

(** the first match is found again wherever it is the first match *)
Lemma nexthop_lookup_first (pool : list (option nexthop)) (vrf_id iface_id : N)
    (ip : rte_ipv6_addr) (p : nh_ptr) (n : nexthop) :
  pool !! p = Some (Some n) →
  nh_matches vrf_id iface_id ip (Some n) = true →
  (∀ j s, pool !! j = Some s → j < p → nh_matches vrf_id iface_id ip s = false) →
  nexthop_lookup pool vrf_id iface_id ip = Ret p.
Proof.
  intros Hp Hm Hfirst. unfold nexthop_lookup.
  destruct (list_find _ pool) as [[i s]|] eqn:Hf.
  - apply list_find_Some in Hf as (Hi & Hs & Hmin).
    destruct (lt_eq_lt_dec i p) as [[Hlt|Heq]|Hgt].
    + rewrite (Hfirst i s Hi Hlt) in Hs. destruct Hs.
    + by subst.
    + exfalso. apply (Hmin p (Some n) Hp Hgt). by apply Is_true_true.
  - apply list_find_None in Hf.
    exfalso. apply (Forall_lookup_1 _ _ _ _ Hf Hp). by apply Is_true_true.
Qed.

Lemma nexthop_new_Ret (pool : list (option nexthop)) (vrf_id iface_id : N)
    (ip : rte_ipv6_addr) (p : nh_ptr) (pool' : list (option nexthop)) :
  nexthop_new pool vrf_id iface_id ip = Ret (p, pool') →
  pool !! p = Some None
  ∧ pool' = <[p := Some (nexthop_init vrf_id iface_id ip)]> pool
  ∧ rte_ipv6_addr_is_unspec ip = false ∧ rte_ipv6_addr_is_mcast ip = false.
Proof.
  unfold nexthop_new.
  destruct (rte_ipv6_addr_is_unspec ip) eqn:Hu; [discriminate|].
  destruct (rte_ipv6_addr_is_mcast ip) eqn:Hm; [discriminate|]. simpl.
  destruct (list_find _ pool) as [[i s]|] eqn:Hf; [|discriminate].
  intros [= <- <-]. apply list_find_Some in Hf as (Hi & Hs & _).
  destruct s; [destruct Hs|]. done.
Qed.

(** a failed allocation: the address is refused or no slot is free *)
Lemma nexthop_new_Err (pool : list (option nexthop)) (vrf_id iface_id : N)
    (ip : rte_ipv6_addr) (e : N) :
  nexthop_new pool vrf_id iface_id ip = Err e →
  rte_ipv6_addr_is_unspec ip || rte_ipv6_addr_is_mcast ip = true
  ∨ ∀ j s, pool !! j = Some s → s ≠ None.
Proof.
  unfold nexthop_new.
  destruct (rte_ipv6_addr_is_unspec ip || rte_ipv6_addr_is_mcast ip); [by left|].
  destruct (list_find _ pool) as [[i s]|] eqn:Hf; [discriminate|].
  intros _. right. intros j s Hj ->.
  apply list_find_None in Hf.
  by apply (Forall_lookup_1 _ _ _ _ Hf Hj).
Qed.

Lemma nexthop_incref_other (pool : list (option nexthop)) (p q : nh_ptr) :
  p ≠ q → nexthop_incref pool p !! q = pool !! q.
Proof.
  intros Hne. unfold nexthop_incref.
  destruct (pool !! p) as [[n|]|]; [|done..].
  by apply list_lookup_insert_ne.
Qed.

Lemma nexthop_incref_same (pool : list (option nexthop)) (p : nh_ptr) (n : nexthop) :
  pool !! p = Some (Some n) →
  nexthop_incref pool p !! p = Some (Some (nh_set_ref_count (nh_ref_count n + 1) n)).
Proof.
  intros Hp. unfold nexthop_incref. rewrite Hp.
  apply list_lookup_insert_eq. by eapply lookup_lt_Some.
Qed.

Lemma prefix_of_full (ip : rte_ipv6_addr) : prefix_of ip RTE_IPV6_MAX_DEPTH = ip.
Proof.
  unfold prefix_of, RTE_IPV6_MAX_DEPTH. rewrite N.sub_diag.
  by rewrite N.shiftr_0_r, N.shiftl_0_r.
Qed.

(** a host route is the longest match for its address *)
Lemma rib6_lpm_host (rib : gmap (N * N * N) nh_ptr) (vrf_id : N) (ip : rte_ipv6_addr)
    (p : nh_ptr) :
  rib !! rib6_key vrf_id ip RTE_IPV6_MAX_DEPTH = Some p →
  rib6_lpm rib vrf_id ip 128 = Some p.
Proof.
  intros H. cbn [rib6_lpm].
  change (N.of_nat 128) with RTE_IPV6_MAX_DEPTH. by rewrite H.
Qed.

End PoolFacts.
Import PoolFacts.

(** ** The chain of held packets *)

Module ChainFacts.


(** a store to a packet that is not on the chain *)
Lemma held_chain_alter_fresh (mb : gmap mbuf_ptr rte_mbuf) (f : rte_mbuf → rte_mbuf)
    (k : mbuf_ptr) (head : option mbuf_ptr) (l : list mbuf_ptr) :
  k ∉ l → held_chain mb head l → held_chain (alter f k mb) head l.
Proof.
  intros Hk Hc. induction Hc as [|h b l Hh Hc IH]; [constructor|].
  apply not_elem_of_cons in Hk as [Hne Hk].
  apply held_chain_cons with (b := b); [|by apply IH].
  by rewrite lookup_alter_ne.
Qed.

Lemma held_chain_delete (mb : gmap mbuf_ptr rte_mbuf) (k : mbuf_ptr)
    (head : option mbuf_ptr) (l : list mbuf_ptr) :
  k ∉ l → held_chain mb head l → held_chain (delete k mb) head l.
Proof.
  intros Hk Hc. induction Hc as [|h b l Hh Hc IH]; [constructor|].
  apply not_elem_of_cons in Hk as [Hne Hk].
  apply held_chain_cons with (b := b); [|by apply IH].
  by rewrite lookup_delete_ne.
Qed.

Lemma held_chain_functional (mb : gmap mbuf_ptr rte_mbuf) (head : option mbuf_ptr)
    (l1 l2 : list mbuf_ptr) :
  held_chain mb head l1 → held_chain mb head l2 → l1 = l2.
Proof.
  intros H1. revert l2. induction H1 as [|h b l Hh Hc IH]; intros l2 H2.
  - by inversion H2.
  - inversion H2 as [|h' b' l' Hh' Hc' Heq]; subst.
    rewrite Hh in Hh'. injection Hh' as <-. f_equal. by apply IH.
Qed.

(** a chain that ends does not meet a packet twice *)
Lemma held_chain_suffix (mb : gmap mbuf_ptr rte_mbuf) (head : option mbuf_ptr)
    (l1 : list mbuf_ptr) (h : mbuf_ptr) (l2 : list mbuf_ptr) :
  held_chain mb head (l1 ++ h :: l2) → held_chain mb (Some h) (h :: l2).
Proof.
  revert head. induction l1 as [|x l1 IH]; intros head Hc; simpl in Hc.
  - by inversion Hc; subst.
  - inversion Hc; subst. eauto.
Qed.

Lemma held_chain_NoDup (mb : gmap mbuf_ptr rte_mbuf) (head : option mbuf_ptr)
    (l : list mbuf_ptr) :
  held_chain mb head l → NoDup l.
Proof.
  intros Hc. induction Hc as [|h b l Hh Hc IH]; [constructor|].
  constructor; [|done]. intros Hin.
  apply list_elem_of_split in Hin as (l1 & l2 & ->).
  pose proof (held_chain_suffix _ _ _ _ _ Hc) as Hs.
  pose proof (held_chain_cons mb h b _ Hh Hc) as Hfull.
  pose proof (held_chain_functional _ _ _ _ Hs Hfull) as Heq.
  apply (f_equal length) in Heq. simpl in Heq.
  rewrite length_app in Heq. simpl in Heq. lia.
Qed.

Lemma held_chain_allocated (mb : gmap mbuf_ptr rte_mbuf) (head : option mbuf_ptr)
    (l : list mbuf_ptr) (h : mbuf_ptr) :
  held_chain mb head l → h ∈ l → is_Some (mb !! h).
Proof.
  intros Hc. induction Hc as [|x b l Hx Hc IH]; intros Hin.
  - by apply elem_of_nil in Hin.
  - apply elem_of_cons in Hin as [->|Hin]; eauto.
Qed.

(** the head is the first packet, [NULL] for an empty queue *)
Lemma held_chain_head (mb : gmap mbuf_ptr rte_mbuf) (head : option mbuf_ptr)
    (l : list mbuf_ptr) :
  held_chain mb head l → head = list.head l.
Proof. by destruct 1. Qed.

(** linking a packet behind the last one *)
Lemma held_chain_snoc (mb : gmap mbuf_ptr rte_mbuf) (head : option mbuf_ptr)
    (l : list mbuf_ptr) (t m : mbuf_ptr) (bm : rte_mbuf) :
  held_chain mb head l →
  list.last l = Some t →
  m ∉ l →
  mb !! m = Some bm →
  md_next bm = None →
  held_chain (alter (mbuf_set_next (Some m)) t mb) head (l ++ [m]).
Proof.
  intros Hc. induction Hc as [|h b l Hh Hc IH]; intros Hlast Hm Hbm Hnext.
  - discriminate.
  - apply not_elem_of_cons in Hm as [Hne Hm].
    pose proof (held_chain_NoDup _ _ _ (held_chain_cons mb h b l Hh Hc)) as Hnd.
    apply NoDup_cons_1_1 in Hnd. rename Hnd into Hhl.
    destruct l as [|x l].
    + simpl in Hlast. injection Hlast as <-.
      inversion Hc; subst. simpl.
      apply held_chain_cons with (b := mbuf_set_next (Some m) b).
      * by rewrite lookup_alter_eq, Hh.
      * simpl. apply held_chain_cons with (b := bm).
        -- by rewrite lookup_alter_ne.
        -- rewrite Hnext. constructor.
    + assert (Hlast' : list.last (x :: l) = Some t) by (by rewrite last_cons_cons in Hlast).
      assert (Hth : t ≠ h).
      { intros ->. apply Hhl. by apply last_Some_elem_of. }
      simpl. apply held_chain_cons with (b := b).
      * by rewrite lookup_alter_ne.
      * by apply IH.
Qed.

End ChainFacts.
Import ChainFacts.
(** ** Invariants of the pool *)

Module Invariants.

Import Control.

(** whatever the chain, the loop that flushes it leaves the nexthops alone *)
Lemma flush_held_pool (RING_SIZE : nat) (nh : nh_ptr) (fuel : nat) :
  ∀ (head : option mbuf_ptr) (w w' : world),
    flush_held RING_SIZE fuel nh head w = Done w' → w_pool w' = w_pool w.
Proof.
  induction fuel as [|fuel IH]; intros head w w' Hrun.
  - destruct head; simpl in Hrun; [discriminate|]. by injection Hrun as <-.
  - destruct head as [h|]; simpl in Hrun; [|by injection Hrun as <-].
    destruct (w_mbufs w !! h) as [b|]; simpl in Hrun; [|discriminate].
    apply IH in Hrun. rewrite Hrun.
    by destruct (post_to_stack_rest RING_SIZE ip6_output_node (data_mbuf h)
                   (mbuf_update h (λ o, mbuf_set_iface None (mbuf_set_nh (Some nh) o)) w))
      as (-> & _).
Qed.

Section Preservation.

Variable NH_MAX_HELD_PKTS : N.
Variable NH_UCAST_PROBES : N.
Variable MAX_VRFS : N.
Variable IP6_MAX_ROUTES : nat.
Variable RING_SIZE : nat.
Variable MBUF_POOL_SIZE : nat.

(** a property of a nexthop that reads its flags and its hold count only, holds
    of an empty hold queue, and survives the enqueue of lines 98-109 *)
Variable P : nexthop → Prop.

Hypothesis P_ext : ∀ n n',
  nh_flags n' = nh_flags n → nh_held_pkts_num n' = nh_held_pkts_num n → P n → P n'.

Hypothesis P_empty : ∀ n, nh_held_pkts_num n = 0%N → P n.

Hypothesis P_enqueue : ∀ n n',
  P n →
  has_flag (nh_flags n) GR_NH_F_REACHABLE = false →
  (nh_held_pkts_num n < NH_MAX_HELD_PKTS)%N →
  nh_held_pkts_num n' = (nh_held_pkts_num n + 1)%N →
  nh_flags n' = nh_flags n ∨ nh_flags n' = set_flag (nh_flags n) GR_NH_F_PENDING →
  P n'.

Lemma pool_all_same_pool (w w' : world) :
  w_pool w' = w_pool w → pool_all P w → pool_all P w'.
Proof using Type. intros Hp Hall p n Hn. apply (Hall p). unfold nh_at in *. by rewrite <- Hp. Qed.

Lemma pool_all_slot (w : world) (p : nh_ptr) (s : option nexthop) :
  pool_all P w →
  (∀ n, s = Some n → P n) →
  pool_all P (w_set_pool (<[p := s]> (w_pool w)) w).
Proof using Type.
  intros Hall Hs q n. unfold nh_at. simpl.
  destruct (decide (p = q)) as [->|Hne].
  - destruct (decide (q < length (w_pool w))) as [Hlt|Hge].
    + rewrite list_lookup_insert_eq by done. intros [= ->]. by apply Hs.
    + rewrite list_insert_ge by lia. apply (Hall q).
  - rewrite list_lookup_insert_ne by done. apply (Hall q).
Qed.

Lemma pool_all_update (w : world) (p : nh_ptr) (f : nexthop → nexthop) :
  pool_all P w →
  (∀ x, nh_at w p = Some x → P (f x)) →
  pool_all P (nh_update p f w).
Proof using Type.
  intros Hall Hf. unfold nh_update. destruct (nh_at w p) as [x|] eqn:Hx; [|done].
  apply pool_all_slot; [done|]. intros n [= <-]. by apply Hf.
Qed.

Lemma pool_all_incref (w : world) (p : nh_ptr) :
  pool_all P w → pool_all P (w_set_pool (nexthop_incref (w_pool w) p) w).
Proof using P_ext.
  intros Hall. unfold nexthop_incref.
  destruct (w_pool w !! p) as [[n|]|] eqn:Hp; try by destruct w.
  apply pool_all_slot; [done|]. intros n' [= <-].
  apply (P_ext n); [done..|]. apply (Hall p). by apply nh_at_Some.
Qed.

Lemma pool_all_decref (w : world) (p : nh_ptr) :
  pool_all P w → pool_all P (w_set_pool (nexthop_decref (w_pool w) p) w).
Proof using P_ext.
  intros Hall. unfold nexthop_decref.
  destruct (w_pool w !! p) as [[n|]|] eqn:Hp; try by destruct w.
  destruct (N.leb (nh_ref_count n) 1).
  - apply pool_all_slot; [done|]. discriminate.
  - apply pool_all_slot; [done|]. intros n' [= <-].
    apply (P_ext n); [done..|]. apply (Hall p). by apply nh_at_Some.
Qed.

Lemma pool_all_new (w : world) (vrf_id iface_id : N) (ip : rte_ipv6_addr) (p : nh_ptr)
    (w1 : world) :
  ip6_nexthop_new w vrf_id iface_id ip = Ret (p, w1) → pool_all P w → pool_all P w1.
Proof using P_empty.
  unfold ip6_nexthop_new.
  destruct (nexthop_new _ _ _ _) as [[q pool']|] eqn:Hnew; [|discriminate].
  intros [= <- <-] Hall. apply nexthop_new_Ret in Hnew as (_ & -> & _).
  apply pool_all_slot; [done|]. intros n [= <-]. by apply P_empty.
Qed.

Lemma pool_all_route_insert (w : world) (vrf_id iface_id : N) (ip : rte_ipv6_addr)
    (depth : N) (nh : nh_ptr) :
  pool_all P w →
  pool_all P (snd (ip6_route_insert IP6_MAX_ROUTES w vrf_id iface_id ip depth nh)).
Proof using P_ext.
  intros Hall. unfold ip6_route_insert. destruct (_ || _); [|done]. simpl.
  apply (pool_all_incref (w_set_rib6 _ w)). by apply (pool_all_same_pool w).
Qed.

Lemma pool_all_route_delete (w : world) (vrf_id iface_id : N) (ip : rte_ipv6_addr)
    (depth : N) :
  pool_all P w → pool_all P (snd (ip6_route_delete w vrf_id iface_id ip depth)).
Proof using P_ext.
  intros Hall. unfold ip6_route_delete. destruct (w_rib6 w !! _); [|done]. simpl.
  apply (pool_all_decref (w_set_rib6 _ w)). by apply (pool_all_same_pool w).
Qed.

Lemma pool_all_post (t : control_input_t) (d : control_input_data) (w : world) :
  pool_all P w → pool_all P (snd (post_to_stack RING_SIZE t d w)).
Proof using Type.
  apply pool_all_same_pool. by destruct (post_to_stack_rest RING_SIZE t d w).
Qed.

(** lines 48-84 *)
Lemma pool_all_resolve (w : world) (m : mbuf_ptr) (r : option nh_ptr) (w1 : world) :
  unreachable_resolve IP6_MAX_ROUTES w m = Done (r, w1) → pool_all P w → pool_all P w1.
Proof using P_ext P_empty.
  unfold unreachable_resolve. intros Hrun Hall.
  destruct (w_mbufs w !! m) as [buf|]; simpl in Hrun; [|discriminate].
  destruct (md_iface buf) as [ifc|]; simpl in Hrun; [|discriminate].
  destruct (ip6_route_lookup _ _ _ _) as [nh|]; [|by injection Hrun as <- <-].
  destruct (nh_at w nh) as [n|]; simpl in Hrun; [|discriminate].
  destruct (_ && _); [|by injection Hrun as <- <-].
  match type of Hrun with
  | ?o ≫= ?k = _ => destruct o as [[x w0]| | |] eqn:Hsearch; simpl in Hrun;
                      try discriminate
  end.
  assert (H0 : pool_all P w0).
  { destruct (ip6_nexthop_lookup _ _ _ _) as [remote|e].
    - destruct (nh_at w remote) as [rr|] eqn:Hrr; simpl in Hsearch; [|discriminate].
      destruct (_ && _); injection Hsearch as <- <-; [|done].
      apply pool_all_update; [done|]. intros y Hy. apply (P_ext y); [done..|].
      by apply (Hall remote).
    - destruct (ip6_nexthop_new _ _ _ _) as [[remote w']|e'] eqn:Hnew;
        injection Hsearch as <- <-; [|done].
      by eapply pool_all_new. }
  destruct x as [remote|]; [|by injection Hrun as <- <-].
  destruct (nh_at w0 remote) as [rr|]; simpl in Hrun; [|discriminate].
  destruct (nh_at w0 nh) as [n1|]; simpl in Hrun; [|discriminate].
  destruct (negb _); [discriminate|].
  pose proof (pool_all_route_insert w0 (nh_vrf_id n1) (nh_iface_id n1)
                (dst_addr (m_ip6 buf)) RTE_IPV6_MAX_DEPTH remote H0) as Hins.
  destruct (ip6_route_insert _ _ _ _ _ _ _) as [[|e] w2];
    by injection Hrun as <- <-.
Qed.

(** lines 86-113 *)
Lemma pool_all_hold (w : world) (m : mbuf_ptr) (nh : nh_ptr) (w' : world) :
  unreachable_hold NH_MAX_HELD_PKTS RING_SIZE w m nh = Done w' →
  pool_all P w → pool_all P w'.
Proof using P_ext P_enqueue.
  unfold unreachable_hold. intros Hrun Hall.
  destruct (nh_at w nh) as [n|] eqn:Hn; simpl in Hrun; [|discriminate].
  destruct (has_flag (nh_flags n) GR_NH_F_REACHABLE) eqn:Hreach.
  { pose proof (pool_all_post ip6_output_node (data_mbuf m)
                  (mbuf_update m (mbuf_set_nh (Some nh)) w) Hall) as Hpost.
    destruct (post_to_stack _ _ _ _) as [[|e] w2]; by injection Hrun as <-. }
  destruct (N.ltb_spec (nh_held_pkts_num n) NH_MAX_HELD_PKTS) as [Hroom|Hfull];
    [|by injection Hrun as <-].
  set (w1 := mbuf_update m (mbuf_set_next None) w) in *.
  (* the nexthop after the packet is linked in *)
  assert (Hlink : ∀ w2,
            match nh_held_pkts_head n with
            | Some _ =>
                tail ← deref (nh_held_pkts_tail n);
                _ ← deref (w_mbufs w1 !! tail);
                Done (mbuf_update tail (mbuf_set_next (Some m)) w1)
            | None => Done (nh_update nh (nh_set_held_pkts_head (Some m)) w1)
            end = Done w2 →
            pool_all P w2
            ∧ ∃ n2, nh_at w2 nh = Some n2 ∧ nh_flags n2 = nh_flags n
                    ∧ nh_held_pkts_num n2 = nh_held_pkts_num n).
  { intros w2. destruct (nh_held_pkts_head n).
    - destruct (nh_held_pkts_tail n) as [t|]; [|discriminate].
      rewrite deref_Some, bind_Done.
      destruct (w_mbufs w1 !! t); [|discriminate].
      rewrite deref_Some, bind_Done.
      intros [= <-]. split; [done|]. by exists n.
    - intros [= <-]. split.
      + apply pool_all_update; [done|]. intros y Hy.
        apply (P_ext y); [done..|]. by apply (Hall nh).
      + exists (nh_set_held_pkts_head (Some m) n).
        split; [by apply nh_at_update_eq|done]. }
  match type of Hrun with
  | ?o ≫= ?k = _ => destruct o as [w2| | |] eqn:Hw2; simpl in Hrun; try discriminate
  end.
  destruct (Hlink w2 Hw2) as (Hall2 & n2 & Hn2 & Hf2 & Hnum2).
  set (w3 := nh_update nh (nh_set_held_pkts_tail (Some m)) w2) in *.
  set (g := λ x, nh_set_held_pkts_num (nh_held_pkts_num x + 1) x) in *.
  set (w4 := nh_update nh g w3) in *.
  assert (Hn3 : nh_at w3 nh = Some (nh_set_held_pkts_tail (Some m) n2))
    by (by apply nh_at_update_eq).
  assert (Hn4 : nh_at w4 nh = Some (g (nh_set_held_pkts_tail (Some m) n2)))
    by (by apply nh_at_update_eq).
  assert (Hall3 : pool_all P w3).
  { apply pool_all_update; [done|]. intros y Hy.
    apply (P_ext y); [done..|]. by apply (Hall2 nh). }
  assert (Hall4 : pool_all P w4).
  { apply pool_all_update; [done|]. intros y Hy. rewrite Hn3 in Hy. injection Hy as <-.
    apply (P_enqueue n); [by apply (Hall nh)|done|done| |].
    - simpl. by rewrite Hnum2.
    - left. simpl. done. }
  rewrite Hn4 in Hrun. simpl in Hrun.
  destruct (negb _); injection Hrun as <-; [|done].
  apply pool_all_update; [by apply pool_all_post|].
  intros y Hy.
  assert (Hy4 : nh_at w4 nh = Some y).
  { unfold nh_at in *.
    by destruct (post_to_stack_rest RING_SIZE ndp_solicit (data_nh nh) w4) as (<- & _). }
  rewrite Hn4 in Hy4. injection Hy4 as <-.
  apply (P_enqueue n); [by apply (Hall nh)|done|done| |].
  - simpl. by rewrite Hnum2.
  - right. simpl. by rewrite Hf2.
Qed.

Lemma pool_all_unreachable_cb (w : world) (m : mbuf_ptr) (w' : world) :
  ip6_nexthop_unreachable_cb NH_MAX_HELD_PKTS IP6_MAX_ROUTES RING_SIZE w m = Done w' →
  pool_all P w → pool_all P w'.
Proof using P_ext P_empty P_enqueue.
  unfold ip6_nexthop_unreachable_cb. intros Hrun Hall.
  destruct (unreachable_resolve IP6_MAX_ROUTES w m) as [[r w1]| | |] eqn:Hres;
    simpl in Hrun; try discriminate.
  apply pool_all_resolve in Hres; [|done].
  destruct r as [nh|].
  - by eapply pool_all_hold.
  - by injection Hrun as <-.
Qed.

(** lines 170-198: between line 175 and line 196 the nexthop is REACHABLE with
    its queue still full; it is line 196 that makes the property hold again *)
Lemma pool_all_refresh (fuel : nat) (w : world) (m : mbuf_ptr) (ifc : iface)
    (mac : rte_ether_addr) (nh : nh_ptr) (w' : world) :
  probe_refresh RING_SIZE fuel w m ifc mac nh = Done w' →
  pool_all P w → pool_all P w'.
Proof using P_empty.
  unfold probe_refresh. intros Hrun Hall.
  destruct (nh_at w nh) as [n|] eqn:Hn; simpl in Hrun; [|discriminate].
  destruct (has_flag (nh_flags n) GR_NH_F_STATIC); [by injection Hrun as <-|].
  match type of Hrun with
  | context [nh_update nh ?f w] => set (w1 := nh_update nh f w) in *
  end.
  destruct (nh_at w1 nh) as [n1|]; simpl in Hrun; [|discriminate].
  destruct (flush_held _ _ _ _ _) as [w2| | |] eqn:Hflush; simpl in Hrun;
    try discriminate.
  injection Hrun as <-. apply flush_held_pool in Hflush.
  match goal with
  | |- pool_all P (rte_pktmbuf_free m ?w3) => apply (pool_all_same_pool w3); [done|]
  end.
  intros p x.
  destruct (decide (p = nh)) as [->|Hne].
  - unfold nh_update. destruct (nh_at w2 nh) as [y|] eqn:Hy.
    + unfold nh_at. simpl. intros Hx. apply P_empty.
      destruct (decide (nh < length (w_pool w2))) as [Hlt|Hge].
      * rewrite list_lookup_insert_eq in Hx by done. by injection Hx as <-.
      * apply nh_at_lt in Hy. lia.
    + by rewrite Hy.
  - rewrite nh_at_update_ne by done. unfold nh_at. rewrite Hflush.
    fold (nh_at w1 p). unfold w1. rewrite nh_at_update_ne by done. apply (Hall p).
Qed.

(** lines 151-168 *)
Lemma pool_all_probe_nexthop (w : world) (ifc : iface) (target : rte_ipv6_addr)
    (r : option nh_ptr) (w1 : world) :
  probe_nexthop IP6_MAX_ROUTES w ifc target = (r, w1) → pool_all P w → pool_all P w1.
Proof using P_ext P_empty.
  unfold probe_nexthop. intros Hrun Hall.
  destruct (ip6_nexthop_lookup _ _ _ _); [by injection Hrun as <- <-|].
  destruct (ip6_nexthop_new _ _ _ _) as [[nh w0]|] eqn:Hnew; [|by injection Hrun as <- <-].
  apply pool_all_new in Hnew; [|done].
  pose proof (pool_all_route_insert w0 (if_vrf_id ifc) (if_id ifc) target
                RTE_IPV6_MAX_DEPTH nh Hnew) as Hins.
  destruct (ip6_route_insert _ _ _ _ _ _ _) as [[|e] w2]; by injection Hrun as <- <-.
Qed.

Lemma pool_all_probe_input_cb (fuel : nat) (w : world) (m : mbuf_ptr) (w' : world) :
  ndp_probe_input_cb IP6_MAX_ROUTES RING_SIZE fuel w m = Done w' →
  pool_all P w → pool_all P w'.
Proof using P_ext P_empty.
  unfold ndp_probe_input_cb. intros Hrun Hall.
  destruct (w_mbufs w !! m) as [buf|]; simpl in Hrun; [|discriminate].
  destruct (probe_parse _) as [[target mac]|]; [|by injection Hrun as <-].
  destruct (md_iface buf) as [ifc|]; simpl in Hrun; [|discriminate].
  destruct (probe_nexthop _ _ _ _) as [[nh|] w1] eqn:Hnh;
    apply pool_all_probe_nexthop in Hnh; try done.
  - by eapply pool_all_refresh.
  - by injection Hrun as <-.
Qed.

(** [nh6_add]: a nexthop it creates holds nothing *)
Lemma pool_all_nh6_add (w : world) (req : gr_ip6_nh_add_req) (code : N) (w' : world) :
  nh6_add MAX_VRFS IP6_MAX_ROUTES w req = Done (code, w') →
  pool_all P w → pool_all P w'.
Proof using P_ext P_empty.
  unfold nh6_add. intros Hrun Hall.
  destruct (_ || _); [by injection Hrun as <- <-|].
  destruct (N.leb _ _); [by injection Hrun as <- <-|].
  destruct (iface_from_id _ _); [|by injection Hrun as <- <-].
  destruct (ip6_nexthop_lookup _ _ _ _) as [nh|].
  { destruct (nh_at w nh); simpl in Hrun; [|discriminate].
    destruct (_ && _); by injection Hrun as <- <-. }
  destruct (ip6_nexthop_new _ _ _ _) as [[nh w1]|] eqn:Hnew;
    [|by injection Hrun as <- <-].
  assert (Hfresh : ∃ n1, nh_at w1 nh = Some n1 ∧ nh_held_pkts_num n1 = 0%N).
  { unfold ip6_nexthop_new in Hnew.
    destruct (nexthop_new _ _ _ _) as [[q pool']|] eqn:Hpool; [|discriminate].
    injection Hnew as Hq Hw1. subst q.
    apply nexthop_new_Ret in Hpool as (Hslot & -> & _). rewrite <- Hw1.
    eexists. split.
    - apply nh_at_Some. simpl. apply list_lookup_insert_eq. by eapply lookup_lt_Some.
    - reflexivity. }
  destruct Hfresh as (n1 & Hn1 & Hnum1).
  apply pool_all_new in Hnew; [|done].
  match type of Hrun with
  | context [nh_update nh ?g (nh_update nh ?f w1)] =>
      set (w2 := nh_update nh f w1) in *; set (w3 := nh_update nh g w2) in *;
      assert (Hall3 : pool_all P w3)
        by (apply pool_all_update;
              [apply pool_all_update; [done|]; intros y Hy; rewrite Hn1 in Hy;
               injection Hy as <-; by apply P_empty
              |intros y Hy; unfold w2 in Hy; rewrite (nh_at_update_eq _ _ _ _ Hn1) in Hy;
               injection Hy as <-; by apply P_empty])
  end.
  destruct (nh_at w3 nh) as [n3|]; simpl in Hrun; [|discriminate].
  pose proof (pool_all_route_insert w3 (nh_vrf_id n3) (nh_iface_id n3) (nh_ipv6 n3)
                RTE_IPV6_MAX_DEPTH nh Hall3) as Hins.
  destruct (ip6_route_insert _ _ _ _ _ _ _) as [[|e] w4]; by injection Hrun as <- <-.
Qed.

(** [nh6_del] *)
Lemma pool_all_nh6_del (w : world) (req : gr_ip6_nh_del_req) (code : N) (w' : world) :
  nh6_del MAX_VRFS w req = Done (code, w') → pool_all P w → pool_all P w'.
Proof using P_ext.
  unfold nh6_del. intros Hrun Hall.
  destruct (N.leb _ _); [by injection Hrun as <- <-|].
  destruct (ip6_nexthop_lookup _ _ _ _) as [nh|e].
  - destruct (nh_at w nh) as [n|]; simpl in Hrun; [|discriminate].
    destruct (_ || _); [by injection Hrun as <- <-|].
    pose proof (pool_all_route_delete w (del_vrf_id req) GR_IFACE_ID_UNDEF (del_host req)
                  RTE_IPV6_MAX_DEPTH Hall) as Hdel.
    destruct (ip6_route_delete _ _ _ _ _) as [[|e] w1]; by injection Hrun as <- <-.
  - destruct (_ && _); by injection Hrun as <- <-.
Qed.

(** [ndp_ns_output_process] writes the probe counters and [last_request] *)
Lemma pool_all_ns_output_one (w : world) (m : mbuf_ptr) (next : NdpNsOutput.edge)
    (w' : world) :
  NdpNsOutput.ndp_ns_output_one NH_UCAST_PROBES w m = Done (next, w') →
  pool_all P w → pool_all P w'.
Proof using P_ext.
  unfold NdpNsOutput.ndp_ns_output_one. intros Hrun Hall.
  destruct (w_mbufs w !! m) as [buf|]; simpl in Hrun; [|discriminate].
  destruct (md_data buf) as [nh|]; [|by injection Hrun as <- <-].
  destruct (nh_at w nh) as [n|] eqn:Hn; simpl in Hrun; [|discriminate].
  destruct (NdpNsOutput.ip6_addr_get_preferred _ _ _) as [local|];
    [|by injection Hrun as <- <-].
  destruct (nh_at w local) as [l|]; simpl in Hrun; [|discriminate].
  assert (Hkeep : ∀ (f : nexthop → nexthop) w0,
            (∀ x, nh_flags (f x) = nh_flags x) →
            (∀ x, nh_held_pkts_num (f x) = nh_held_pkts_num x) →
            pool_all P w0 → pool_all P (nh_update nh f w0)).
  { intros f w0 Hf Hnum H0. apply pool_all_update; [done|]. intros y Hy.
    apply (P_ext y); [apply Hf|apply Hnum|]. by apply (H0 nh). }
  destruct (_ && _).
  - match type of Hrun with
    | context [nh_update nh ?f w] =>
        set (w1 := nh_update nh f w) in *;
        assert (H1 : pool_all P w1) by (by apply Hkeep)
    end.
    destruct (nh_at w1 local); simpl in Hrun; [|discriminate].
    injection Hrun as <- <-.
    apply (pool_all_same_pool (nh_update nh (nh_set_last_request (rte_get_tsc_cycles w1)) w1));
      [done|]. by apply Hkeep.
  - match type of Hrun with
    | context [nh_update nh ?f w] =>
        set (w1 := nh_update nh f w) in *;
        assert (H1 : pool_all P w1) by (by apply Hkeep)
    end.
    destruct (nh_at w1 local); simpl in Hrun; [|discriminate].
    injection Hrun as <- <-.
    apply (pool_all_same_pool (nh_update nh (nh_set_last_request (rte_get_tsc_cycles w1)) w1));
      [done|]. by apply Hkeep.
Qed.

(** [ndp_ns_input_process] reads the pool and never writes to it *)
Lemma ndp_ns_input_one_pool (w : world) (m : mbuf_ptr)
    (out : list (NdpNsInput.edge * mbuf_ptr)) (w' : world) :
  NdpNsInput.ndp_ns_input_one MBUF_POOL_SIZE w m = Done (out, w') →
  w_pool w' = w_pool w.
Proof using Type.
  unfold NdpNsInput.ndp_ns_input_one. intros Hrun.
  destruct (w_mbufs w !! m) as [buf|]; [|discriminate].
  rewrite deref_Some, bind_Done in Hrun. cbv zeta in Hrun.
  repeat (match type of Hrun with
          | (if ?c then _ else _) = _ => destruct c; [by injection Hrun as <- <-|]
          end).
  destruct (md_iface buf) as [ifc|]; [|discriminate].
  rewrite deref_Some, bind_Done in Hrun.
  destruct (ip6_nexthop_lookup _ _ _ _) as [local|]; [|by injection Hrun as <- <-].
  destruct (nh_at w local) as [l|]; [|discriminate].
  rewrite deref_Some, bind_Done in Hrun.
  destruct (negb (has_flag _ _)); [by injection Hrun as <- <-|].
  destruct (NdpNsInput.ns_plan _ _ _ _ _ _ _) as [next|plan] eqn:Hplan;
    [by injection Hrun as <- <-|].
  assert (Hp : w_pool (NdpNsInput.rp_world plan) = w_pool w).
  { unfold NdpNsInput.ns_plan in Hplan.
    destruct (rte_ipv6_addr_is_unspec _).
    - destruct (negb _); [discriminate|]. destruct (negb _); [discriminate|].
      by injection Hplan as <-.
    - destruct (bool_decide _).
      + unfold rte_pktmbuf_copy in Hplan.
        destruct (w_mbufs w !! m); [|discriminate].
        destruct (bool_decide _); [|discriminate]. by injection Hplan as <-.
      + by injection Hplan as <-. }
  destruct (nh_at (NdpNsInput.rp_world plan) local); [|discriminate].
  rewrite deref_Some, bind_Done in Hrun.
  by injection Hrun as <- <-.
Qed.

Lemma pool_all_step (e : event) (w w' : world) :
  step NH_MAX_HELD_PKTS NH_UCAST_PROBES MAX_VRFS IP6_MAX_ROUTES RING_SIZE MBUF_POOL_SIZE
    e w w' →
  pool_all P w → pool_all P w'.
Proof using P_ext P_empty P_enqueue.
  destruct e as [m|fuel m|req|req|m|m]; simpl.
  - apply pool_all_unreachable_cb.
  - apply pool_all_probe_input_cb.
  - intros [code Hrun]. by eapply pool_all_nh6_add.
  - intros [code Hrun]. by eapply pool_all_nh6_del.
  - intros [next Hrun]. by eapply pool_all_ns_output_one.
  - intros [out Hrun]. apply pool_all_same_pool. by eapply ndp_ns_input_one_pool.
Qed.

(** a property of this kind that holds of a state holds of every state a run
    leads to from it *)
Lemma pool_all_run (w w' : world) :
  run NH_MAX_HELD_PKTS NH_UCAST_PROBES MAX_VRFS IP6_MAX_ROUTES RING_SIZE MBUF_POOL_SIZE
    w w' →
  pool_all P w → pool_all P w'.
Proof using P_ext P_empty P_enqueue.
  induction 1 as [|e w1 w2 _ IH Hstep]; [done|].
  intros Hall. eapply pool_all_step; [exact Hstep|]. by apply IH.
Qed.

End Preservation.

(** X28: no nexthop ever holds more than NH_MAX_HELD_PKTS packets. If that is so
    in a state, it is so in every state that a sequence of events leads to
    from it: packets handed to the two control callbacks, NH_ADD and NH_DEL
    requests, and objects of the two neighbor solicitation nodes, in any
    order. *)
Theorem held_bounded_run (NH_MAX_HELD_PKTS NH_UCAST_PROBES MAX_VRFS : N)
    (IP6_MAX_ROUTES RING_SIZE MBUF_POOL_SIZE : nat) (w w' : world) :
  run NH_MAX_HELD_PKTS NH_UCAST_PROBES MAX_VRFS IP6_MAX_ROUTES RING_SIZE MBUF_POOL_SIZE
    w w' →
  pool_all (held_bounded NH_MAX_HELD_PKTS) w →
  pool_all (held_bounded NH_MAX_HELD_PKTS) w'.
Proof.
  apply pool_all_run; unfold held_bounded.
  - intros n n' _ ->. done.
  - intros n ->. lia.
  - intros n n' _ _ Hlt -> _. lia.
Qed.

(** X29: a REACHABLE nexthop never holds a packet. If that is so in a state, it
    is so in every state that a sequence of events leads to from it: packets
    handed to the two control callbacks, NH_ADD and NH_DEL requests, and
    objects of the two neighbor solicitation nodes, in any order. *)
Theorem reachable_holds_nothing_run (NH_MAX_HELD_PKTS NH_UCAST_PROBES MAX_VRFS : N)
    (IP6_MAX_ROUTES RING_SIZE MBUF_POOL_SIZE : nat) (w w' : world) :
  run NH_MAX_HELD_PKTS NH_UCAST_PROBES MAX_VRFS IP6_MAX_ROUTES RING_SIZE MBUF_POOL_SIZE
    w w' →
  pool_all reachable_holds_nothing w →
  pool_all reachable_holds_nothing w'.
Proof.
  apply pool_all_run; unfold reachable_holds_nothing.
  - intros n n' -> ->. done.
  - intros n -> _. done.
  - intros n n' _ Hreach _ _ [->| ->]; [congruence|].
    unfold GR_NH_F_PENDING, GR_NH_F_REACHABLE in *.
    rewrite has_flag_set_other, Hreach by done. discriminate.
Qed.

(** packet 22 joins the two packets held in [Scenario.w_pending []]: three are
    held, of four *)
Lemma held_bounded_run_witness : pool_all (held_bounded 4) Cases.w_third_held.
Proof.
  apply (held_bounded_run 4 3 16 8 8 8 (Scenario.w_pending []) Cases.w_third_held).
  - apply run_step with (e := ev_unreachable 22) (w1 := Scenario.w_pending []);
      [apply run_nil|]. vm_compute. reflexivity.
  - intros p n Hn. destruct p as [|[|p]]; vm_compute in Hn; try discriminate.
    injection Hn as <-. vm_compute. discriminate.
Defined.

(** two packets for [addr_peer] miss in [Scenario.w_two_misses], then its
    advertisement arrives: the nexthop is REACHABLE and holds nothing *)
Lemma reachable_holds_nothing_run_witness :
  ∃ w' n,
    Scenario.resolve_two_misses = Done w'
    ∧ nh_at w' 1 = Some n
    ∧ has_flag (nh_flags n) GR_NH_F_REACHABLE = true
    ∧ pool_all reachable_holds_nothing w'.
Proof.
  eexists _, _. split; [vm_compute; reflexivity|].
  split; [vm_compute; reflexivity|]. split; [reflexivity|].
  apply (reachable_holds_nothing_run 4 3 16 8 8 8 Scenario.w_two_misses).
  - eapply run_step with (e := ev_probe 4 30).
    + eapply run_step with (e := ev_unreachable 11).
      * eapply run_step with (e := ev_unreachable 10); [apply run_nil|].
        vm_compute. reflexivity.
      * vm_compute. reflexivity.
    + vm_compute. reflexivity.
  - intros p n Hn. destruct p as [|[|p]]; vm_compute in Hn; try discriminate.
    injection Hn as <-. intros Hreach. vm_compute in Hreach. discriminate.
Defined.

End Invariants.



(** ** Probes received by the control loop *)

Module ProbeInput.

Import Control.

Lemma icmp6_get_opt_None (msg : icmp6_msg) (type : N) :
  icmp6_get_opt msg type = None ↔ ¬ carries_lladdr msg type.
Proof.
  unfold icmp6_get_opt, carries_lladdr.
  induction (nd_opts msg) as [|o l IH]; simpl.
  - split; [|done]. intros _ (o & Ho & _). by apply elem_of_nil in Ho.
  - destruct (N.eqb_spec (opt_type o) type) as [Heq|Hne]; simpl.
    + split; [done|]. intros Hn. exfalso. apply Hn. exists o. split; [left|done].
    + rewrite IH. split; intros Hn (o' & Ho' & Ht); apply Hn.
      * apply elem_of_cons in Ho' as [->|Ho']; [done|]. eauto.
      * exists o'. split; [by right|done].
Qed.

Lemma icmp6_get_opt_Some (msg : icmp6_msg) (type : N) (mac : rte_ether_addr) :
  icmp6_get_opt msg type = Some mac →
  ∃ o, o ∈ nd_opts msg ∧ opt_type o = type ∧ opt_mac o = mac.
Proof.
  unfold icmp6_get_opt.
  induction (nd_opts msg) as [|o l IH]; simpl; [done|].
  destruct (N.eqb_spec (opt_type o) type) as [Heq|Hne]; simpl.
  - intros [= <-]. exists o. split; [left|done].
  - intros H. destruct (IH H) as (o' & Ho' & Ht). exists o'. split; [by right|done].
Qed.

(** a message that is no probe, or has no link-layer address, is not parsed *)
Lemma probe_parse_None (msg : icmp6_msg) :
  (icmp6_type msg ≠ ICMP6_TYPE_NEIGH_SOLICIT ∧ icmp6_type msg ≠ ICMP6_TYPE_NEIGH_ADVERT)
  ∨ (icmp6_type msg = ICMP6_TYPE_NEIGH_SOLICIT ∧ ¬ carries_lladdr msg ICMP6_OPT_SRC_LLADDR)
  ∨ (icmp6_type msg = ICMP6_TYPE_NEIGH_ADVERT
     ∧ ¬ carries_lladdr msg ICMP6_OPT_TARGET_LLADDR) →
  probe_parse msg = None.
Proof.
  unfold probe_parse.
  intros [[Hns Hna]|[[Hns Hopt]|[Hna Hopt]]].
  - apply N.eqb_neq in Hns, Hna. by rewrite Hns, Hna.
  - apply icmp6_get_opt_None in Hopt. by rewrite Hns, Hopt.
  - apply icmp6_get_opt_None in Hopt. by rewrite Hna, Hopt.
Qed.

Section Facts.

Variable IP6_MAX_ROUTES : nat.
Variable RING_SIZE : nat.

(** C10: a packet posted to [ndp_probe_input_cb] that is neither a neighbor
    solicitation nor a neighbor advertisement, or that lacks the source
    link-layer address option (solicitation) or the target link-layer address
    option (advertisement), is freed and nothing else happens: the pool, the
    route table and the ring are what they were. *)
Theorem probe_without_lladdr_is_dropped (fuel : nat) (w : world) (m : mbuf_ptr)
    (buf : rte_mbuf) :
  w_mbufs w !! m = Some buf →
  (icmp6_type (m_icmp6 buf) ≠ ICMP6_TYPE_NEIGH_SOLICIT
   ∧ icmp6_type (m_icmp6 buf) ≠ ICMP6_TYPE_NEIGH_ADVERT)
  ∨ (icmp6_type (m_icmp6 buf) = ICMP6_TYPE_NEIGH_SOLICIT
     ∧ ¬ carries_lladdr (m_icmp6 buf) ICMP6_OPT_SRC_LLADDR)
  ∨ (icmp6_type (m_icmp6 buf) = ICMP6_TYPE_NEIGH_ADVERT
     ∧ ¬ carries_lladdr (m_icmp6 buf) ICMP6_OPT_TARGET_LLADDR) →
  ∃ w', ndp_probe_input_cb IP6_MAX_ROUTES RING_SIZE fuel w m = Done w'
        ∧ w_mbufs w' = delete m (w_mbufs w)
        ∧ w_pool w' = w_pool w
        ∧ w_rib6 w' = w_rib6 w
        ∧ w_ring w' = w_ring w.
Proof.
  intros Hm Hcase. exists (rte_pktmbuf_free m w).
  unfold ndp_probe_input_cb. rewrite Hm. simpl.
  rewrite (probe_parse_None _ Hcase). done.
Qed.



(** a nexthop that exists is not disturbed by the lookup or by the creation of
    the probe sender's nexthop, and it is found, not created *)
Lemma probe_nexthop_keeps (w : world) (ifc : iface) (target : rte_ipv6_addr)
    (r : option nh_ptr) (w1 : world) (p : nh_ptr) (n : nexthop) :
  probe_nexthop IP6_MAX_ROUTES w ifc target = (r, w1) →
  nh_at w p = Some n →
  nh_at w1 p = Some n ∧ (r = Some p → w1 = w).
Proof.
  unfold probe_nexthop, ip6_nexthop_lookup, ip6_nexthop_new.
  intros Hres Hp.
  destruct (nexthop_lookup _ _ _ _) as [q|e] eqn:Hl.
  { injection Hres as <- <-. done. }
  destruct (nexthop_new _ _ _ _) as [[q pool']|e'] eqn:Hn.
  2:{ injection Hres as <- <-. split; [done|discriminate]. }
  apply nexthop_new_Ret in Hn as (Hq & -> & _ & _).
  assert (Hqp : q ≠ p).
  { intros ->. apply nh_at_Some in Hp. congruence. }
  unfold ip6_route_insert in Hres.
  destruct (_ || _) in Hres; injection Hres as <- <-.
  - split.
    + unfold nh_at. simpl. rewrite nexthop_incref_other by done.
      rewrite list_lookup_insert_ne by done. apply Hp.
    + intros [= ->]. done.
  - split; [|discriminate].
    unfold nh_at. simpl. rewrite list_lookup_insert_ne by done. apply Hp.
Qed.

Lemma probe_refresh_keeps (fuel : nat) (w : world) (m : mbuf_ptr) (ifc : iface)
    (mac : rte_ether_addr) (nh : nh_ptr) (w' : world) (p : nh_ptr) (n : nexthop) :
  nh_at w p = Some n →
  (p = nh → has_flag (nh_flags n) GR_NH_F_STATIC = true) →
  probe_refresh RING_SIZE fuel w m ifc mac nh = Done w' →
  nh_at w' p = Some n.
Proof.
  intros Hp Hstatic. unfold probe_refresh.
  destruct (nh_at w nh) as [x|] eqn:Hx; simpl; [|discriminate].
  destruct (has_flag (nh_flags x) GR_NH_F_STATIC) eqn:Hs.
  { intros [= <-]. done. }
  assert (Hne : nh ≠ p).
  { intros ->. rewrite Hp in Hx. injection Hx as <-.
    rewrite Hstatic in Hs; done. }
  match goal with
  | |- context [nh_update nh ?f w] => set (w1 := nh_update nh f w)
  end.
  destruct (nh_at w1 nh) as [x1|]; simpl; [|discriminate].
  destruct (flush_held _ _ _ _ _) as [w2| | |] eqn:Hrun; simpl; try discriminate.
  intros [= <-]. apply Invariants.flush_held_pool in Hrun.
  unfold rte_pktmbuf_free. change (nh_at (w_set_mbufs ?a ?b) p) with (nh_at b p).
  rewrite nh_at_update_ne by done.
  unfold nh_at. rewrite Hrun. fold (nh_at w1 p). subst w1.
  by rewrite nh_at_update_ne.
Qed.

(** C3: a nexthop with the STATIC flag is left as it is, field for field, by
    any probe the control loop processes; and when the probe is about that very
    nexthop, the callback frees the packet and does nothing else, whatever the
    fuel. *)
Theorem static_nexthop_not_changed_by_probe (fuel : nat) (w : world) (m : mbuf_ptr)
    (p : nh_ptr) (n : nexthop) :
  nh_at w p = Some n →
  has_flag (nh_flags n) GR_NH_F_STATIC = true →
  (∀ w', ndp_probe_input_cb IP6_MAX_ROUTES RING_SIZE fuel w m = Done w' →
         nh_at w' p = Some n)
  ∧ (∀ buf target mac ifc,
       w_mbufs w !! m = Some buf →
       probe_parse (m_icmp6 buf) = Some (target, mac) →
       md_iface buf = Some ifc →
       ip6_nexthop_lookup w (if_vrf_id ifc) (if_id ifc) target = Ret p →
       ndp_probe_input_cb IP6_MAX_ROUTES RING_SIZE fuel w m
       = Done (rte_pktmbuf_free m w)).
Proof.
  intros Hp Hs. split.
  - intros w'. unfold ndp_probe_input_cb.
    destruct (w_mbufs w !! m) as [buf|]; simpl; [|discriminate].
    destruct (probe_parse (m_icmp6 buf)) as [[target mac]|].
    2:{ intros [= <-]. done. }
    destruct (md_iface buf) as [ifc|]; simpl; [|discriminate].
    destruct (probe_nexthop IP6_MAX_ROUTES w ifc target) as [r w1] eqn:Hres.
    destruct (probe_nexthop_keeps _ _ _ _ _ _ _ Hres Hp) as [Hp1 Hsame].
    destruct r as [nh|].
    + apply probe_refresh_keeps; [done|]. by intros ->.
    + intros [= <-]. done.
  - intros buf target mac ifc Hm Hparse Hifc Hl.
    unfold ndp_probe_input_cb. rewrite Hm. simpl. rewrite Hparse, Hifc. simpl.
    unfold probe_nexthop. rewrite Hl. unfold probe_refresh.
    rewrite Hp. simpl. by rewrite Hs.
Qed.






End Facts.

(** the echo request of [Scenario.w_echo] is dropped *)
Lemma probe_without_lladdr_is_dropped_witness :
  ∃ w', ndp_probe_input_cb 8 8 0 Scenario.w_echo 30 = Done w'
        ∧ w_mbufs w' = delete 30 (w_mbufs Scenario.w_echo)
        ∧ w_pool w' = w_pool Scenario.w_echo
        ∧ w_rib6 w' = w_rib6 Scenario.w_echo
        ∧ w_ring w' = w_ring Scenario.w_echo.
Proof.
  apply (probe_without_lladdr_is_dropped 8 8 0 Scenario.w_echo 30
           (Scenario.icmp6_pkt Scenario.echo_request)).
  - reflexivity.
  - left. split; discriminate.
Defined.

(** the static nexthop of [Scenario.w_static] keeps its link-layer address *)
Lemma static_nexthop_not_changed_by_probe_witness :
  nh_at Scenario.w_static 0 = Some Scenario.peer_static
  ∧ has_flag (nh_flags Scenario.peer_static) GR_NH_F_STATIC = true
  ∧ ndp_probe_input_cb 8 8 0 Scenario.w_static 30
    = Done (rte_pktmbuf_free 30 Scenario.w_static)
  ∧ nh_at (rte_pktmbuf_free 30 Scenario.w_static) 0 = Some Scenario.peer_static.
Proof.
  assert (H1 : nh_at Scenario.w_static 0 = Some Scenario.peer_static) by reflexivity.
  assert (H2 : has_flag (nh_flags Scenario.peer_static) GR_NH_F_STATIC = true)
    by reflexivity.
  destruct (static_nexthop_not_changed_by_probe 8 8 0 Scenario.w_static 30 0
              Scenario.peer_static H1 H2) as [Hkeep Hfree].
  assert (Hrun : ndp_probe_input_cb 8 8 0 Scenario.w_static 30
                 = Done (rte_pktmbuf_free 30 Scenario.w_static)).
  { apply (Hfree (Scenario.icmp6_pkt Scenario.advert_of_peer) Scenario.addr_peer
             Scenario.mac_peer Scenario.if1); reflexivity. }
  exact (conj H1 (conj H2 (conj Hrun (Hkeep _ Hrun)))).
Defined.

Lemma hold_queue_pending (ring : list control_input_msg) :
  hold_queue (Scenario.w_pending ring) Scenario.peer_pending [20; 21].
Proof.
  repeat split.
  apply held_chain_cons with (b := Scenario.data_pkt Scenario.addr_peer (Some 21));
    [reflexivity|].
  apply held_chain_cons with (b := Scenario.data_pkt Scenario.addr_peer None);
    [reflexivity|].
  constructor.
Qed.



(** C1: the flush loop of [ndp_probe_input_cb] (nexthop.c, lines 185-195) does
    not look at the result of [post_to_stack]. In [Scenario.w_pending] with a
    ring of two slots that holds the solicit of the nexthop, the nexthop holds
    packets 20 and 21 and the advertisement of its address is packet 30: the
    callback posts packet 20, the post of packet 21 fails, and the hold queue
    is emptied all the same. Packet 21 is then not in the ring, not freed, and
    in no hold queue. *)
Lemma probe_flush_loses_held_packet :
  ∃ w' n',
    ndp_probe_input_cb 8 2 2 (Scenario.w_pending [to_solicit 0]) 30 = Done w'
    ∧ hold_queue (Scenario.w_pending [to_solicit 0]) Scenario.peer_pending [20; 21]
    ∧ w_ring w' = [to_solicit 0; to_output 20]
    ∧ (to_output 21 ∉ w_ring w')
    ∧ is_Some (w_mbufs w' !! 21)
    ∧ w_pool w' = [Some n'; None]
    ∧ has_flag (nh_flags n') GR_NH_F_REACHABLE = true
    ∧ nh_held_pkts_num n' = 0%N
    ∧ nh_held_pkts_head n' = None
    ∧ nh_held_pkts_tail n' = None.
Proof.
  eexists _, _. split; [vm_compute; reflexivity|].
  split; [apply hold_queue_pending|].
  split; [reflexivity|]. split.
  { intros Hin. repeat (apply elem_of_cons in Hin as [Hin|Hin]; [discriminate|]).
    by apply elem_of_nil in Hin. }
  split; [vm_compute; eauto|].
  repeat split.
Qed.

End ProbeInput.


(** ** Packets for an unreachable destination *)

Module Unreachable.

Import Control.

Section Facts.

Variable NH_MAX_HELD_PKTS : N.
Variable IP6_MAX_ROUTES : nat.
Variable RING_SIZE : nat.

(** resolving the nexthop touches neither the packets nor the ring *)
Lemma unreachable_resolve_rest (w : world) (m : mbuf_ptr) (r : option nh_ptr)
    (w1 : world) :
  unreachable_resolve IP6_MAX_ROUTES w m = Done (r, w1) →
  w_mbufs w1 = w_mbufs w ∧ w_ring w1 = w_ring w.
Proof.
  unfold unreachable_resolve.
  destruct (w_mbufs w !! m) as [buf|]; simpl; [|discriminate].
  destruct (md_iface buf) as [ifc|]; simpl; [|discriminate].
  destruct (ip6_route_lookup _ _ _ _) as [nh|]; [|by intros [= <- <-]].
  destruct (nh_at w nh) as [n|]; simpl; [|discriminate].
  destruct (_ && _); [|by intros [= <- <-]].
  assert (Hstep : ∀ (o : outcome (option nh_ptr * world)) (k : _ → outcome _),
            (∀ x w0, o = Done (x, w0) → w_mbufs w0 = w_mbufs w ∧ w_ring w0 = w_ring w) →
            (∀ x w0, w_mbufs w0 = w_mbufs w → w_ring w0 = w_ring w →
                     k (x, w0) = Done (r, w1) →
                     w_mbufs w1 = w_mbufs w ∧ w_ring w1 = w_ring w) →
            o ≫= k = Done (r, w1) → w_mbufs w1 = w_mbufs w ∧ w_ring w1 = w_ring w).
  { intros o k Ho Hk. destruct o as [[x w0]| | |]; simpl; try discriminate.
    destruct (Ho x w0 eq_refl). by apply Hk. }
  apply Hstep.
  - intros x w0. unfold ip6_nexthop_lookup, ip6_nexthop_new.
    destruct (nexthop_lookup _ _ _ _) as [remote|e].
    + destruct (nh_at w remote) as [rr|]; simpl; [|discriminate].
      destruct (_ && _); intros [= <- <-]; [|done].
      by rewrite nh_update_mbufs, nh_update_ring.
    + destruct (nexthop_new _ _ _ _) as [[remote pool']|e']; by intros [= <- <-].
  - intros [remote|] w0 Hmb Hring; [|by intros [= <- <-]].
    destruct (nh_at w0 remote) as [rr|]; simpl; [|discriminate].
    destruct (nh_at w0 nh) as [n1|]; simpl; [|discriminate].
    destruct (negb _); [discriminate|].
    unfold ip6_route_insert. destruct (_ || _); by intros [= <- <-].
Qed.

(** the packet joins the hold queue of a nexthop that is not reachable and has
    room *)
Lemma unreachable_hold_enqueue (w : world) (m : mbuf_ptr) (nh : nh_ptr) (n : nexthop)
    (l : list mbuf_ptr) (bm : rte_mbuf) :
  nh_at w nh = Some n →
  has_flag (nh_flags n) GR_NH_F_REACHABLE = false →
  (nh_held_pkts_num n < NH_MAX_HELD_PKTS)%N →
  hold_queue w n l →
  m ∉ l →
  w_mbufs w !! m = Some bm →
  ∃ w' n',
    unreachable_hold NH_MAX_HELD_PKTS RING_SIZE w m nh = Done w'
    ∧ nh_at w' nh = Some n'
    ∧ hold_queue w' n' (l ++ [m])
    ∧ nh_held_pkts_num n' = (nh_held_pkts_num n + 1)%N
    ∧ is_Some (w_mbufs w' !! m)
    ∧ (if has_flag (nh_flags n) GR_NH_F_PENDING
       then nh_flags n' = nh_flags n ∧ w_ring w' = w_ring w
       else nh_flags n' = set_flag (nh_flags n) GR_NH_F_PENDING
            ∧ w_ring w' = ring_after RING_SIZE (w_ring w) [to_solicit nh]).
Proof.
  intros Hn Hreach Hroom (Hc & Htail & Hnum) Hml Hm.
  unfold unreachable_hold. rewrite Hn, deref_Some, bind_Done, Hreach.
  apply N.ltb_lt in Hroom. rewrite Hroom.
  set (w1 := mbuf_update m (mbuf_set_next None) w).
  assert (Hm1 : w_mbufs w1 !! m = Some (mbuf_set_next None bm)).
  { subst w1. by rewrite mbuf_update_lookup_eq, Hm. }
  assert (Hc1 : held_chain (w_mbufs w1) (nh_held_pkts_head n) l).
  { subst w1. simpl. by apply held_chain_alter_fresh. }
  assert (Hn1 : nh_at w1 nh = Some n) by done.
  (* the state after the packet is linked in, and its chain *)
  assert (Hlink : ∃ w2 n2,
            match nh_held_pkts_head n with
            | Some _ =>
                tail ← deref (nh_held_pkts_tail n);
                _ ← deref (w_mbufs w1 !! tail);
                Done (mbuf_update tail (mbuf_set_next (Some m)) w1)
            | None => Done (nh_update nh (nh_set_held_pkts_head (Some m)) w1)
            end = Done w2
            ∧ nh_at w2 nh = Some n2
            ∧ nh_flags n2 = nh_flags n
            ∧ nh_held_pkts_num n2 = nh_held_pkts_num n
            ∧ held_chain (w_mbufs w2) (nh_held_pkts_head n2) (l ++ [m])
            ∧ w_ring w2 = w_ring w
            ∧ is_Some (w_mbufs w2 !! m)).
  { pose proof (held_chain_head _ _ _ Hc) as Hhead.
    destruct l as [|h l'].
    - simpl in Hhead. rewrite Hhead.
      exists (nh_update nh (nh_set_held_pkts_head (Some m)) w1),
             (nh_set_held_pkts_head (Some m) n).
      split; [done|]. split; [by apply nh_at_update_eq|].
      split; [done|]. split; [done|].
      split; [|split; [by rewrite nh_update_ring|by rewrite nh_update_mbufs, Hm1]].
      rewrite nh_update_mbufs. simpl.
      apply held_chain_cons with (b := mbuf_set_next None bm); [done|]. constructor.
    - simpl in Hhead. rewrite Hhead.
      destruct (list.last (h :: l')) as [t|] eqn:Hlast.
      2:{ by apply last_None in Hlast. }
      rewrite Htail, deref_Some, bind_Done.
      assert (Htl : t ∈ h :: l') by (by apply last_Some_elem_of).
      destruct (held_chain_allocated _ _ _ t Hc1 Htl) as [bt Hbt].
      rewrite Hbt, deref_Some, bind_Done.
      exists (mbuf_update t (mbuf_set_next (Some m)) w1), n.
      split; [done|]. split; [done|]. split; [done|]. split; [done|].
      split; [|split; [done|]].
      + by apply (held_chain_snoc _ _ (h :: l') t m (mbuf_set_next None bm)).
      + assert (t ≠ m) by (intros ->; done).
        change (is_Some (alter (mbuf_set_next (Some m)) t (w_mbufs w1) !! m)).
        rewrite lookup_alter_ne by done. by rewrite Hm1. }
  destruct Hlink as (w2 & n2 & -> & Hn2 & Hf2 & Hnum2 & Hc2 & Hring2 & Hmem2).
  rewrite bind_Done.
  set (w3 := nh_update nh (nh_set_held_pkts_tail (Some m)) w2).
  set (g := λ x, nh_set_held_pkts_num (nh_held_pkts_num x + 1) x).
  set (w4 := nh_update nh g w3).
  assert (Hn3 : nh_at w3 nh = Some (nh_set_held_pkts_tail (Some m) n2))
    by (by apply nh_at_update_eq).
  assert (Hn4 : nh_at w4 nh = Some (g (nh_set_held_pkts_tail (Some m) n2)))
    by (by apply nh_at_update_eq).
  rewrite Hn4, deref_Some, bind_Done.
  change (nh_flags (g (nh_set_held_pkts_tail (Some m) n2))) with (nh_flags n2).
  rewrite Hf2.
  assert (Hmb4 : w_mbufs w4 = w_mbufs w2).
  { subst w4 w3. by rewrite !nh_update_mbufs. }
  assert (Hring4 : w_ring w4 = w_ring w).
  { subst w4 w3. by rewrite !nh_update_ring. }
  assert (Hq : ∀ w' n', w_mbufs w' = w_mbufs w2 →
                 nh_held_pkts_head n' = nh_held_pkts_head n2 →
                 nh_held_pkts_tail n' = Some m →
                 nh_held_pkts_num n' = (nh_held_pkts_num n + 1)%N →
                 hold_queue w' n' (l ++ [m])).
  { intros w' n' Hmb' Hh' Ht' Hnum'. split; [by rewrite Hmb', Hh'|].
    split; [by rewrite Ht', last_snoc|].
    rewrite Hnum', Hnum, length_app. simpl. lia. }
  destruct (has_flag (nh_flags n) GR_NH_F_PENDING) eqn:Hpend; simpl.
  - exists w4, (g (nh_set_held_pkts_tail (Some m) n2)).
    split; [done|]. split; [done|].
    split; [apply Hq; try done; simpl; by rewrite Hnum2|].
    split; [simpl; by rewrite Hnum2|].
    split; [by rewrite Hmb4|]. done.
  - set (w5 := snd (post_to_stack RING_SIZE ndp_solicit (data_nh nh) w4)).
    destruct (post_to_stack_rest RING_SIZE ndp_solicit (data_nh nh) w4)
      as (Hp5 & Hmb5 & _ & _).
    fold w5 in Hp5, Hmb5.
    assert (Hn5 : nh_at w5 nh = Some (g (nh_set_held_pkts_tail (Some m) n2))).
    { unfold nh_at. rewrite Hp5. apply Hn4. }
    eexists _, _. split; [reflexivity|].
    split; [by apply nh_at_update_eq|].
    split.
    { apply Hq.
      - by rewrite nh_update_mbufs, Hmb5, Hmb4.
      - done.
      - done.
      - simpl. by rewrite Hnum2. }
    split; [simpl; by rewrite Hnum2|].
    split; [by rewrite nh_update_mbufs, Hmb5, Hmb4|].
    split; [simpl; by rewrite Hf2|].
    rewrite nh_update_ring. subst w5.
    by rewrite post_to_stack_ring, Hring4.
Qed.


(** X27: when the nexthop the callback has resolved (pivoted or not) is not
    REACHABLE, a packet that finds room ([held_pkts_num < NH_MAX_HELD_PKTS]) is
    appended at the tail of the hold queue and the count goes up by one, staying
    within NH_MAX_HELD_PKTS. If PENDING was set already nothing is posted and
    the flags stay as they were; if it was not, PENDING is set and, the ring
    having room, the solicit of the nexthop is posted. When the queue is full
    the packet is freed and the nexthop, its queue and the ring stay as they
    were. *)
Theorem unreachable_holds_when_room (w : world) (m : mbuf_ptr) (nh : nh_ptr) (w1 : world)
    (n : nexthop) (l : list mbuf_ptr) :
  unreachable_resolve IP6_MAX_ROUTES w m = Done (Some nh, w1) →
  nh_at w1 nh = Some n →
  has_flag (nh_flags n) GR_NH_F_REACHABLE = false →
  hold_queue w1 n l →
  m ∉ l →
  ((nh_held_pkts_num n < NH_MAX_HELD_PKTS)%N →
   ∃ w' n',
     ip6_nexthop_unreachable_cb NH_MAX_HELD_PKTS IP6_MAX_ROUTES RING_SIZE w m = Done w'
     ∧ nh_at w' nh = Some n'
     ∧ hold_queue w' n' (l ++ [m])
     ∧ nh_held_pkts_num n' = (nh_held_pkts_num n + 1)%N
     ∧ (nh_held_pkts_num n' ≤ NH_MAX_HELD_PKTS)%N
     ∧ is_Some (w_mbufs w' !! m)
     ∧ (has_flag (nh_flags n) GR_NH_F_PENDING = true →
        nh_flags n' = nh_flags n ∧ w_ring w' = w_ring w)
     ∧ (has_flag (nh_flags n) GR_NH_F_PENDING = false →
        nh_flags n' = set_flag (nh_flags n) GR_NH_F_PENDING
        ∧ has_flag (nh_flags n') GR_NH_F_PENDING = true
        ∧ (length (w_ring w) < RING_SIZE → w_ring w' = w_ring w ++ [to_solicit nh])))
  ∧ ((NH_MAX_HELD_PKTS ≤ nh_held_pkts_num n)%N →
     ∃ w',
       ip6_nexthop_unreachable_cb NH_MAX_HELD_PKTS IP6_MAX_ROUTES RING_SIZE w m = Done w'
       ∧ w_mbufs w' !! m = None
       ∧ nh_at w' nh = Some n
       ∧ hold_queue w' n l
       ∧ w_ring w' = w_ring w).
Proof.
  intros Hres Hn Hreach Hq Hml.
  destruct (unreachable_resolve_rest _ _ _ _ Hres) as [Hmb1 Hring1].
  assert (Hcb : ip6_nexthop_unreachable_cb NH_MAX_HELD_PKTS IP6_MAX_ROUTES RING_SIZE w m
                = unreachable_hold NH_MAX_HELD_PKTS RING_SIZE w1 m nh).
  { unfold ip6_nexthop_unreachable_cb. by rewrite Hres. }
  split.
  - intros Hroom.
    assert (Hbm : ∃ bm, w_mbufs w1 !! m = Some bm).
    { rewrite Hmb1. unfold unreachable_resolve in Hres.
      destruct (w_mbufs w !! m) as [bm|]; [eauto|discriminate]. }
    destruct Hbm as [bm Hbm].
    destruct (unreachable_hold_enqueue w1 m nh n l bm Hn Hreach Hroom Hq Hml Hbm)
      as (w' & n' & Hrun & Hn' & Hq' & Hnum' & Hkept & Hpend).
    exists w', n'. rewrite Hcb. split; [done|]. split; [done|]. split; [done|].
    split; [done|]. split; [lia|]. split; [done|].
    destruct (has_flag (nh_flags n) GR_NH_F_PENDING).
    + split; [|discriminate]. intros _. by rewrite <- Hring1.
    + split; [discriminate|]. intros _.
      destruct Hpend as [Hf Hr]. split; [done|]. split.
      { rewrite Hf. apply has_flag_set_same. }
      intros Hfree. rewrite Hr, Hring1. apply ring_after_room. simpl. lia.
  - intros Hfull. exists (rte_pktmbuf_free m w1). rewrite Hcb.
    split.
    { unfold unreachable_hold. rewrite Hn, deref_Some, bind_Done, Hreach.
      apply N.ltb_ge in Hfull. by rewrite Hfull. }
    split; [apply lookup_delete_eq|]. split; [done|].
    split; [|done].
    destruct Hq as (Hc & Ht & Hnum). split; [|done].
    simpl. by apply held_chain_delete.
Qed.


(** a nexthop found under the key (vrf, iface, addr) has that vrf and address *)
Lemma nh_matches_key (vrf_id iface_id : N) (ip : rte_ipv6_addr) (r : nexthop) :
  nh_matches vrf_id iface_id ip (Some r) = true →
  nh_vrf_id r = vrf_id ∧ nh_ipv6 r = ip.
Proof.
  simpl. intros H. apply andb_prop in H as [H _].
  apply andb_prop in H as [H Hip]. apply andb_prop in H as [_ Hvrf].
  apply N.eqb_eq in Hvrf, Hip. done.
Qed.

(** the insertion of the host route, lines 76-83 *)
Lemma pivot_insert (w0 : world) (n : nexthop) (ifc : iface) (dst : rte_ipv6_addr)
    (remote : nh_ptr) (r0 : nexthop) :
  nh_at w0 remote = Some r0 →
  nh_vrf_id r0 = nh_vrf_id n →
  nh_ipv6 r0 = dst →
  nh_iface_id r0 = nh_iface_id n →
  let key := rib6_key (nh_vrf_id n) dst RTE_IPV6_MAX_DEPTH in
  (∃ w2, ip6_route_insert IP6_MAX_ROUTES w0 (nh_vrf_id n) (nh_iface_id n) dst
           RTE_IPV6_MAX_DEPTH remote = (ok, w2)
         ∧ pivoted w2 n ifc dst remote
         ∧ w_rib6 w2 = <[key := remote]> (w_rib6 w0))
  ∨ (∃ e, ip6_route_insert IP6_MAX_ROUTES w0 (nh_vrf_id n) (nh_iface_id n) dst
            RTE_IPV6_MAX_DEPTH remote = (failed e, w0)
          ∧ w_rib6 w0 !! key = None
          ∧ IP6_MAX_ROUTES ≤ size (w_rib6 w0)).
Proof.
  intros Hr Hvrf Hip Hif key. unfold ip6_route_insert. fold key.
  destruct (bool_decide (is_Some (w_rib6 w0 !! key))) eqn:Hpresent; simpl.
  - left. eexists. split; [reflexivity|]. split; [|done].
    exists (nh_set_ref_count (nh_ref_count r0 + 1) r0).
    split; [|split; [done|split; [done|split; [done|]]]].
    + apply nh_at_Some. simpl. apply nexthop_incref_same. by apply nh_at_Some.
    + simpl. split; [apply lookup_insert_eq|].
      unfold ip6_route_lookup. apply rib6_lpm_host. simpl. apply lookup_insert_eq.
  - destruct (bool_decide (size (w_rib6 w0) < IP6_MAX_ROUTES)) eqn:Hroom.
    + left. eexists. split; [reflexivity|]. split; [|done].
      exists (nh_set_ref_count (nh_ref_count r0 + 1) r0).
      split; [|split; [done|split; [done|split; [done|]]]].
      * apply nh_at_Some. simpl. apply nexthop_incref_same. by apply nh_at_Some.
      * simpl. split; [apply lookup_insert_eq|].
        unfold ip6_route_lookup. apply rib6_lpm_host. simpl. apply lookup_insert_eq.
    + right. exists ENOSPC. split; [done|].
      apply bool_decide_eq_false in Hpresent, Hroom.
      split; [|lia]. destruct (w_rib6 w0 !! key) eqn:Hk; [|done].
      exfalso. apply Hpresent. eauto.
Qed.

(** C4, amended: when the route resolved for the destination of the packet is
    a LINK nexthop whose address is not the destination, the callback looks the
    host nexthop of the destination up (in the vrf of the link route, on the
    interface of the packet). A nexthop found that is not an uninitialised
    gateway entry and whose interface is not that of the link route is a fatal
    abort. Otherwise the callback creates the nexthop on the interface of the
    link route when there is none, lets an uninitialised gateway entry inherit
    that interface, inserts the /128 host route of the destination pointing at
    the nexthop, and goes on with it; when the pool cannot give a nexthop or
    the route cannot be inserted, the packet is freed and no route is
    inserted. *)
Theorem unreachable_pivot (w : world) (m : mbuf_ptr) (buf : rte_mbuf) (ifc : iface)
    (nh : nh_ptr) (n : nexthop) :
  w_mbufs w !! m = Some buf →
  md_iface buf = Some ifc →
  ip6_route_lookup w (if_vrf_id ifc) (if_id ifc) (dst_addr (m_ip6 buf)) = Some nh →
  nh_at w nh = Some n →
  has_flag (nh_flags n) GR_NH_F_LINK = true →
  nh_ipv6 n ≠ dst_addr (m_ip6 buf) →
  let dst := dst_addr (m_ip6 buf) in
  let found := ip6_nexthop_lookup w (nh_vrf_id n) (if_id ifc) dst in
  let key := rib6_key (nh_vrf_id n) dst RTE_IPV6_MAX_DEPTH in
  let cb := ip6_nexthop_unreachable_cb NH_MAX_HELD_PKTS IP6_MAX_ROUTES RING_SIZE in
  (∀ remote r,
     found = Ret remote → nh_at w remote = Some r →
     gateway_uninit r = false → nh_iface_id r ≠ nh_iface_id n →
     cb w m = Aborted)
  ∧ ((∃ remote r,
        found = Ret remote ∧ nh_at w remote = Some r
        ∧ gateway_uninit r = false ∧ nh_iface_id r ≠ nh_iface_id n
        ∧ cb w m = Aborted)
     ∨ (∃ w',
          unreachable_resolve IP6_MAX_ROUTES w m = Done (None, w')
          ∧ cb w m = Done (rte_pktmbuf_free m w')
          ∧ w_rib6 w' = w_rib6 w
          ∧ ((∃ e e', found = Err e
                      ∧ ip6_nexthop_new w (nh_vrf_id n) (nh_iface_id n) dst = Err e')
             ∨ (w_rib6 w !! key = None ∧ IP6_MAX_ROUTES ≤ size (w_rib6 w))))
     ∨ (∃ remote w',
          unreachable_resolve IP6_MAX_ROUTES w m = Done (Some remote, w')
          ∧ cb w m = unreachable_hold NH_MAX_HELD_PKTS RING_SIZE w' m remote
          ∧ pivoted w' n ifc dst remote
          ∧ w_rib6 w' = <[key := remote]> (w_rib6 w)
          ∧ ((∃ e, found = Err e ∧ w_pool w !! remote = Some None)
             ∨ (∃ r, found = Ret remote ∧ nh_at w remote = Some r
                     ∧ (gateway_uninit r = true ∨ nh_iface_id r = nh_iface_id n))))).
Proof.
  intros Hm Hifc Hroute Hn Hlink Hne dst found key cb.
  assert (Hneb : negb (rte_ipv6_addr_eq dst (nh_ipv6 n)) = true).
  { apply negb_true_iff, N.eqb_neq. intros Heq. apply Hne. symmetry. exact Heq. }
  (* the callback up to the search of the host nexthop *)
  assert (Hres : unreachable_resolve IP6_MAX_ROUTES w m
    = r1 ← match found with
           | Err _ =>
               match ip6_nexthop_new w (nh_vrf_id n) (nh_iface_id n) dst with
               | Ret (remote, w1) => Done (Some remote, w1)
               | Err _ => Done (None, w)
               end
           | Ret remote =>
               r ← deref (nh_at w remote);
               if has_flag (nh_flags r) GR_NH_F_GATEWAY && N.eqb (nh_iface_id r) 0 then
                 Done (Some remote, nh_update remote (nh_set_iface_id (nh_iface_id n)) w)
               else Done (Some remote, w)
           end;
      match r1 with
      | (None, w1) => Done (None, w1)
      | (Some remote, w1) =>
          r ← deref (nh_at w1 remote);
          n1 ← deref (nh_at w1 nh);
          if negb (N.eqb (nh_iface_id r) (nh_iface_id n1)) then Aborted
          else
            match ip6_route_insert IP6_MAX_ROUTES w1 (nh_vrf_id n1) (nh_iface_id n1) dst
                    RTE_IPV6_MAX_DEPTH remote with
            | (failed _, w2) => Done (None, w2)
            | (ok, w2) => Done (Some remote, w2)
            end
      end).
  { unfold unreachable_resolve.
    rewrite Hm, deref_Some, bind_Done, Hifc, deref_Some, bind_Done.
    rewrite Hroute, Hn, deref_Some, bind_Done, Hlink. fold dst. rewrite Hneb.
    reflexivity. }
  assert (Hcb : cb w m = r ← unreachable_resolve IP6_MAX_ROUTES w m;
                         match r with
                         | (None, w1) => free m w1
                         | (Some x, w1) =>
                             unreachable_hold NH_MAX_HELD_PKTS RING_SIZE w1 m x
                         end) by reflexivity.
  (* what the state after the search yields *)
  assert (Htail : ∀ w0 remote r0,
    nh_at w0 remote = Some r0 → nh_at w0 nh = Some n → w_rib6 w0 = w_rib6 w →
    nh_vrf_id r0 = nh_vrf_id n → nh_ipv6 r0 = dst → nh_iface_id r0 = nh_iface_id n →
    unreachable_resolve IP6_MAX_ROUTES w m
    = (r ← deref (nh_at w0 remote);
       n1 ← deref (nh_at w0 nh);
       if negb (N.eqb (nh_iface_id r) (nh_iface_id n1)) then Aborted
       else
         match ip6_route_insert IP6_MAX_ROUTES w0 (nh_vrf_id n1) (nh_iface_id n1) dst
                 RTE_IPV6_MAX_DEPTH remote with
         | (failed _, w2) => Done (None, w2)
         | (ok, w2) => Done (Some remote, w2)
         end) →
    (∃ w',
       unreachable_resolve IP6_MAX_ROUTES w m = Done (None, w')
       ∧ cb w m = Done (rte_pktmbuf_free m w')
       ∧ w' = w0
       ∧ w_rib6 w !! key = None ∧ IP6_MAX_ROUTES ≤ size (w_rib6 w))
    ∨ (∃ w',
         unreachable_resolve IP6_MAX_ROUTES w m = Done (Some remote, w')
         ∧ cb w m = unreachable_hold NH_MAX_HELD_PKTS RING_SIZE w' m remote
         ∧ pivoted w' n ifc dst remote
         ∧ w_rib6 w' = <[key := remote]> (w_rib6 w))).
  { intros w0 remote r0 Hr0 Hn0 Hrib Hvrf Hip Hif Heq.
    rewrite Hr0, Hn0, !deref_Some, !bind_Done, Hif, N.eqb_refl in Heq. simpl in Heq.
    destruct (pivot_insert w0 n ifc dst remote r0 Hr0 Hvrf Hip Hif)
      as [(w2 & Hins & Hpiv & Hrib2)|(e & Hins & Hnone & Hfull)];
      rewrite Hins in Heq.
    - right. exists w2. split; [done|]. split; [rewrite Hcb, Heq; reflexivity|].
      split; [done|]. rewrite Hrib2, Hrib. reflexivity.
    - left. exists w0. split; [done|]. split; [rewrite Hcb, Heq; reflexivity|].
      split; [done|]. by rewrite <- Hrib. }
  destruct found as [remote|e] eqn:Hfound.
  - (* a nexthop is there *)
    destruct (nexthop_lookup_Ret _ _ _ _ _ Hfound) as (r & Hr & Hmatch & _).
    apply nh_at_Some in Hr.
    destruct (nh_matches_key _ _ _ _ Hmatch) as [Hvrf Hip].
    assert (Hrn : remote ≠ nh).
    { intros ->. rewrite Hn in Hr. injection Hr as <-. done. }
    rewrite Hr, deref_Some, bind_Done in Hres.
    fold (gateway_uninit r) in Hres.
    destruct (gateway_uninit r) eqn:Hgw.
    + (* an uninitialised gateway entry inherits the interface *)
      rewrite bind_Done in Hres.
      split; [intros remote' r' [= <-]; rewrite Hr; intros [= <-] Hf; congruence|].
      right.
      destruct (Htail (nh_update remote (nh_set_iface_id (nh_iface_id n)) w) remote
                  (nh_set_iface_id (nh_iface_id n) r))
        as [(w' & H1 & H2 & H3 & H4)|(w' & H1 & H2 & H3 & H4)]; try done.
      * by apply nh_at_update_eq.
      * by rewrite nh_at_update_ne.
      * by rewrite nh_update_rib6.
      * left. exists w'. split; [done|]. split; [done|].
        split; [by rewrite H3, nh_update_rib6|]. by right.
      * right. exists remote, w'. split; [done|]. split; [done|]. split; [done|].
        split; [done|]. right. exists r. split; [done|]. split; [done|]. by left.
    + rewrite bind_Done in Hres.
      destruct (N.eqb_spec (nh_iface_id r) (nh_iface_id n)) as [Hif|Hif].
      * split; [intros remote' r' [= <-]; rewrite Hr; intros [= <-] _ Hf; congruence|].
        right.
        destruct (Htail w remote r)
          as [(w' & H1 & H2 & H3 & H4)|(w' & H1 & H2 & H3 & H4)]; try done.
        -- left. exists w'. split; [done|]. split; [done|].
           split; [by rewrite H3|]. by right.
        -- right. exists remote, w'. split; [done|]. split; [done|]. split; [done|].
           split; [done|]. right. exists r. split; [done|]. split; [done|]. by right.
      * assert (Habort : cb w m = Aborted).
        { rewrite Hcb, Hres, Hr, Hn, !deref_Some, !bind_Done.
          apply N.eqb_neq in Hif. by rewrite Hif. }
        split; [done|]. left. exists remote, r. done.
  - (* no nexthop for the destination yet *)
    split; [discriminate|]. right.
    destruct (ip6_nexthop_new w (nh_vrf_id n) (nh_iface_id n) dst)
      as [[remote w0]|e'] eqn:Hnew.
    + unfold ip6_nexthop_new in Hnew.
      destruct (nexthop_new _ _ _ _) as [[p pool']|] eqn:Hnew'; [|discriminate].
      injection Hnew as -> <-.
      apply nexthop_new_Ret in Hnew' as (Hfree & -> & _ & _).
      assert (Hrn : remote ≠ nh).
      { intros ->. apply nh_at_Some in Hn. congruence. }
      rewrite bind_Done in Hres.
      destruct (Htail (w_set_pool (<[remote := Some (nexthop_init (nh_vrf_id n)
                                                       (nh_iface_id n) dst)]> (w_pool w)) w)
                  remote (nexthop_init (nh_vrf_id n) (nh_iface_id n) dst))
        as [(w' & H1 & H2 & H3 & H4)|(w' & H1 & H2 & H3 & H4)]; try done.
      * apply nh_at_Some. simpl. apply list_lookup_insert_eq.
        by eapply lookup_lt_Some.
      * unfold nh_at. simpl. rewrite list_lookup_insert_ne by done. apply Hn.
      * left. exists w'. split; [done|]. split; [done|].
        split; [by rewrite H3|]. by right.
      * right. exists remote, w'. split; [done|]. split; [done|]. split; [done|].
        split; [done|]. left. exists e. done.
    + rewrite bind_Done in Hres.
      left. exists w. split; [done|]. split; [rewrite Hcb, Hres; reflexivity|].
      split; [done|]. left. by exists e, e'.
Qed.

End Facts.

Lemma missed_not_held : 22 ∉ [20; 21].
Proof.
  intros H. repeat (apply elem_of_cons in H as [H|H]; [discriminate|]).
  by apply elem_of_nil in H.
Qed.

(** packet 22 of [Scenario.w_pending] joins packets 20 and 21 when the queue
    takes four packets, and is freed when it takes two *)
Lemma unreachable_holds_when_room_witness :
  (∃ w' n',
     ip6_nexthop_unreachable_cb 4 8 8 (Scenario.w_pending []) 22 = Done w'
     ∧ nh_at w' 0 = Some n'
     ∧ hold_queue w' n' [20; 21; 22]
     ∧ nh_held_pkts_num n' = 3%N
     ∧ nh_flags n' = GR_NH_F_PENDING
     ∧ w_ring w' = [])
  ∧ (∃ w',
       ip6_nexthop_unreachable_cb 2 8 8 (Scenario.w_pending []) 22 = Done w'
       ∧ w_mbufs w' !! 22 = None
       ∧ nh_at w' 0 = Some Scenario.peer_pending
       ∧ hold_queue w' Scenario.peer_pending [20; 21]
       ∧ w_ring w' = []).
Proof.
  split.
  - destruct (unreachable_holds_when_room 4 8 8 (Scenario.w_pending []) 22 0
                (Scenario.w_pending []) Scenario.peer_pending [20; 21])
      as (Hhold & _);
      [reflexivity | reflexivity | reflexivity | apply ProbeInput.hold_queue_pending
      | apply missed_not_held |].
    destruct Hhold as (w' & n' & Hrun & Hn & Hq & Hnum & _ & _ & Hpend & _);
      [reflexivity|].
    exists w', n'. destruct (Hpend eq_refl) as [Hf Hr].
    exact (conj Hrun (conj Hn (conj Hq (conj Hnum (conj Hf Hr))))).
  - destruct (unreachable_holds_when_room 2 8 8 (Scenario.w_pending []) 22 0
                (Scenario.w_pending []) Scenario.peer_pending [20; 21])
      as (_ & Hdrop);
      [reflexivity | reflexivity | reflexivity | apply ProbeInput.hold_queue_pending
      | apply missed_not_held |].
    apply Hdrop. discriminate.
Defined.

(** C2: [ip6_nexthop_unreachable_cb] (nexthop.c, lines 106-109) does not look at
    the result of [ip6_nexthop_solicit]. In [Cases.w_miss_ring_full] the ring,
    of one slot, is full and packet 10 for [addr_peer], which has no nexthop
    yet, has missed: the callback creates the nexthop in slot 1, holds the
    packet and sets PENDING, but no solicit is in the ring. *)
Lemma hold_pending_without_solicit :
  ∃ w' n',
    ip6_nexthop_unreachable_cb 4 8 1 Cases.w_miss_ring_full 10 = Done w'
    ∧ nh_at w' 1 = Some n'
    ∧ nh_ipv6 n' = Scenario.addr_peer
    ∧ has_flag (nh_flags n') GR_NH_F_PENDING = true
    ∧ has_flag (nh_flags n') GR_NH_F_REACHABLE = false
    ∧ nh_held_pkts_num n' = 1%N
    ∧ nh_held_pkts_head n' = Some 10
    ∧ w_ring w' = w_ring Cases.w_miss_ring_full
    ∧ to_solicit 1 ∉ w_ring w'.
Proof.
  eexists _, _. split; [vm_compute; reflexivity|].
  split; [reflexivity|]. repeat (split; [reflexivity|]).
  intros Hin. apply elem_of_cons in Hin as [Hin|Hin]; [discriminate|].
  by apply elem_of_nil in Hin.
Qed.

(** packet 10 of [Scenario.w_link] makes the callback create the nexthop of
    [addr_peer] in the spare slot and route [addr_peer/128] to it *)
Lemma unreachable_pivot_witness :
  ∃ remote w',
    unreachable_resolve 8 (Scenario.w_link [None]) 10 = Done (Some remote, w')
    ∧ pivoted w' Scenario.link_router Scenario.if1 Scenario.addr_peer remote
    ∧ w_pool (Scenario.w_link [None]) !! remote = Some None.
Proof.
  destruct (unreachable_pivot 4 8 8 (Scenario.w_link [None]) 10
              (Scenario.data_pkt Scenario.addr_peer None) Scenario.if1 0
              Scenario.link_router)
    as [_ [Habort|[Hdrop|Hpivot]]];
    [reflexivity | reflexivity | reflexivity | reflexivity | reflexivity
    | discriminate | | |].
  - destruct Habort as (remote & r & Hfound & _).
    vm_compute in Hfound. discriminate Hfound.
  - destruct Hdrop as (w' & Hres & _). vm_compute in Hres. discriminate Hres.
  - destruct Hpivot as (remote & w' & Hres & _ & Hpiv & _ & [(e & _ & Hfree)|Hfound]).
    + exists remote, w'. exact (conj Hres (conj Hpiv Hfree)).
    + destruct Hfound as (r & Hfound & _).
      vm_compute in Hfound. discriminate Hfound.
Defined.

(** C4 fails as stated: in [Scenario.w_link] with no spare slot the pool cannot
    give a nexthop for [addr_peer]; the callback frees the packet, it neither
    aborts nor inserts a host route. *)
Lemma unreachable_pool_full_counterexample : ¬ unreachable_always_pivots 4 8 8.
Proof.
  intros Hclaim.
  destruct (Hclaim (Scenario.w_link []) 10 (Scenario.data_pkt Scenario.addr_peer None)
              Scenario.if1 0 Scenario.link_router)
    as [Habort|(remote & w' & Hres & _)];
    [reflexivity | reflexivity | reflexivity | reflexivity | reflexivity
    | discriminate | |].
  - vm_compute in Habort. discriminate.
  - vm_compute in Hres. discriminate.
Qed.

End Unreachable.


(** ** Requests of the operator *)

Module Api.

Import Control.

(** the test of [nh6_del], line 244, is the protection of the data model *)
Lemma nh6_del_test (n : nexthop) :
  has_flag (nh_flags n) (N.lor (N.lor GR_NH_F_LOCAL GR_NH_F_LINK) GR_NH_F_GATEWAY)
  || N.ltb 1 (nh_ref_count n)
  = nh_protected n.
Proof. unfold nh_protected. by rewrite !has_flag_lor. Qed.

(** a pool where nothing matches the key *)
Lemma nexthop_lookup_none (pool : list (option nexthop)) (vrf_id iface_id : N)
    (ip : rte_ipv6_addr) :
  (∀ j s, pool !! j = Some s → nh_matches vrf_id iface_id ip s = false) →
  nexthop_lookup pool vrf_id iface_id ip = Err ENOENT.
Proof.
  intros Hnone. unfold nexthop_lookup.
  destruct (list_find _ pool) as [[i s]|] eqn:Hfind; [|done].
  apply list_find_Some in Hfind as (Hi & Hs & _).
  rewrite (Hnone i s Hi) in Hs. destruct Hs.
Qed.

Section Facts.

Variable MAX_VRFS : N.
Variable IP6_MAX_ROUTES : nat.



Lemma nh_update_pool_ne (w : world) (p q : nh_ptr) (f : nexthop → nexthop) :
  p ≠ q → w_pool (nh_update p f w) !! q = w_pool w !! q.
Proof.
  intros Hne. unfold nh_update. destruct (nh_at w p); [|done].
  simpl. by rewrite list_lookup_insert_ne.
Qed.

Lemma nh_update_ifaces (w : world) (p : nh_ptr) (f : nexthop → nexthop) :
  w_ifaces (nh_update p f w) = w_ifaces w.
Proof. unfold nh_update. by destruct (nh_at w p). Qed.

(** after a successful NH_ADD the lookup finds an entry with the interface and
    the link-layer address of the request *)
Lemma nh6_add_ok_entry (w : world) (req : gr_ip6_nh_add_req) (w1 : world) :
  nh6_add MAX_VRFS IP6_MAX_ROUTES w req = Done (0%N, w1) →
  add_checked MAX_VRFS w (add_nh req)
  ∧ w_ifaces w1 = w_ifaces w
  ∧ ∃ p e,
      ip6_nexthop_lookup w1 (api_vrf_id (add_nh req)) (api_iface_id (add_nh req))
        (api_ipv6 (add_nh req)) = Ret p
      ∧ nh_at w1 p = Some e
      ∧ nh_iface_id e = api_iface_id (add_nh req)
      ∧ nh_lladdr e = api_mac (add_nh req).
Proof.
  unfold nh6_add, add_checked. set (a := add_nh req).
  destruct (rte_ipv6_addr_is_unspec (api_ipv6 a) || rte_ipv6_addr_is_mcast (api_ipv6 a))
    eqn:Haddr; [discriminate|].
  destruct (N.leb MAX_VRFS (api_vrf_id a)) eqn:Hvrf; [discriminate|].
  destruct (iface_from_id w (api_iface_id a)) as [i|e] eqn:Hif.
  2:{ unfold iface_from_id in Hif. destruct (w_ifaces w !! _); [discriminate|].
      injection Hif as <-. discriminate. }
  unfold ip6_nexthop_lookup.
  destruct (nexthop_lookup (w_pool w) _ _ _) as [nh|e] eqn:Hfound.
  - (* the entry is there already *)
    destruct (nh_at w nh) as [n|] eqn:Hn; simpl; [|discriminate].
    destruct (add_exist_ok req && _ && _) eqn:Hsame; [|discriminate].
    intros [= <-]. split; [eauto|]. split; [done|].
    exists nh, n. apply andb_prop in Hsame as [Hsame Hmac].
    apply andb_prop in Hsame as [_ Hiface].
    apply N.eqb_eq in Hmac, Hiface. done.
  - (* the entry is created *)
    destruct (nexthop_lookup_Err _ _ _ _ _ Hfound) as [_ Hnone].
    unfold ip6_nexthop_new.
    destruct (nexthop_new _ _ _ _) as [[nh pool']|e'] eqn:Hnew.
    2:{ unfold nexthop_new in Hnew. rewrite Haddr in Hnew.
        destruct (list_find _ _) as [[? ?]|]; [discriminate|].
        injection Hnew as <-. discriminate. }
    apply nexthop_new_Ret in Hnew as (Hfree & -> & _ & _).
    set (init := nexthop_init (api_vrf_id a) (api_iface_id a) (api_ipv6 a)).
    set (w0 := w_set_pool (<[nh := Some init]> (w_pool w)) w).
    assert (Hn0 : nh_at w0 nh = Some init).
    { apply nh_at_Some. simpl. apply list_lookup_insert_eq. by eapply lookup_lt_Some. }
    set (w2 := nh_update nh (nh_set_lladdr (api_mac a)) w0).
    set (w3 := nh_update nh (nh_set_flags (N.lor GR_NH_F_STATIC GR_NH_F_REACHABLE)) w2).
    set (n3 := nh_set_flags (N.lor GR_NH_F_STATIC GR_NH_F_REACHABLE)
                 (nh_set_lladdr (api_mac a) init)).
    assert (Hn3 : nh_at w3 nh = Some n3).
    { subst w3 w2 n3. erewrite nh_at_update_eq; [reflexivity|].
      by apply nh_at_update_eq. }
    rewrite Hn3, deref_Some, bind_Done.
    unfold ip6_route_insert.
    destruct (bool_decide _ || bool_decide _); simpl; [|discriminate].
    intros [= <-]. split; [eauto|]. split.
    { simpl. subst w3 w2. by rewrite !nh_update_ifaces. }
    exists nh, (nh_set_ref_count (nh_ref_count n3 + 1) n3).
    assert (Hslot : nexthop_incref (w_pool w3) nh !! nh
                    = Some (Some (nh_set_ref_count (nh_ref_count n3 + 1) n3))).
    { apply nexthop_incref_same. by apply nh_at_Some. }
    split; [|split; [by apply nh_at_Some|done]].
    simpl. apply nexthop_lookup_first with (n := nh_set_ref_count (nh_ref_count n3 + 1) n3).
    + done.
    + simpl. unfold rte_ipv6_addr_eq. rewrite !N.eqb_refl.
      by rewrite orb_true_r.
    + intros j s Hj Hlt. apply (Hnone j).
      rewrite nexthop_incref_other in Hj by lia.
      subst w3 w2. rewrite !nh_update_pool_ne in Hj by lia.
      subst w0. simpl in Hj. by rewrite list_lookup_insert_ne in Hj by lia.
Qed.

(** when the lookup finds an entry, NH_ADD changes nothing: it returns OK for
    the same interface and link-layer address under [exist_ok], EEXIST if not *)
Lemma nh6_add_found (w : world) (req : gr_ip6_nh_add_req) (p : nh_ptr) (e : nexthop) :
  add_checked MAX_VRFS w (add_nh req) →
  ip6_nexthop_lookup w (api_vrf_id (add_nh req)) (api_iface_id (add_nh req))
    (api_ipv6 (add_nh req)) = Ret p →
  nh_at w p = Some e →
  nh6_add MAX_VRFS IP6_MAX_ROUTES w req
  = if add_exist_ok req
       && N.eqb (api_iface_id (add_nh req)) (nh_iface_id e)
       && rte_is_same_ether_addr (api_mac (add_nh req)) (nh_lladdr e)
    then Done (0%N, w) else Done (EEXIST, w).
Proof.
  intros (Haddr & Hvrf & i & Hif) Hfound He. unfold nh6_add.
  rewrite Haddr, Hvrf, Hif, Hfound, He. reflexivity.
Qed.

(** lines 222-229 of [nh6_add] once the lookup has missed *)
Lemma nh6_add_new (w : world) (req : gr_ip6_nh_add_req) (e : N) :
  add_checked MAX_VRFS w (add_nh req) →
  ip6_nexthop_lookup w (api_vrf_id (add_nh req)) (api_iface_id (add_nh req))
    (api_ipv6 (add_nh req)) = Err e →
  let a := add_nh req in
  let key := rib6_key (api_vrf_id a) (api_ipv6 a) RTE_IPV6_MAX_DEPTH in
  match list_find (λ s, Is_true (slot_is_free s)) (w_pool w) with
  | None => nh6_add MAX_VRFS IP6_MAX_ROUTES w req = Done (ENOMEM, w)
  | Some (p, _) =>
      if bool_decide (is_Some (w_rib6 w !! key))
         || bool_decide (size (w_rib6 w) < IP6_MAX_ROUTES)
      then nh6_add MAX_VRFS IP6_MAX_ROUTES w req
           = Done (0%N,
                   w_set_pool (<[p := Some (static_entry a)]> (w_pool w))
                     (w_set_rib6 (<[key := p]> (w_rib6 w)) w))
      else nh6_add MAX_VRFS IP6_MAX_ROUTES w req
           = Done (ENOSPC,
                   w_set_pool
                     (<[p := Some (nh_set_ref_count 0 (static_entry a))]> (w_pool w)) w)
  end.
Proof.
  intros (Haddr & Hvrf & i & Hif) Hmiss a key. unfold nh6_add.
  fold a in Haddr, Hvrf, Hif, Hmiss |- *.
  rewrite Haddr, Hvrf, Hif, Hmiss.
  unfold ip6_nexthop_new, nexthop_new. rewrite Haddr.
  destruct (list_find _ (w_pool w)) as [[p s]|] eqn:Hfind; [|done].
  apply list_find_Some in Hfind as (Hp & Hs & _).
  destruct s; [destruct Hs|].
  assert (Hlt : p < length (w_pool w)) by (by eapply lookup_lt_Some).
  set (init := nexthop_init (api_vrf_id a) (api_iface_id a) (api_ipv6 a)).
  set (w0 := w_set_pool (<[p := Some init]> (w_pool w)) w).
  assert (Hn0 : nh_at w0 p = Some init).
  { apply nh_at_Some. simpl. by apply list_lookup_insert_eq. }
  set (w2 := nh_update p (nh_set_lladdr (api_mac a)) w0).
  set (w3 := nh_update p (nh_set_flags (N.lor GR_NH_F_STATIC GR_NH_F_REACHABLE)) w2).
  set (n3 := nh_set_flags (N.lor GR_NH_F_STATIC GR_NH_F_REACHABLE)
               (nh_set_lladdr (api_mac a) init)).
  assert (Hn3 : nh_at w3 p = Some n3).
  { subst w3 w2 n3. erewrite nh_at_update_eq; [reflexivity|]. by apply nh_at_update_eq. }
  assert (Hw3 : w3 = w_set_pool (<[p := Some n3]> (w_pool w)) w).
  { subst w3. unfold nh_update at 1.
    assert (Hn2 : nh_at w2 p = Some (nh_set_lladdr (api_mac a) init))
      by (by apply nh_at_update_eq).
    rewrite Hn2. subst w2. unfold nh_update. rewrite Hn0. subst w0. simpl.
    by rewrite !list_insert_insert_eq. }
  rewrite Hn3, deref_Some, bind_Done. unfold ip6_route_insert.
  change (rib6_key (nh_vrf_id n3) (nh_ipv6 n3) RTE_IPV6_MAX_DEPTH) with key.
  rewrite Hw3. cbn [w_rib6 w_set_pool w_pool w_set_rib6].
  destruct (bool_decide _ || bool_decide _); [|done].
  unfold nexthop_incref. rewrite list_lookup_insert_eq by done.
  by rewrite list_insert_insert_eq.
Qed.



End Facts.






End Api.


(** ** Neighbor solicitations received *)

Module NsInput.

Import NdpNsInput.

(** a solicited-node multicast address is a multicast address *)
Lemma solnode_is_mcast (a : rte_ipv6_addr) :
  rte_ipv6_addr_is_solnode a = true → rte_ipv6_addr_is_mcast a = true.
Proof.
  unfold rte_ipv6_addr_is_solnode, rte_ipv6_addr_is_mcast.
  intros H. apply N.eqb_eq in H. apply N.eqb_eq.
  replace 120%N with (24 + 96)%N by reflexivity.
  rewrite <- N.shiftr_shiftr, H. reflexivity.
Qed.

Lemma lladdr_found_iff (msg : icmp6_msg) (type : N) :
  bool_decide (is_Some (icmp6_get_opt msg type)) = true ↔ carries_lladdr msg type.
Proof.
  rewrite bool_decide_eq_true. split.
  - intros [mac Hmac]. apply ProbeInput.icmp6_get_opt_Some in Hmac as (o & Ho & Ht & _).
    by exists o.
  - intros Hc. destruct (icmp6_get_opt msg type) eqn:Hopt; [eauto|].
    apply ProbeInput.icmp6_get_opt_None in Hopt. done.
Qed.

Section Facts.

Variable MBUF_POOL_SIZE : nat.

(** the edges [ns_plan] can leave for, and why *)
Lemma ns_plan_inl (w : world) (mbuf : mbuf_ptr) (ifc : iface) (src dst : rte_ipv6_addr)
    (found : bool) (next : edge) :
  ns_plan MBUF_POOL_SIZE w mbuf ifc src dst found = inl next →
  (next = INVAL ∧ rte_ipv6_addr_is_unspec src = true
   ∧ (rte_ipv6_addr_is_mcast dst = false ∨ found = true))
  ∨ (next = ERROR ∧ rte_ipv6_addr_is_unspec src = false).
Proof.
  unfold ns_plan. destruct (rte_ipv6_addr_is_unspec src).
  - destruct (rte_ipv6_addr_is_mcast dst); simpl.
    + destruct found; simpl; [|discriminate]. intros [= <-]. left. auto.
    + intros [= <-]. left. auto.
  - destruct found; [|discriminate].
    destruct (rte_pktmbuf_copy _ _ _) as [[c w1]|]; [discriminate|].
    intros [= <-]. by right.
Qed.

(** C5, amended: a solicitation goes to the inval edge, with no reply built and
    nothing handed to the control edge, when the hop limit is not 255, or the
    ICMP code is not 0, or the target is multicast, or, the target being an
    address of the router on the receiving interface, the source is unspecified
    and the destination is not multicast or a source link-layer address option
    is present. It goes there only when the hop limit is not 255, or the code
    is not 0, or the target is multicast, or the target is an address of the
    router on the receiving interface and the source is unspecified and the
    destination is not a solicited-node multicast address or the option is
    present. A solicitation that passes the first three checks and whose target
    is not such an address goes to the ignore edge whatever its source. *)
Theorem ns_inval_when_invalid (w : world) (mbuf : mbuf_ptr) (b : rte_mbuf) (ifc : iface) :
  w_mbufs w !! mbuf = Some b →
  md_iface b = Some ifc →
  let target := nd_target (m_icmp6 b) in
  (md_hop_limit b ≠ 255%N
   ∨ icmp6_code (m_icmp6 b) ≠ 0%N
   ∨ rte_ipv6_addr_is_mcast target = true
   ∨ (target_local w ifc target
      ∧ rte_ipv6_addr_is_unspec (md_src b) = true
      ∧ (rte_ipv6_addr_is_mcast (md_dst b) = false
         ∨ carries_lladdr (m_icmp6 b) ICMP6_OPT_SRC_LLADDR)) →
   ns_to_inval MBUF_POOL_SIZE w mbuf)
  ∧ (ns_to_inval MBUF_POOL_SIZE w mbuf →
     md_hop_limit b ≠ 255%N
     ∨ icmp6_code (m_icmp6 b) ≠ 0%N
     ∨ rte_ipv6_addr_is_mcast target = true
     ∨ (target_local w ifc target
        ∧ rte_ipv6_addr_is_unspec (md_src b) = true
        ∧ (rte_ipv6_addr_is_solnode (md_dst b) = false
           ∨ carries_lladdr (m_icmp6 b) ICMP6_OPT_SRC_LLADDR)))
  ∧ (md_hop_limit b = 255%N → icmp6_code (m_icmp6 b) = 0%N →
     rte_ipv6_addr_is_mcast target = false → ¬ target_local w ifc target →
     ndp_ns_input_one MBUF_POOL_SIZE w mbuf = Done ([(IGNORE, mbuf)], w)).
Proof.
  intros Hm Hifc target. unfold ns_to_inval, ndp_ns_input_one.
  rewrite Hm, deref_Some, bind_Done. fold target.
  destruct (N.eqb_spec (md_hop_limit b) 255) as [Hhop|Hhop]; cbn [negb].
  2:{ split; [done|]. split; [auto|]. done. }
  destruct (N.eqb_spec (icmp6_code (m_icmp6 b)) 0) as [Hcode|Hcode]; cbn [negb].
  2:{ split; [done|]. split; [auto|]. done. }
  replace (N.leb 0 (md_len b)) with true by (symmetry; apply N.leb_le; lia).
  cbn [negb].
  destruct (rte_ipv6_addr_is_mcast target) eqn:Hmc; cbn [negb].
  { split; [done|]. split; [auto|]. done. }
  rewrite Hifc, deref_Some, bind_Done.
  destruct (Control.ip6_nexthop_lookup w (if_vrf_id ifc) (if_id ifc) target)
    as [local|e] eqn:Hfound.
  2:{ (* no nexthop for the target *)
      assert (Hnl : ¬ target_local w ifc target).
      { intros (p & l & Hp & _). congruence. }
      split; [|split; [discriminate|done]].
      intros [?|[?|[?|[? _]]]]; done. }
  destruct (nexthop_lookup_Ret _ _ _ _ _ Hfound) as (l & Hl & _).
  apply nh_at_Some in Hl. rewrite Hl, deref_Some, bind_Done.
  destruct (has_flag (nh_flags l) GR_NH_F_LOCAL) eqn:Hlocal; cbn [negb].
  2:{ (* the nexthop of the target is not LOCAL *)
      assert (Hnl : ¬ target_local w ifc target).
      { intros (p & l' & Hp & Hl' & Hflag). rewrite Hfound in Hp. injection Hp as <-.
        rewrite Hl in Hl'. injection Hl' as <-. congruence. }
      split; [|split; [discriminate|done]].
      intros [?|[?|[?|[? _]]]]; done. }
  assert (Hloc : target_local w ifc target) by (by exists local, l).
  set (found := bool_decide (is_Some (icmp6_get_opt (m_icmp6 b) ICMP6_OPT_SRC_LLADDR))).
  destruct (ns_plan MBUF_POOL_SIZE w mbuf ifc (md_src b) (md_dst b) found)
    as [next|plan] eqn:Hplan.
  - apply ns_plan_inl in Hplan
      as [(-> & Hsrc & Hwhy)|(-> & Hsrc)].
    + split; [done|]. split; [|done]. intros _. right. right. right.
      split; [done|]. split; [done|].
      destruct Hwhy as [Hdst|Hopt].
      * left. destruct (rte_ipv6_addr_is_solnode (md_dst b)) eqn:Hsol; [|done].
        apply solnode_is_mcast in Hsol. congruence.
      * right. by apply lladdr_found_iff.
    + split; [|split; [discriminate|done]].
      intros [?|[?|[?|(_ & Hu & _)]]]; congruence.
  - (* a reply is built *)
    assert (Hno : ∀ (o : outcome (list (edge * mbuf_ptr) * world)),
              (∀ out w', o = Done (out, w') → ∃ x, out = x ++ [(IP_OUTPUT, mbuf)]) →
              o ≠ Done ([(INVAL, mbuf)], w)).
    { intros o Ho Heq. destruct (Ho _ _ Heq) as [x Hx].
      destruct x as [|? [|? ?]]; simpl in Hx; discriminate. }
    assert (Hreply : ∀ out w',
      (l1 ← deref (nh_at (rp_world plan) local);
       Done (rp_enqueued plan ++ [(IP_OUTPUT, mbuf)],
             mbuf_update mbuf
               (forge_advert (rp_solicited plan) l1 (default local (rp_remote plan))
                  (rp_dst plan)) (rp_world plan))) = Done (out, w') →
      ∃ x, out = x ++ [(IP_OUTPUT, mbuf)]).
    { intros out w'. destruct (nh_at (rp_world plan) local); simpl; [|discriminate].
      intros [= <- <-]. eauto. }
    split; [|split; [|done]].
    + intros [?|[?|[?|(_ & Hsrc & Hwhy)]]]; try done.
      exfalso. unfold ns_plan in Hplan. rewrite Hsrc in Hplan.
      destruct Hwhy as [Hdst|Hopt].
      * by rewrite Hdst in Hplan.
      * apply lladdr_found_iff in Hopt. fold found in Hopt. rewrite Hopt in Hplan.
        by destruct (rte_ipv6_addr_is_mcast (md_dst b)).
    + intros Heq. exfalso. by apply (Hno _ Hreply).
Qed.

(** C6: a valid solicitation from the unspecified address whose target is an
    address of the router on the receiving interface is answered by a neighbor
    advertisement with Solicited = 0 (Router and Override set, the target and
    its link-layer address as option) sent from the target address to the
    all-nodes link-local multicast address, hop limit 255; the reply reuses the
    buffer, is the only buffer enqueued, and goes to ip6_output. Nothing is
    enqueued to the control edge, no copy is allocated, and the nexthops are not
    touched. *)
Theorem ns_unspecified_source_reply (w : world) (mbuf : mbuf_ptr) (b : rte_mbuf)
    (ifc : iface) (local : nh_ptr) (l : nexthop) :
  w_mbufs w !! mbuf = Some b →
  md_iface b = Some ifc →
  ns_valid b →
  rte_ipv6_addr_is_unspec (md_src b) = true →
  Control.ip6_nexthop_lookup w (if_vrf_id ifc) (if_id ifc) (nd_target (m_icmp6 b))
  = Ret local →
  nh_at w local = Some l →
  has_flag (nh_flags l) GR_NH_F_LOCAL = true →
  ∃ w' b',
    ndp_ns_input_one MBUF_POOL_SIZE w mbuf = Done ([(IP_OUTPUT, mbuf)], w')
    ∧ w_mbufs w' !! mbuf = Some b'
    ∧ (∀ k, k ≠ mbuf → w_mbufs w' !! k = w_mbufs w !! k)
    ∧ w_pool w' = w_pool w
    ∧ w_ring w' = w_ring w
    ∧ icmp6_type (m_icmp6 b') = ICMP6_TYPE_NEIGH_ADVERT
    ∧ icmp6_code (m_icmp6 b') = 0%N
    ∧ na_solicited (m_icmp6 b') = false
    ∧ na_router (m_icmp6 b') = true
    ∧ na_override (m_icmp6 b') = true
    ∧ nd_target (m_icmp6 b') = nh_ipv6 l
    ∧ nd_opts (m_icmp6 b')
      = [{| opt_type := ICMP6_OPT_TARGET_LLADDR; opt_mac := nh_lladdr l |}]
    ∧ dst_addr (m_ip6 b') = RTE_IPV6_ADDR_ALLNODES_LINK_LOCAL
    ∧ src_addr (m_ip6 b') = nh_ipv6 l
    ∧ hop_limits (m_ip6 b') = 255%N
    ∧ md_nh b' = Some local.
Proof.
  intros Hm Hifc (Hhop & Hcode & Hmc & Hunspec) Hsrc Hfound Hl Hlocal.
  destruct (Hunspec Hsrc) as [Hsol Hopt].
  apply solnode_is_mcast in Hsol.
  assert (Hnot : bool_decide (is_Some (icmp6_get_opt (m_icmp6 b) ICMP6_OPT_SRC_LLADDR))
                 = false).
  { apply not_true_is_false. intros H. by apply lladdr_found_iff in H. }
  unfold ndp_ns_input_one.
  rewrite Hm, deref_Some, bind_Done, Hhop, Hcode, Hmc.
  replace (N.leb 0 (md_len b)) with true by (symmetry; apply N.leb_le; lia).
  rewrite !N.eqb_refl. cbn [negb].
  rewrite Hifc, deref_Some, bind_Done, Hfound, Hl, deref_Some, bind_Done, Hlocal.
  cbn [negb]. rewrite Hnot. unfold ns_plan. rewrite Hsrc, Hsol. cbn [negb].
  cbn [rp_world rp_enqueued rp_remote rp_solicited rp_dst].
  rewrite Hl, deref_Some, bind_Done.
  eexists _, _. split; [reflexivity|].
  split; [by rewrite mbuf_update_lookup_eq, Hm|].
  split; [intros k Hk; by apply mbuf_update_lookup_ne|].
  repeat split.
Qed.

End Facts.

(** a solicitation with hop limit 64 goes to inval; one for an address that is
    not the router's goes to ignore, although it comes from the unspecified
    address and was sent to a unicast address *)
Lemma ns_inval_when_invalid_witness :
  ns_to_inval 8
    (Scenario.w_solicited
       (Scenario.solicit_pkt Scenario.addr_peer Scenario.addr_ll Scenario.addr_ll 64 []))
    40
  ∧ ndp_ns_input_one 8
      (Scenario.w_solicited
         (Scenario.solicit_pkt 0 Scenario.addr_router Scenario.addr_other 255 []))
      40
    = Done ([(IGNORE, 40)],
            Scenario.w_solicited
              (Scenario.solicit_pkt 0 Scenario.addr_router Scenario.addr_other 255 [])).
Proof.
  split.
  - destruct (ns_inval_when_invalid 8
                (Scenario.w_solicited
                   (Scenario.solicit_pkt Scenario.addr_peer Scenario.addr_ll
                      Scenario.addr_ll 64 []))
                40 _ Scenario.if1 eq_refl eq_refl) as (Hinval & _ & _).
    apply Hinval. left. discriminate.
  - destruct (ns_inval_when_invalid 8
                (Scenario.w_solicited
                   (Scenario.solicit_pkt 0 Scenario.addr_router Scenario.addr_other
                      255 []))
                40 _ Scenario.if1 eq_refl eq_refl) as (_ & _ & Hignore).
    apply Hignore; [reflexivity | reflexivity | reflexivity |].
    intros (p & l & Hp & _). vm_compute in Hp. discriminate Hp.
Defined.

(** C5 fails as stated: a solicitation from the unspecified address, sent to a
    unicast address, with hop limit 255 and code 0, fails the validation of the
    claim; its target is not an address of the router, and the node sends it to
    the ignore edge, not to inval. *)
Lemma ns_ignored_counterexample : ¬ ns_inval_exactly_when_invalid 8.
Proof.
  intros Hclaim.
  destruct (Hclaim
              (Scenario.w_solicited
                 (Scenario.solicit_pkt 0 Scenario.addr_router Scenario.addr_other
                    255 []))
              40 _ Scenario.if1 eq_refl eq_refl) as [_ Hinval].
  assert (Hrun : ns_to_inval 8
                   (Scenario.w_solicited
                      (Scenario.solicit_pkt 0 Scenario.addr_router Scenario.addr_other
                         255 []))
                   40).
  { apply Hinval. right. right. right. split; [reflexivity|]. left. reflexivity. }
  unfold ns_to_inval in Hrun. vm_compute in Hrun. discriminate Hrun.
Qed.

(** the solicitation of scenario S2: source ::, destination ff02::1:ff00:1,
    target fe80::1 *)
Lemma ns_unspecified_source_reply_witness :
  ∃ w' b',
    ndp_ns_input_one 8
      (Scenario.w_solicited
         (Scenario.solicit_pkt 0 Scenario.addr_ll_solnode Scenario.addr_ll 255 []))
      40
    = Done ([(IP_OUTPUT, 40)], w')
    ∧ w_mbufs w' !! 40 = Some b'
    ∧ w_pool w' = [Some Scenario.local_ll; None]
    ∧ icmp6_type (m_icmp6 b') = ICMP6_TYPE_NEIGH_ADVERT
    ∧ na_solicited (m_icmp6 b') = false
    ∧ dst_addr (m_ip6 b') = RTE_IPV6_ADDR_ALLNODES_LINK_LOCAL
    ∧ md_nh b' = Some 0.
Proof.
  destruct (ns_unspecified_source_reply 8
              (Scenario.w_solicited
                 (Scenario.solicit_pkt 0 Scenario.addr_ll_solnode Scenario.addr_ll
                    255 []))
              40 _ Scenario.if1 0 Scenario.local_ll eq_refl eq_refl)
    as (w' & b' & Hrun & Hb & _ & Hpool & _ & Htype & _ & Hsol & _ & _ & _ & _
        & Hdst & _ & _ & Hnh).
  - split; [reflexivity|]. split; [reflexivity|]. split; [reflexivity|].
    intros _. split; [reflexivity|].
    intros (o & Ho & _). by apply elem_of_nil in Ho.
  - reflexivity.
  - reflexivity.
  - reflexivity.
  - reflexivity.
  - exists w', b'.
    exact (conj Hrun (conj Hb (conj Hpool (conj Htype (conj Hsol (conj Hdst Hnh)))))).
Defined.

End NsInput.



(** ** Neighbor solicitations sent *)

Module NsOutput.

Import NdpNsOutput.

Section Facts.

Variable NH_UCAST_PROBES : N.

(** C7: when [ndp_ns_output] builds a solicit for a nexthop (the buffer names
    the nexthop and the outgoing interface has a preferred address), the
    packet goes to the output edge with the nexthop attached and [last_request]
    set to the current time. If [last_reply] is not zero and fewer than
    NH_UCAST_PROBES unicast probes were sent, the IPv6 destination is the
    address of the nexthop and [ucast_probes] is incremented; otherwise the
    destination is the solicited-node multicast address of the nexthop's
    address and [bcast_probes] is incremented. *)
Theorem ns_output_destination (w : world) (mbuf : mbuf_ptr) (buf : rte_mbuf) (nh : nh_ptr)
    (n : nexthop) (local : nh_ptr) (l : nexthop) :
  w_mbufs w !! mbuf = Some buf →
  md_data buf = Some nh →
  nh_at w nh = Some n →
  ip6_addr_get_preferred w (nh_iface_id n) (nh_ipv6 n) = Some local →
  nh_at w local = Some l →
  ∃ w' b' n',
    ndp_ns_output_one NH_UCAST_PROBES w mbuf = Done (OUTPUT, w')
    ∧ w_mbufs w' !! mbuf = Some b'
    ∧ nh_at w' nh = Some n'
    ∧ md_nh b' = Some nh
    ∧ nh_last_request n' = rte_get_tsc_cycles w
    ∧ icmp6_type (m_icmp6 b') = ICMP6_TYPE_NEIGH_SOLICIT
    ∧ nd_target (m_icmp6 b') = nh_ipv6 n
    ∧ src_addr (m_ip6 b') = nh_ipv6 l
    ∧ hop_limits (m_ip6 b') = 255%N
    ∧ (if negb (N.eqb (nh_last_reply n) 0) && N.ltb (nh_ucast_probes n) NH_UCAST_PROBES
       then dst_addr (m_ip6 b') = nh_ipv6 n
            ∧ nh_ucast_probes n' = (nh_ucast_probes n + 1)%N
            ∧ nh_bcast_probes n' = nh_bcast_probes n
       else dst_addr (m_ip6 b') = rte_ipv6_solnode_from_addr (nh_ipv6 n)
            ∧ nh_bcast_probes n' = (nh_bcast_probes n + 1)%N
            ∧ nh_ucast_probes n' = nh_ucast_probes n).
Proof.
  intros Hm Hdata Hn Hpref Hl. unfold ndp_ns_output_one.
  rewrite Hm, deref_Some, bind_Done, Hdata, Hn, deref_Some, bind_Done, Hpref, Hl.
  rewrite deref_Some, bind_Done.
  (* the counter updated does not change the address of the local nexthop *)
  assert (Hlocal : ∀ f, (∀ x, nh_ipv6 (f x) = nh_ipv6 x) →
            ∃ l1, nh_at (nh_update nh f w) local = Some l1 ∧ nh_ipv6 l1 = nh_ipv6 l).
  { intros f Hf. destruct (decide (nh = local)) as [->|Hne].
    - rewrite Hn in Hl. injection Hl as <-.
      exists (f n). split; [by apply nh_at_update_eq|done].
    - exists l. split; [by rewrite nh_at_update_ne|done]. }
  destruct (negb (N.eqb (nh_last_reply n) 0) && N.ltb (nh_ucast_probes n) NH_UCAST_PROBES).
  - set (f := λ x, nh_set_ucast_probes (nh_ucast_probes x + 1) x).
    destruct (Hlocal f ltac:(done)) as (l1 & Hl1 & Hip).
    rewrite Hl1, deref_Some, bind_Done.
    eexists _, _, _. split; [reflexivity|].
    split; [by rewrite mbuf_update_lookup_eq, nh_update_mbufs, nh_update_mbufs, Hm|].
    split.
    { rewrite nh_at_mbuf_update. apply nh_at_update_eq. by apply nh_at_update_eq. }
    simpl. rewrite Hip. unfold rte_get_tsc_cycles. rewrite nh_update_tsc. done.
  - set (f := λ x, nh_set_bcast_probes (nh_bcast_probes x + 1) x).
    destruct (Hlocal f ltac:(done)) as (l1 & Hl1 & Hip).
    rewrite Hl1, deref_Some, bind_Done.
    eexists _, _, _. split; [reflexivity|].
    split; [by rewrite mbuf_update_lookup_eq, nh_update_mbufs, nh_update_mbufs, Hm|].
    split.
    { rewrite nh_at_mbuf_update. apply nh_at_update_eq. by apply nh_at_update_eq. }
    simpl. rewrite Hip. unfold rte_get_tsc_cycles. rewrite nh_update_tsc. done.
Qed.

End Facts.

(** a nexthop that has answered before is probed by unicast, one that has never
    answered by multicast to ff02::1:ff00:2 *)
Lemma ns_output_destination_witness :
  (∃ w' b' n',
     ndp_ns_output_one 3 (Scenario.w_soliciting (Scenario.peer_probed 800 0)) 50
     = Done (OUTPUT, w')
     ∧ w_mbufs w' !! 50 = Some b'
     ∧ nh_at w' 1 = Some n'
     ∧ dst_addr (m_ip6 b') = Scenario.addr_ll_peer
     ∧ nh_ucast_probes n' = 1%N
     ∧ nh_last_request n' = 1000%N)
  ∧ (∃ w' b' n',
       ndp_ns_output_one 3 (Scenario.w_soliciting (Scenario.peer_probed 0 0)) 50
       = Done (OUTPUT, w')
       ∧ w_mbufs w' !! 50 = Some b'
       ∧ nh_at w' 1 = Some n'
       ∧ dst_addr (m_ip6 b') = 0xff0200000000000000000001ff000002%N
       ∧ nh_bcast_probes n' = 1%N
       ∧ nh_last_request n' = 1000%N).
Proof.
  split.
  - destruct (ns_output_destination 3 (Scenario.w_soliciting (Scenario.peer_probed 800 0))
                50 _ 1 _ 0 _ eq_refl eq_refl eq_refl eq_refl eq_refl)
      as (w' & b' & n' & Hrun & Hb & Hn & _ & Hreq & _ & _ & _ & _ & Hdst & Hcnt & _).
    exists w', b', n'.
    exact (conj Hrun (conj Hb (conj Hn (conj Hdst (conj Hcnt Hreq))))).
  - destruct (ns_output_destination 3 (Scenario.w_soliciting (Scenario.peer_probed 0 0))
                50 _ 1 _ 0 _ eq_refl eq_refl eq_refl eq_refl eq_refl)
      as (w' & b' & n' & Hrun & Hb & Hn & _ & Hreq & _ & _ & _ & _ & Hdst & Hcnt & _).
    exists w', b', n'.
    exact (conj Hrun (conj Hb (conj Hn (conj Hdst (conj Hcnt Hreq))))).
Defined.

End NsOutput.

(** ** The scenarios of section 8, run on the model *)

Module Scenarios.

Import Scenario.

(** evaluate each fact of a conjunction *)
Ltac evaluate :=
  cbv zeta;
  repeat match goal with
         | |- _ ∧ _ => split
         end;
  vm_compute; reflexivity.

(** S1, for NDP: the first miss creates the nexthop of the destination, holds
    the packet and posts one solicit; the second miss is held too; the
    advertisement makes the nexthop REACHABLE with the advertised address and
    hands both packets to the output node, oldest first. *)
Example resolution_flushes_held_packets :
  let w := done_state resolve_two_misses in
  (w ≫= λ w, nh_flags <$> nh_at w 1) = Some GR_NH_F_REACHABLE
  ∧ (w ≫= λ w, nh_lladdr <$> nh_at w 1) = Some mac_peer
  ∧ (w ≫= λ w, nh_held_pkts_num <$> nh_at w 1) = Some 0%N
  ∧ (w_ring <$> w) = Some [to_solicit 1; to_output 10; to_output 11]
  ∧ (w ≫= λ w, md_nh <$> w_mbufs w !! 10) = Some (Some 1)
  ∧ (w ≫= λ w, md_nh <$> w_mbufs w !! 11) = Some (Some 1)
  ∧ (w ≫= λ w, w_mbufs w !! 30) = None.
Proof. evaluate. Qed.

(** S3: with room for four packets, six misses leave four packets held in the
    order of arrival, two freed, and one solicit posted. *)
Example hold_queue_overflow :
  let w := done_state (unreachable_all 4 8 8 w_six_misses [10; 11; 12; 13; 14; 15]) in
  (w ≫= λ w, nh_held_pkts_num <$> nh_at w 1) = Some 4%N
  ∧ (w ≫= λ w, nh_held_pkts_head <$> nh_at w 1) = Some (Some 10)
  ∧ (w ≫= λ w, md_next <$> w_mbufs w !! 10) = Some (Some 11)
  ∧ (w ≫= λ w, md_next <$> w_mbufs w !! 11) = Some (Some 12)
  ∧ (w ≫= λ w, md_next <$> w_mbufs w !! 12) = Some (Some 13)
  ∧ (w ≫= λ w, md_next <$> w_mbufs w !! 13) = Some None
  ∧ (w ≫= λ w, nh_held_pkts_tail <$> nh_at w 1) = Some (Some 13)
  ∧ (w ≫= λ w, w_mbufs w !! 14) = None
  ∧ (w ≫= λ w, w_mbufs w !! 15) = None
  ∧ (w_ring <$> w) = Some [to_solicit 1].
Proof. evaluate. Qed.

(** a solicitation from fe80::2 with its link-layer address: a copy whose
    target is the address of the sender goes to the control edge, then the
    advertisement, Solicited = 1, goes to the sender *)
Example solicitation_with_lladdr :
  let r := NdpNsInput.ndp_ns_input_one 8 (w_solicited solicit_from_peer) 40 in
  let w := done_state (snd <$> r) in
  (fst <$> r) = Done [(NdpNsInput.CONTROL, 41); (NdpNsInput.IP_OUTPUT, 40)]
  ∧ (w ≫= λ w, nd_target ∘ m_icmp6 <$> w_mbufs w !! 41) = Some addr_ll_peer
  ∧ (w ≫= λ w, md_callback <$> w_mbufs w !! 41) = Some (Some cb_ndp_probe_input)
  ∧ (w ≫= λ w, na_solicited ∘ m_icmp6 <$> w_mbufs w !! 40) = Some true
  ∧ (w ≫= λ w, dst_addr ∘ m_ip6 <$> w_mbufs w !! 40) = Some addr_ll_peer.
Proof. evaluate. Qed.

(** S6, for NDP: the advertisement of a static nexthop with another link-layer
    address leaves the configured one. *)
Example static_nexthop_keeps_lladdr :
  (done_state (Control.ndp_probe_input_cb 8 8 4 w_static 30) ≫= λ w, nh_at w 0)
  = Some peer_static.
Proof. evaluate. Qed.

End Scenarios.

(** ** What becomes of a packet given to the unreachable callback *)

Module Delivery.

Import Control.

Section Facts.

Variable NH_MAX_HELD_PKTS : N.
Variable IP6_MAX_ROUTES : nat.
Variable RING_SIZE : nat.

(** a post that fails leaves the state as it was, one that succeeds appends to
    the ring *)
Lemma post_to_stack_cases (t : control_input_t) (d : control_input_data) (w : world)
    (s : status) (w' : world) :
  post_to_stack RING_SIZE t d w = (s, w') →
  (s = ok ∧ length (w_ring w) < RING_SIZE
   ∧ w' = w_set_ring (w_ring w ++ [{| msg_type := t; msg_data := d |}]) w)
  ∨ (s = failed EAGAIN ∧ RING_SIZE ≤ length (w_ring w) ∧ w' = w).
Proof.
  unfold post_to_stack. case_bool_decide; intros [= <- <-]; [left|right].
  - done.
  - split; [done|]. split; [lia|done].
Qed.

(** lines 86-96: the nexthop resolved is REACHABLE *)
Lemma unreachable_hold_reachable (w : world) (m : mbuf_ptr) (nh : nh_ptr) (n : nexthop) :
  nh_at w nh = Some n →
  has_flag (nh_flags n) GR_NH_F_REACHABLE = true →
  unreachable_hold NH_MAX_HELD_PKTS RING_SIZE w m nh
  = if bool_decide (length (w_ring w) < RING_SIZE)
    then Done (w_set_ring (w_ring w ++ [to_output m])
                 (mbuf_update m (mbuf_set_nh (Some nh)) w))
    else Done (rte_pktmbuf_free m (mbuf_update m (mbuf_set_nh (Some nh)) w)).
Proof.
  intros Hn Hreach. unfold unreachable_hold.
  rewrite Hn, deref_Some, bind_Done, Hreach. unfold post_to_stack. simpl.
  by case_bool_decide.
Qed.

(** X1: a packet the callback has dealt with is freed, or posted to the output
    node with its nexthop attached, or the last packet of the hold queue of a
    nexthop that is PENDING; it is never left anywhere else *)
Theorem unreachable_packet_freed_sent_or_held (w : world) (m : mbuf_ptr) (w' : world) :
  ip6_nexthop_unreachable_cb NH_MAX_HELD_PKTS IP6_MAX_ROUTES RING_SIZE w m = Done w' →
  (w_mbufs w' !! m = None ∧ w_ring w' = w_ring w)
  ∨ (∃ nh n b,
       nh_at w' nh = Some n
       ∧ has_flag (nh_flags n) GR_NH_F_REACHABLE = true
       ∧ w_mbufs w' !! m = Some b
       ∧ md_nh b = Some nh
       ∧ w_ring w' = w_ring w ++ [to_output m])
  ∨ (∃ nh n,
       nh_at w' nh = Some n
       ∧ has_flag (nh_flags n) GR_NH_F_REACHABLE = false
       ∧ has_flag (nh_flags n) GR_NH_F_PENDING = true
       ∧ nh_held_pkts_tail n = Some m
       ∧ is_Some (w_mbufs w' !! m)).
Proof.
  unfold ip6_nexthop_unreachable_cb. intros Hrun.
  destruct (unreachable_resolve IP6_MAX_ROUTES w m) as [[r w1]| | |] eqn:Hres;
    simpl in Hrun; try discriminate.
  assert (Hbuf : is_Some (w_mbufs w !! m)).
  { unfold unreachable_resolve in Hres.
    destruct (w_mbufs w !! m); [eauto|discriminate]. }
  apply Unreachable.unreachable_resolve_rest in Hres as [Hmb1 Hring1].
  destruct r as [nh|].
  2:{ injection Hrun as <-. left. split; [apply lookup_delete_eq|done]. }
  unfold unreachable_hold in Hrun.
  destruct (nh_at w1 nh) as [n|] eqn:Hn; simpl in Hrun; [|discriminate].
  destruct (has_flag (nh_flags n) GR_NH_F_REACHABLE) eqn:Hreach.
  { (* re-sent *)
    destruct (post_to_stack _ _ _ _) as [s w2] eqn:Hpost.
    apply post_to_stack_cases in Hpost as [(-> & _ & ->)|(-> & _ & ->)];
      injection Hrun as <-.
    - right. left. destruct Hbuf as [b Hb].
      exists nh, n, (mbuf_set_nh (Some nh) b).
      split; [done|]. split; [done|].
      split; [simpl; by rewrite lookup_alter_eq, Hmb1, Hb|].
      split; [done|]. simpl. by rewrite Hring1.
    - left. split; [apply lookup_delete_eq|by rewrite <- Hring1]. }
  destruct (N.ltb (nh_held_pkts_num n) NH_MAX_HELD_PKTS).
  2:{ injection Hrun as <-. left. split; [apply lookup_delete_eq|by rewrite <- Hring1]. }
  (* held *)
  right. right.
  set (w1' := mbuf_update m (mbuf_set_next None) w1) in *.
  match type of Hrun with
  | ?o ≫= ?k = _ => destruct o as [w2| | |] eqn:Hw2; simpl in Hrun; try discriminate
  end.
  assert (H2 : (∃ n2, nh_at w2 nh = Some n2 ∧ nh_flags n2 = nh_flags n)
               ∧ is_Some (w_mbufs w2 !! m)).
  { assert (Hm1 : is_Some (w_mbufs w1' !! m)).
    { destruct Hbuf as [b Hb]. exists (mbuf_set_next None b).
      simpl. by rewrite lookup_alter_eq, Hmb1, Hb. }
    destruct (nh_held_pkts_head n).
    - destruct (nh_held_pkts_tail n) as [t|]; [|simpl in Hw2; discriminate Hw2].
      rewrite deref_Some, bind_Done in Hw2.
      change (alter (mbuf_set_next None) m (w_mbufs w1)) with (w_mbufs w1') in Hw2.
      destruct (w_mbufs w1' !! t) eqn:Ht; [|simpl in Hw2; discriminate Hw2].
      rewrite deref_Some, bind_Done in Hw2. injection Hw2 as <-.
      split; [by exists n|].
      destruct Hm1 as [b1 Hb1]. simpl.
      destruct (decide (t = m)) as [->|Hne].
      + rewrite lookup_alter_eq. simpl in Hb1. rewrite Hb1. eauto.
      + rewrite lookup_alter_ne by done. simpl in Hb1. rewrite Hb1. eauto.
    - injection Hw2 as <-. split.
      + exists (nh_set_held_pkts_head (Some m) n). split; [by apply nh_at_update_eq|done].
      + by rewrite nh_update_mbufs. }
  destruct H2 as [(n2 & Hn2 & Hf2) Hm2].
  set (w3 := nh_update nh (nh_set_held_pkts_tail (Some m)) w2) in *.
  set (g := λ x, nh_set_held_pkts_num (nh_held_pkts_num x + 1) x) in *.
  set (w4 := nh_update nh g w3) in *.
  assert (Hn4 : nh_at w4 nh = Some (g (nh_set_held_pkts_tail (Some m) n2))).
  { apply nh_at_update_eq. by apply nh_at_update_eq. }
  assert (Hm4 : is_Some (w_mbufs w4 !! m)).
  { unfold w4, w3. by rewrite !nh_update_mbufs. }
  rewrite Hn4 in Hrun. simpl in Hrun. rewrite Hf2 in Hrun.
  destruct (has_flag (nh_flags n) GR_NH_F_PENDING) eqn:Hpend; simpl in Hrun;
    injection Hrun as <-.
  - exists nh, (g (nh_set_held_pkts_tail (Some m) n2)).
    split; [done|]. simpl. rewrite Hf2. done.
  - set (w5 := snd (post_to_stack RING_SIZE ndp_solicit (data_nh nh) w4)).
    destruct (post_to_stack_rest RING_SIZE ndp_solicit (data_nh nh) w4)
      as (Hp5 & Hmb5 & _).
    fold w5 in Hp5, Hmb5.
    assert (Hn5 : nh_at w5 nh = Some (g (nh_set_held_pkts_tail (Some m) n2))).
    { unfold nh_at. rewrite Hp5. exact Hn4. }
    eexists nh, _. split; [by apply nh_at_update_eq|]. simpl. rewrite Hf2.
    unfold GR_NH_F_REACHABLE, GR_NH_F_PENDING in *.
    rewrite has_flag_set_other by done. rewrite has_flag_set_same.
    split; [done|]. split; [done|]. split; [done|].
    by rewrite nh_update_mbufs, Hmb5.
Qed.


(** X2: when the nexthop the callback has resolved is REACHABLE, the packet is
    posted to the output node with the nexthop attached if the ring has room,
    and freed if it has none; no nexthop and no route is touched after the
    resolution. *)
Theorem unreachable_resends_to_reachable (w : world) (m : mbuf_ptr) (nh : nh_ptr)
    (w1 : world) (n : nexthop) :
  unreachable_resolve IP6_MAX_ROUTES w m = Done (Some nh, w1) →
  nh_at w1 nh = Some n →
  has_flag (nh_flags n) GR_NH_F_REACHABLE = true →
  ∃ w' b,
    ip6_nexthop_unreachable_cb NH_MAX_HELD_PKTS IP6_MAX_ROUTES RING_SIZE w m = Done w'
    ∧ w_mbufs w !! m = Some b
    ∧ w_pool w' = w_pool w1
    ∧ w_rib6 w' = w_rib6 w1
    ∧ (length (w_ring w) < RING_SIZE →
       w_ring w' = w_ring w ++ [to_output m]
       ∧ w_mbufs w' = <[m := mbuf_set_nh (Some nh) b]> (w_mbufs w))
    ∧ (RING_SIZE ≤ length (w_ring w) →
       w_ring w' = w_ring w ∧ w_mbufs w' = delete m (w_mbufs w)).
Proof.
  intros Hres Hn Hreach.
  assert (Hbuf : ∃ b, w_mbufs w !! m = Some b).
  { unfold unreachable_resolve in Hres.
    destruct (w_mbufs w !! m); [eauto|discriminate]. }
  destruct Hbuf as [b Hb].
  destruct (Unreachable.unreachable_resolve_rest _ _ _ _ _ Hres) as [Hmb1 Hring1].
  unfold ip6_nexthop_unreachable_cb. rewrite Hres, bind_Done.
  pose proof (unreachable_hold_reachable w1 m nh n Hn Hreach) as Hhold.
  rewrite Hring1 in Hhold. rewrite Hhold.
  case_bool_decide as Hroom.
  - eexists _, b. split; [reflexivity|]. split; [done|]. split; [done|].
    split; [done|]. split; [|lia]. intros _. simpl.
    split; [done|]. rewrite Hmb1. apply map_eq. intros k.
    destruct (decide (k = m)) as [->|Hne].
    + by rewrite lookup_alter_eq, lookup_insert_eq, Hb.
    + by rewrite lookup_alter_ne, lookup_insert_ne.
  - eexists _, b. split; [reflexivity|]. split; [done|]. split; [done|].
    split; [done|]. split; [lia|]. intros _. simpl. rewrite Hring1, Hmb1.
    split; [done|]. apply map_eq. intros k.
    destruct (decide (k = m)) as [->|Hne].
    + by rewrite !lookup_delete_eq.
    + by rewrite !lookup_delete_ne, lookup_alter_ne.
Qed.

Lemma pool_kept_refl (R : nexthop → nexthop → Prop) (w w' : world) :
  (∀ x, R x x) → w_pool w' = w_pool w → pool_kept R w w'.
Proof. intros HR Hp p x Hx. exists x. split; [|done]. unfold nh_at in *. by rewrite Hp. Qed.

Lemma pool_kept_trans (R : nexthop → nexthop → Prop) (w1 w2 w3 : world) :
  (∀ x y z, R x y → R y z → R x z) →
  pool_kept R w1 w2 → pool_kept R w2 w3 → pool_kept R w1 w3.
Proof.
  intros HR H12 H23 p x Hx. destruct (H12 p x Hx) as (y & Hy & Hxy).
  destruct (H23 p y Hy) as (z & Hz & Hyz). exists z. split; [done|]. by eapply HR.
Qed.

Lemma pool_kept_update (R : nexthop → nexthop → Prop) (w : world) (q : nh_ptr)
    (f : nexthop → nexthop) :
  (∀ x, R x x) → (∀ x, R x (f x)) → pool_kept R w (nh_update q f w).
Proof.
  intros Hrefl Hf p x Hx. destruct (decide (q = p)) as [->|Hne].
  - exists (f x). split; [by apply nh_at_update_eq|done].
  - exists x. split; [by rewrite nh_at_update_ne|done].
Qed.

Lemma same_neighbor_refl (x : nexthop) : same_neighbor x x.
Proof. by repeat split. Qed.

Lemma same_neighbor_trans (x y z : nexthop) :
  same_neighbor x y → same_neighbor y z → same_neighbor x z.
Proof.
  intros (H1 & H2 & H3 & H4 & H5 & H6 & H7) (G1 & G2 & G3 & G4 & G5 & G6 & G7).
  repeat split; congruence.
Qed.

(** lines 86-113 write the hold queue and the PENDING flag, nothing else of a
    nexthop, and no route *)
Lemma unreachable_hold_frame (w : world) (m : mbuf_ptr) (nh : nh_ptr) (w' : world) :
  unreachable_hold NH_MAX_HELD_PKTS RING_SIZE w m nh = Done w' →
  w_rib6 w' = w_rib6 w ∧ pool_kept same_neighbor w w'.
Proof.
  unfold unreachable_hold. intros Hrun.
  assert (Hupd : ∀ w0 q f, (∀ x, same_neighbor x (f x)) →
            pool_kept same_neighbor w0 (nh_update q f w0)).
  { intros. apply pool_kept_update; [apply same_neighbor_refl|done]. }
  assert (Hsame : ∀ w0 w1, w_pool w1 = w_pool w0 → pool_kept same_neighbor w0 w1).
  { intros. apply pool_kept_refl; [apply same_neighbor_refl|done]. }
  assert (Htrans := pool_kept_trans same_neighbor).
  destruct (nh_at w nh) as [n|] eqn:Hn; simpl in Hrun; [|discriminate].
  destruct (has_flag (nh_flags n) GR_NH_F_REACHABLE).
  { destruct (post_to_stack _ _ _ _) as [s w2] eqn:Hpost.
    apply post_to_stack_cases in Hpost as [(-> & _ & ->)|(-> & _ & ->)];
      injection Hrun as <-; (split; [done|by apply Hsame]). }
  destruct (N.ltb (nh_held_pkts_num n) NH_MAX_HELD_PKTS).
  2:{ injection Hrun as <-. split; [done|by apply Hsame]. }
  match type of Hrun with
  | ?o ≫= ?k = _ => destruct o as [w2| | |] eqn:Hw2; simpl in Hrun; try discriminate
  end.
  assert (H2 : w_rib6 w2 = w_rib6 w ∧ pool_kept same_neighbor w w2).
  { destruct (nh_held_pkts_head n).
    - destruct (nh_held_pkts_tail n) as [t|]; [|simpl in Hw2; discriminate Hw2].
      rewrite deref_Some, bind_Done in Hw2.
      destruct (alter _ _ _ !! t); [|simpl in Hw2; discriminate Hw2].
      rewrite deref_Some, bind_Done in Hw2. injection Hw2 as <-.
      split; [done|by apply Hsame].
    - injection Hw2 as <-. split; [by rewrite nh_update_rib6|].
      eapply (Htrans _ (mbuf_update m (mbuf_set_next None) w));
        [intros; by eapply same_neighbor_trans|by apply Hsame|].
      apply Hupd. intros x. by repeat split. }
  destruct H2 as [Hrib2 Hk2].
  set (w3 := nh_update nh (nh_set_held_pkts_tail (Some m)) w2) in *.
  set (g := λ x, nh_set_held_pkts_num (nh_held_pkts_num x + 1) x) in *.
  set (w4 := nh_update nh g w3) in *.
  assert (H4 : w_rib6 w4 = w_rib6 w ∧ pool_kept same_neighbor w w4).
  { split; [unfold w4, w3; by rewrite !nh_update_rib6|].
    eapply (Htrans _ w2); [intros; by eapply same_neighbor_trans|done|].
    eapply (Htrans _ w3); [intros; by eapply same_neighbor_trans| |].
    - apply Hupd. intros x. by repeat split.
    - apply Hupd. intros x. by repeat split. }
  destruct H4 as [Hrib4 Hk4].
  destruct (nh_at w4 nh) as [n4|]; simpl in Hrun; [|discriminate].
  destruct (negb _); injection Hrun as <-; [|done].
  destruct (post_to_stack_rest RING_SIZE ndp_solicit (data_nh nh) w4)
    as (Hp5 & _ & Hrib5 & _).
  split; [by rewrite nh_update_rib6, Hrib5|].
  eapply (Htrans _ w4); [intros; by eapply same_neighbor_trans|done|].
  eapply (Htrans _ (snd (post_to_stack RING_SIZE ndp_solicit (data_nh nh) w4)));
    [intros; by eapply same_neighbor_trans|by apply Hsame|].
  apply Hupd. intros x. by repeat split.
Qed.

(** X3: once the callback has switched a destination to its host nexthop and
    inserted the /128 route, the next packet for that destination takes the
    route: it resolves to the same nexthop with a single route lookup, and
    neither the pool nor the route table is written again. *)
Theorem host_route_taken_by_next_packet (w : world) (m : mbuf_ptr) (n : nexthop)
    (ifc : iface) (dst : rte_ipv6_addr) (remote : nh_ptr) (w1 w' : world)
    (m2 : mbuf_ptr) (buf2 : rte_mbuf) (ifc2 : iface) :
  unreachable_resolve IP6_MAX_ROUTES w m = Done (Some remote, w1) →
  pivoted w1 n ifc dst remote →
  ip6_nexthop_unreachable_cb NH_MAX_HELD_PKTS IP6_MAX_ROUTES RING_SIZE w m = Done w' →
  w_mbufs w' !! m2 = Some buf2 →
  dst_addr (m_ip6 buf2) = dst →
  md_iface buf2 = Some ifc2 →
  if_vrf_id ifc2 = nh_vrf_id n →
  unreachable_resolve IP6_MAX_ROUTES w' m2 = Done (Some remote, w')
  ∧ w_rib6 w' = w_rib6 w1.
Proof.
  intros Hres (r' & Hr' & _ & Hip & _ & Hkey & _) Hrun Hm2 Hdst Hifc2 Hvrf.
  unfold ip6_nexthop_unreachable_cb in Hrun. rewrite Hres, bind_Done in Hrun.
  apply unreachable_hold_frame in Hrun as [Hrib Hkept].
  destruct (Hkept remote r' Hr') as (r2 & Hr2 & _ & _ & Hip2 & _).
  split; [|done].
  unfold unreachable_resolve.
  rewrite Hm2, deref_Some, bind_Done, Hifc2, deref_Some, bind_Done, Hdst, Hvrf.
  unfold ip6_route_lookup. rewrite Hrib.
  rewrite (rib6_lpm_host _ _ _ _ Hkey), Hr2, deref_Some, bind_Done.
  rewrite Hip2, Hip. unfold rte_ipv6_addr_eq. rewrite N.eqb_refl.
  by rewrite andb_false_r.
Qed.

End Facts.

(** packet 22 of [Scenario.w_pending] becomes the tail of the hold queue of
    nexthop 0 *)
Lemma unreachable_packet_freed_sent_or_held_witness :
  (w_mbufs Cases.w_third_held !! 22 = None
   ∧ w_ring Cases.w_third_held = w_ring (Scenario.w_pending []))
  ∨ (∃ nh n b,
       nh_at Cases.w_third_held nh = Some n
       ∧ has_flag (nh_flags n) GR_NH_F_REACHABLE = true
       ∧ w_mbufs Cases.w_third_held !! 22 = Some b
       ∧ md_nh b = Some nh
       ∧ w_ring Cases.w_third_held = w_ring (Scenario.w_pending []) ++ [to_output 22])
  ∨ (∃ nh n,
       nh_at Cases.w_third_held nh = Some n
       ∧ has_flag (nh_flags n) GR_NH_F_REACHABLE = false
       ∧ has_flag (nh_flags n) GR_NH_F_PENDING = true
       ∧ nh_held_pkts_tail n = Some 22
       ∧ is_Some (w_mbufs Cases.w_third_held !! 22)).
Proof.
  apply (unreachable_packet_freed_sent_or_held 4 8 8 (Scenario.w_pending []) 22).
  vm_compute. reflexivity.
Defined.

(** packet 10 for the static nexthop of [Cases.w_static_miss] is posted to the
    output node when the ring is empty *)
Lemma unreachable_resends_to_reachable_witness :
  ∃ w' b,
    ip6_nexthop_unreachable_cb 4 8 8 (Cases.w_static_miss []) 10 = Done w'
    ∧ w_mbufs (Cases.w_static_miss []) !! 10 = Some b
    ∧ w_pool w' = w_pool (Cases.w_static_miss [])
    ∧ w_rib6 w' = w_rib6 (Cases.w_static_miss [])
    ∧ (length (w_ring (Cases.w_static_miss [])) < 8 →
       w_ring w' = w_ring (Cases.w_static_miss []) ++ [to_output 10]
       ∧ w_mbufs w' = <[10 := mbuf_set_nh (Some 0) b]> (w_mbufs (Cases.w_static_miss [])))
    ∧ (8 ≤ length (w_ring (Cases.w_static_miss [])) →
       w_ring w' = w_ring (Cases.w_static_miss [])
       ∧ w_mbufs w' = delete 10 (w_mbufs (Cases.w_static_miss []))).
Proof.
  apply (unreachable_resends_to_reachable 4 8 8 (Cases.w_static_miss []) 10 0
           (Cases.w_static_miss []) Scenario.peer_static).
  - vm_compute. reflexivity.
  - reflexivity.
  - reflexivity.
Defined.

(** packet 11 of [Scenario.w_two_misses] takes the host route that packet 10
    has made the callback insert *)
Lemma host_route_taken_by_next_packet_witness :
  unreachable_resolve 8 Cases.w_first_held 11 = Done (Some 1, Cases.w_first_held)
  ∧ w_rib6 Cases.w_first_held = w_rib6 Cases.w_first_resolved.
Proof.
  apply (host_route_taken_by_next_packet 4 8 8 Scenario.w_two_misses 10
           Scenario.link_router Scenario.if1 Scenario.addr_peer 1
           Cases.w_first_resolved Cases.w_first_held 11
           (Scenario.data_pkt Scenario.addr_peer None) Scenario.if1).
  - vm_compute. reflexivity.
  - eexists. split; [vm_compute; reflexivity|].
    split; [reflexivity|]. split; [reflexivity|]. split; [reflexivity|].
    split; vm_compute; reflexivity.
  - vm_compute. reflexivity.
  - vm_compute. reflexivity.
  - reflexivity.
  - reflexivity.
  - reflexivity.
Defined.

End Delivery.


(** ** Learning a neighbor from a probe *)

Module Learning.

Import Control.

Section Facts.

Variable IP6_MAX_ROUTES : nat.
Variable RING_SIZE : nat.

(** the nexthop [ip6_nexthop_new] leaves in slot [p], once a route refers to it *)
Lemma nexthop_new_referenced (pool : list (option nexthop)) (p : nh_ptr) (n : nexthop) :
  p < length pool →
  nexthop_incref (<[p := Some n]> pool) p
  = <[p := Some (nh_set_ref_count (nh_ref_count n + 1) n)]> pool.
Proof.
  intros Hp. unfold nexthop_incref. rewrite list_lookup_insert_eq by done.
  by rewrite list_insert_insert_eq.
Qed.

(** lines 151-168 when the sender has no nexthop yet and there is room for one
    and for its route *)
Lemma probe_nexthop_creates (w : world) (ifc : iface) (target : rte_ipv6_addr) (e : N) :
  ip6_nexthop_lookup w (if_vrf_id ifc) (if_id ifc) target = Err e →
  rte_ipv6_addr_is_unspec target || rte_ipv6_addr_is_mcast target = false →
  (∃ j, w_pool w !! j = Some None) →
  is_Some (w_rib6 w !! rib6_key (if_vrf_id ifc) target RTE_IPV6_MAX_DEPTH)
  ∨ size (w_rib6 w) < IP6_MAX_ROUTES →
  ∃ p,
    w_pool w !! p = Some None
    ∧ (∀ j, j < p → w_pool w !! j ≠ Some None)
    ∧ probe_nexthop IP6_MAX_ROUTES w ifc target
      = (Some p,
         w_set_pool
           (<[p := Some (nh_set_ref_count 1
                           (nexthop_init (if_vrf_id ifc) (if_id ifc) target))]> (w_pool w))
           (w_set_rib6
              (<[rib6_key (if_vrf_id ifc) target RTE_IPV6_MAX_DEPTH := p]> (w_rib6 w)) w)).
Proof.
  intros Hmiss Haddr [j Hj] Hroom. unfold probe_nexthop. rewrite Hmiss.
  unfold ip6_nexthop_new, nexthop_new. rewrite Haddr.
  destruct (list_find _ (w_pool w)) as [[p s]|] eqn:Hfind.
  2:{ apply list_find_None in Hfind.
      exfalso. by apply (Forall_lookup_1 _ _ _ _ Hfind Hj). }
  apply list_find_Some in Hfind as (Hp & Hs & Hfirst).
  destruct s; [destruct Hs|].
  exists p. split; [done|]. split.
  { intros k Hk Hknone. by apply (Hfirst k None Hknone Hk). }
  unfold ip6_route_insert. cbn [w_rib6 w_set_pool].
  assert (Hok : bool_decide
                  (is_Some (w_rib6 w !! rib6_key (if_vrf_id ifc) target RTE_IPV6_MAX_DEPTH))
                || bool_decide (size (w_rib6 w) < IP6_MAX_ROUTES) = true).
  { destruct Hroom as [Hkey|Hsize].
    - by rewrite (bool_decide_eq_true_2 _ Hkey).
    - rewrite (bool_decide_eq_true_2 _ Hsize). apply orb_true_r. }
  rewrite Hok. cbn [w_pool w_set_pool w_set_rib6].
  rewrite nexthop_new_referenced by (by eapply lookup_lt_Some).
  reflexivity.
Qed.

(** lines 170-198 for a nexthop that holds no packet *)
Lemma probe_refresh_empty (fuel : nat) (w : world) (m : mbuf_ptr) (ifc : iface)
    (mac : rte_ether_addr) (nh : nh_ptr) (n : nexthop) :
  nh_at w nh = Some n →
  has_flag (nh_flags n) GR_NH_F_STATIC = false →
  nh_held_pkts_head n = None →
  ∃ w', probe_refresh RING_SIZE fuel w m ifc mac nh = Done w'
        ∧ w_pool w' = <[nh := Some (refreshed (w_tsc w) ifc mac n)]> (w_pool w)
        ∧ w_rib6 w' = w_rib6 w
        ∧ w_mbufs w' = delete m (w_mbufs w)
        ∧ w_ring w' = w_ring w
        ∧ w_ifaces w' = w_ifaces w.
Proof.
  intros Hn Hs Hhead. unfold probe_refresh. rewrite Hn, deref_Some, bind_Done, Hs.
  match goal with
  | |- context [nh_update nh ?f w] => set (g := f); set (w1 := nh_update nh g w)
  end.
  assert (Hn1 : nh_at w1 nh = Some (g n)) by (by apply nh_at_update_eq).
  rewrite Hn1, deref_Some, bind_Done.
  change (nh_held_pkts_head (g n)) with (nh_held_pkts_head n). rewrite Hhead.
  assert (Hflush : flush_held RING_SIZE fuel nh None w1 = Done w1) by (by destruct fuel).
  rewrite Hflush, bind_Done.
  eexists. split; [reflexivity|].
  assert (Hlt : nh < length (w_pool w)) by (by eapply nh_at_lt).
  split.
  { simpl. unfold nh_update at 1. rewrite Hn1. simpl.
    unfold w1, nh_update. rewrite Hn. simpl.
    by rewrite list_insert_insert_eq. }
  simpl. rewrite !nh_update_rib6, !nh_update_mbufs, !nh_update_ring.
  rewrite !Api.nh_update_ifaces. unfold w1.
  by rewrite nh_update_rib6, nh_update_mbufs, nh_update_ring, Api.nh_update_ifaces.
Qed.

(** the callback for a sender that has no nexthop, with room for one and for
    its route *)
Lemma probe_cb_unknown_sender (fuel : nat) (w : world) (m : mbuf_ptr)
    (buf : rte_mbuf) (target : rte_ipv6_addr) (mac : rte_ether_addr) (ifc : iface)
    (e : N) :
  w_mbufs w !! m = Some buf →
  probe_parse (m_icmp6 buf) = Some (target, mac) →
  md_iface buf = Some ifc →
  ip6_nexthop_lookup w (if_vrf_id ifc) (if_id ifc) target = Err e →
  rte_ipv6_addr_is_unspec target || rte_ipv6_addr_is_mcast target = false →
  (∃ j, w_pool w !! j = Some None) →
  is_Some (w_rib6 w !! rib6_key (if_vrf_id ifc) target RTE_IPV6_MAX_DEPTH)
  ∨ size (w_rib6 w) < IP6_MAX_ROUTES →
  ∃ w' p,
    ndp_probe_input_cb IP6_MAX_ROUTES RING_SIZE fuel w m = Done w'
    ∧ w_pool w !! p = Some None
    ∧ w_pool w' = <[p := Some (learned_entry w ifc target mac)]> (w_pool w)
    ∧ w_rib6 w' = <[rib6_key (if_vrf_id ifc) target RTE_IPV6_MAX_DEPTH := p]> (w_rib6 w)
    ∧ w_mbufs w' = delete m (w_mbufs w)
    ∧ w_ring w' = w_ring w.
Proof.
  intros Hm Hparse Hifc Hmiss Haddr Hfree Hroom.
  destruct (probe_nexthop_creates w ifc target e Hmiss Haddr Hfree Hroom)
    as (p & Hp & Hfirst & Hcreate).
  set (n0 := nh_set_ref_count 1 (nexthop_init (if_vrf_id ifc) (if_id ifc) target)) in *.
  set (w2 := w_set_pool _ _) in Hcreate.
  assert (Hlt : p < length (w_pool w)) by (by eapply lookup_lt_Some).
  assert (Hn2 : nh_at w2 p = Some n0).
  { apply nh_at_Some. simpl. by apply list_lookup_insert_eq. }
  destruct (probe_refresh_empty fuel w2 m ifc mac p n0 Hn2 eq_refl eq_refl)
    as (w' & Hrun & Hpool & Hrib & Hmb & Hring & _).
  exists w', p.
  split.
  { unfold ndp_probe_input_cb.
    by rewrite Hm, deref_Some, bind_Done, Hparse, Hifc, deref_Some, bind_Done, Hcreate. }
  split; [done|]. split.
  { rewrite Hpool. simpl. by rewrite list_insert_insert_eq. }
  split; [by rewrite Hrib|]. split; [by rewrite Hmb|by rewrite Hring].
Qed.

(** a nexthop written to a slot is what the lookup of its key gives when no
    other nexthop matched the key *)
Lemma lookup_after_insert (pool : list (option nexthop)) (p : nh_ptr) (n : nexthop)
    (iface_id : N) (e : N) :
  p < length pool →
  nexthop_lookup pool (nh_vrf_id n) iface_id (nh_ipv6 n) = Err e →
  (0 < nh_ref_count n)%N →
  iface_id = GR_IFACE_ID_UNDEF ∨ nh_iface_id n = iface_id →
  nexthop_lookup (<[p := Some n]> pool) (nh_vrf_id n) iface_id (nh_ipv6 n) = Ret p.
Proof.
  intros Hlt Hmiss Href Hif.
  apply nexthop_lookup_first with (n := n).
  - by apply list_lookup_insert_eq.
  - simpl. apply N.ltb_lt in Href. unfold rte_ipv6_addr_eq.
    rewrite Href, !N.eqb_refl. simpl.
    destruct Hif as [->| ->]; rewrite N.eqb_refl; [done|apply orb_true_r].
  - intros j s Hj Hjp. rewrite list_lookup_insert_ne in Hj by lia.
    apply nexthop_lookup_Err in Hmiss as [_ Hnone]. by apply (Hnone j).
Qed.

(** X4: a probe with a link-layer address from a sender that has no nexthop
    yet makes the callback create one on the receiving interface, REACHABLE
    with the address advertised, and route the sender's /128 to it, when the
    pool has a free slot and the route table has room: from then on the lookup
    of the sender and the route lookup of its address both give that nexthop.
    The probe is freed, nothing is posted, and no other slot of the pool is
    written. *)
Theorem probe_from_unknown_sender_is_learned (fuel : nat) (w : world) (m : mbuf_ptr)
    (buf : rte_mbuf) (target : rte_ipv6_addr) (mac : rte_ether_addr) (ifc : iface)
    (e : N) :
  w_mbufs w !! m = Some buf →
  probe_parse (m_icmp6 buf) = Some (target, mac) →
  md_iface buf = Some ifc →
  ip6_nexthop_lookup w (if_vrf_id ifc) (if_id ifc) target = Err e →
  rte_ipv6_addr_is_unspec target || rte_ipv6_addr_is_mcast target = false →
  (∃ j, w_pool w !! j = Some None) →
  is_Some (w_rib6 w !! rib6_key (if_vrf_id ifc) target RTE_IPV6_MAX_DEPTH)
  ∨ size (w_rib6 w) < IP6_MAX_ROUTES →
  ∃ w' p,
    ndp_probe_input_cb IP6_MAX_ROUTES RING_SIZE fuel w m = Done w'
    ∧ w_pool w !! p = Some None
    ∧ w_pool w'
      = <[p := Some {| nh_flags := GR_NH_F_REACHABLE; nh_lladdr := mac;
                       nh_vrf_id := if_vrf_id ifc; nh_iface_id := if_id ifc;
                       nh_ipv6 := target; nh_last_reply := rte_get_tsc_cycles w;
                       nh_last_request := 0; nh_ref_count := 1; nh_ucast_probes := 0;
                       nh_bcast_probes := 0; nh_held_pkts_num := 0;
                       nh_held_pkts_head := None; nh_held_pkts_tail := None |}]>
          (w_pool w)
    ∧ ip6_nexthop_lookup w' (if_vrf_id ifc) (if_id ifc) target = Ret p
    ∧ w_rib6 w' = <[rib6_key (if_vrf_id ifc) target RTE_IPV6_MAX_DEPTH := p]> (w_rib6 w)
    ∧ ip6_route_lookup w' (if_vrf_id ifc) (if_id ifc) target = Some p
    ∧ w_mbufs w' = delete m (w_mbufs w)
    ∧ w_ring w' = w_ring w.
Proof.
  intros Hm Hparse Hifc Hmiss Haddr Hfree Hroom.
  destruct (probe_cb_unknown_sender fuel w m buf target mac ifc e Hm Hparse Hifc Hmiss
              Haddr Hfree Hroom) as (w' & p & Hrun & Hp & Hpool & Hrib & Hmb & Hring).
  exists w', p. split; [done|]. split; [done|]. split; [exact Hpool|].
  split.
  { unfold ip6_nexthop_lookup. rewrite Hpool.
    apply (lookup_after_insert (w_pool w) p (learned_entry w ifc target mac) (if_id ifc) e).
    - by eapply lookup_lt_Some.
    - exact Hmiss.
    - done.
    - by right. }
  split; [done|]. split; [|done].
  unfold ip6_route_lookup. apply rib6_lpm_host. rewrite Hrib. apply lookup_insert_eq.
Qed.

(** X5: when the sender of a probe has no nexthop and the pool has no free
    slot, the callback frees the probe and changes nothing else. When there is
    a slot but the route table is full, the probe is freed as well, and the
    sender is still not found by the lookup and has no route: the nexthop
    created for it stays in its slot with no reference. *)
Theorem probe_sender_not_learned_when_full (fuel : nat) (w : world) (m : mbuf_ptr)
    (buf : rte_mbuf) (target : rte_ipv6_addr) (mac : rte_ether_addr) (ifc : iface)
    (e : N) :
  w_mbufs w !! m = Some buf →
  probe_parse (m_icmp6 buf) = Some (target, mac) →
  md_iface buf = Some ifc →
  ip6_nexthop_lookup w (if_vrf_id ifc) (if_id ifc) target = Err e →
  ((∀ j, w_pool w !! j ≠ Some None) →
   ndp_probe_input_cb IP6_MAX_ROUTES RING_SIZE fuel w m = Done (rte_pktmbuf_free m w))
  ∧ (rte_ipv6_addr_is_unspec target || rte_ipv6_addr_is_mcast target = false →
     ∀ j, w_pool w !! j = Some None →
     w_rib6 w !! rib6_key (if_vrf_id ifc) target RTE_IPV6_MAX_DEPTH = None →
     IP6_MAX_ROUTES ≤ size (w_rib6 w) →
     ∃ w' p,
       ndp_probe_input_cb IP6_MAX_ROUTES RING_SIZE fuel w m = Done w'
       ∧ w_pool w !! p = Some None
       ∧ w_pool w' = <[p := Some (nexthop_init (if_vrf_id ifc) (if_id ifc) target)]> (w_pool w)
       ∧ (∃ e', ip6_nexthop_lookup w' (if_vrf_id ifc) (if_id ifc) target = Err e')
       ∧ w_rib6 w' = w_rib6 w
       ∧ w_mbufs w' = delete m (w_mbufs w)
       ∧ w_ring w' = w_ring w).
Proof.
  intros Hm Hparse Hifc Hmiss.
  assert (Hcb : ndp_probe_input_cb IP6_MAX_ROUTES RING_SIZE fuel w m
                = match probe_nexthop IP6_MAX_ROUTES w ifc target with
                  | (None, w1) => free m w1
                  | (Some nh, w1) => probe_refresh RING_SIZE fuel w1 m ifc mac nh
                  end).
  { unfold ndp_probe_input_cb.
    by rewrite Hm, deref_Some, bind_Done, Hparse, Hifc, deref_Some, bind_Done. }
  rewrite Hcb. unfold probe_nexthop. rewrite Hmiss.
  unfold ip6_nexthop_new, nexthop_new. split.
  - intros Hfull. destruct (_ || _); [done|].
    destruct (list_find _ (w_pool w)) as [[p s]|] eqn:Hfind; [|done].
    apply list_find_Some in Hfind as (Hp & Hs & _).
    destruct s; [destruct Hs|]. by destruct (Hfull p).
  - intros Haddr j Hj Hkey Hsize. rewrite Haddr.
    destruct (list_find _ (w_pool w)) as [[p s]|] eqn:Hfind.
    2:{ apply list_find_None in Hfind.
        exfalso. by apply (Forall_lookup_1 _ _ _ _ Hfind Hj). }
    apply list_find_Some in Hfind as (Hp & Hs & _).
    destruct s; [destruct Hs|].
    unfold ip6_route_insert. cbn [w_rib6 w_set_pool].
    rewrite Hkey.
    rewrite (bool_decide_eq_false_2 (is_Some None)) by (by intros [? ?]).
    rewrite (bool_decide_eq_false_2 (size (w_rib6 w) < IP6_MAX_ROUTES)) by lia.
    cbn [orb]. eexists _, p. split; [reflexivity|]. split; [done|].
    split; [done|]. split; [|done].
    (* the nexthop created has no reference, the lookup does not see it *)
    unfold ip6_nexthop_lookup, nexthop_lookup. simpl.
    destruct (list_find _ (<[p:=_]> (w_pool w))) as [[i s]|] eqn:Hfind2; [|eauto].
    exfalso. apply list_find_Some in Hfind2 as (Hi & Hs2 & _).
    destruct (decide (i = p)) as [->|Hne].
    + rewrite list_lookup_insert_eq in Hi by (by eapply lookup_lt_Some).
      injection Hi as <-. simpl in Hs2. done.
    + rewrite list_lookup_insert_ne in Hi by done.
      apply nexthop_lookup_Err in Hmiss as [_ Hnone].
      rewrite (Hnone i s Hi) in Hs2. done.
Qed.

End Facts.

(** the advertisement of [addr_peer] in [Cases.w_advert_unknown [None]]: the
    nexthop is created in slot 1 *)
Lemma probe_from_unknown_sender_is_learned_witness :
  ∃ w',
    ndp_probe_input_cb 8 8 0 (Cases.w_advert_unknown [None]) 30 = Done w'
    ∧ ip6_nexthop_lookup w' 0 1 Scenario.addr_peer = Ret 1
    ∧ (nh_lladdr <$> nh_at w' 1) = Some Scenario.mac_peer
    ∧ (nh_flags <$> nh_at w' 1) = Some GR_NH_F_REACHABLE
    ∧ ip6_route_lookup w' 0 1 Scenario.addr_peer = Some 1
    ∧ w_mbufs w' !! 30 = None.
Proof.
  destruct (probe_from_unknown_sender_is_learned 8 8 0 (Cases.w_advert_unknown [None]) 30
              (Scenario.icmp6_pkt Scenario.advert_of_peer) Scenario.addr_peer
              Scenario.mac_peer Scenario.if1 ENOENT)
    as (w' & p & Hrun & Hp & Hpool & Hfound & Hrib & Hroute & Hmb & Hring).
  - reflexivity.
  - reflexivity.
  - reflexivity.
  - reflexivity.
  - reflexivity.
  - exists 1. reflexivity.
  - right. vm_compute. lia.
  - assert (Hp1 : p = 1).
    { destruct p as [|[|p]]; [discriminate Hp|reflexivity|discriminate Hp]. }
    subst p. exists w'. split; [exact Hrun|]. split; [exact Hfound|].
    unfold nh_at. rewrite Hpool.
    split; [reflexivity|]. split; [reflexivity|]. split; [exact Hroute|].
    rewrite Hmb. apply lookup_delete_eq.
Defined.

(** the same advertisement when the pool has no spare slot, and when the route
    table holds one route and has room for one *)
Lemma probe_sender_not_learned_when_full_witness :
  ndp_probe_input_cb 8 8 0 (Cases.w_advert_unknown []) 30
  = Done (rte_pktmbuf_free 30 (Cases.w_advert_unknown []))
  ∧ ∃ w',
      ndp_probe_input_cb 1 8 0 (Cases.w_advert_unknown [None]) 30 = Done w'
      ∧ (∃ e', ip6_nexthop_lookup w' 0 1 Scenario.addr_peer = Err e')
      ∧ w_rib6 w' = w_rib6 (Cases.w_advert_unknown [None]).
Proof.
  split.
  - destruct (probe_sender_not_learned_when_full 8 8 0 (Cases.w_advert_unknown []) 30
                (Scenario.icmp6_pkt Scenario.advert_of_peer) Scenario.addr_peer
                Scenario.mac_peer Scenario.if1 ENOENT) as [Hfull _];
      [reflexivity | reflexivity | reflexivity | reflexivity |].
    apply Hfull. intros [|[|j]]; discriminate.
  - destruct (probe_sender_not_learned_when_full 1 8 0 (Cases.w_advert_unknown [None]) 30
                (Scenario.icmp6_pkt Scenario.advert_of_peer) Scenario.addr_peer
                Scenario.mac_peer Scenario.if1 ENOENT) as [_ Hroutes];
      [reflexivity | reflexivity | reflexivity | reflexivity |].
    destruct (Hroutes eq_refl 1 eq_refl) as (w' & p & Hrun & _ & _ & Hmiss & Hrib & _).
    + reflexivity.
    + vm_compute. lia.
    + exists w'. exact (conj Hrun (conj Hmiss Hrib)).
Defined.

End Learning.


(** ** NH_ADD and NH_DEL: refusals, creation, and the way back *)

Module Operator.

Import Control.

Section Facts.

Variable NH_MAX_HELD_PKTS : N.
Variable MAX_VRFS : N.
Variable IP6_MAX_ROUTES : nat.
Variable RING_SIZE : nat.

(** X6: NH_ADD refuses an unspecified or multicast address with EINVAL, then a
    vrf out of range with EOVERFLOW, then an unknown interface with ENODEV; and
    whatever the request, a refusal leaves the state as it was, except when it
    is the insertion of the route that fails: then the nexthop created stays
    in its slot, with no reference and no route. *)
Theorem nh_add_refusal_leaves_state (w : world) (req : gr_ip6_nh_add_req) :
  let a := add_nh req in
  (rte_ipv6_addr_is_unspec (api_ipv6 a) || rte_ipv6_addr_is_mcast (api_ipv6 a) = true →
   nh6_add MAX_VRFS IP6_MAX_ROUTES w req = Done (EINVAL, w))
  ∧ (rte_ipv6_addr_is_unspec (api_ipv6 a) || rte_ipv6_addr_is_mcast (api_ipv6 a) = false →
     (MAX_VRFS ≤ api_vrf_id a)%N →
     nh6_add MAX_VRFS IP6_MAX_ROUTES w req = Done (EOVERFLOW, w))
  ∧ (rte_ipv6_addr_is_unspec (api_ipv6 a) || rte_ipv6_addr_is_mcast (api_ipv6 a) = false →
     (api_vrf_id a < MAX_VRFS)%N →
     w_ifaces w !! api_iface_id a = None →
     nh6_add MAX_VRFS IP6_MAX_ROUTES w req = Done (ENODEV, w))
  ∧ (∀ code w',
       nh6_add MAX_VRFS IP6_MAX_ROUTES w req = Done (code, w') →
       code ≠ 0%N →
       w' = w
       ∨ ∃ p, code = ENOSPC
              ∧ w_pool w !! p = Some None
              ∧ w' = w_set_pool
                       (<[p := Some (nh_set_ref_count 0 (static_entry a))]> (w_pool w)) w).
Proof.
  intros a. split; [|split; [|split]].
  - intros Haddr. unfold nh6_add. fold a. by rewrite Haddr.
  - intros Haddr Hvrf. unfold nh6_add. fold a. rewrite Haddr.
    apply N.leb_le in Hvrf. by rewrite Hvrf.
  - intros Haddr Hvrf Hif. unfold nh6_add. fold a. rewrite Haddr.
    apply N.leb_gt in Hvrf. rewrite Hvrf. unfold iface_from_id. by rewrite Hif.
  - intros code w' Hrun Hcode.
    destruct (rte_ipv6_addr_is_unspec (api_ipv6 a) || rte_ipv6_addr_is_mcast (api_ipv6 a))
      eqn:Haddr.
    { unfold nh6_add in Hrun. fold a in Hrun. rewrite Haddr in Hrun.
      injection Hrun as <- <-. by left. }
    destruct (N.leb MAX_VRFS (api_vrf_id a)) eqn:Hvrf.
    { unfold nh6_add in Hrun. fold a in Hrun. rewrite Haddr, Hvrf in Hrun.
      injection Hrun as <- <-. by left. }
    destruct (iface_from_id w (api_iface_id a)) as [i|e] eqn:Hif.
    2:{ unfold nh6_add in Hrun. fold a in Hrun. rewrite Haddr, Hvrf, Hif in Hrun.
        injection Hrun as <- <-. by left. }
    assert (Hc : add_checked MAX_VRFS w a) by (unfold add_checked; eauto).
    destruct (ip6_nexthop_lookup w (api_vrf_id a) (api_iface_id a) (api_ipv6 a))
      as [nh|e] eqn:Hfound.
    + destruct (nexthop_lookup_Ret _ _ _ _ _ Hfound) as (n & Hn & _).
      apply nh_at_Some in Hn.
      rewrite (Api.nh6_add_found MAX_VRFS IP6_MAX_ROUTES w req nh n Hc Hfound Hn) in Hrun.
      destruct (_ && _); injection Hrun as <- <-; [done|by left].
    + pose proof (Api.nh6_add_new MAX_VRFS IP6_MAX_ROUTES w req e Hc Hfound) as Hnew. cbv zeta in Hnew. fold a in Hnew.
      destruct (list_find _ (w_pool w)) as [[p s]|] eqn:Hfind.
      2:{ rewrite Hnew in Hrun. injection Hrun as <- <-. by left. }
      apply list_find_Some in Hfind as (Hp & Hs & _).
      destruct s; [destruct Hs|].
      destruct (bool_decide _ || bool_decide _); rewrite Hnew in Hrun;
        injection Hrun as <- <-; [done|].
      right. by exists p.
Qed.



(** X8: NH_DEL refuses a vrf out of range with EOVERFLOW; for a host that has
    no nexthop it returns ENOENT, or success when [missing_ok] is set; and
    whatever the request, a result that is not success leaves the state as it
    was. *)
Theorem nh_del_refusal_leaves_state (w : world) (req : gr_ip6_nh_del_req) :
  ((MAX_VRFS ≤ del_vrf_id req)%N → nh6_del MAX_VRFS w req = Done (EOVERFLOW, w))
  ∧ ((del_vrf_id req < MAX_VRFS)%N →
     (∀ j s, w_pool w !! j = Some s →
             nh_matches (del_vrf_id req) GR_IFACE_ID_UNDEF (del_host req) s = false) →
     nh6_del MAX_VRFS w req
     = Done ((if del_missing_ok req then 0%N else ENOENT), w))
  ∧ (∀ code w', nh6_del MAX_VRFS w req = Done (code, w') → code ≠ 0%N → w' = w).
Proof.
  split; [|split].
  - intros Hvrf. unfold nh6_del. apply N.leb_le in Hvrf. by rewrite Hvrf.
  - intros Hvrf Hnone. unfold nh6_del. apply N.leb_gt in Hvrf. rewrite Hvrf.
    unfold ip6_nexthop_lookup.
    rewrite (Api.nexthop_lookup_none _ _ _ _ Hnone). simpl. by destruct (del_missing_ok req).
  - intros code w'. unfold nh6_del.
    destruct (N.leb MAX_VRFS (del_vrf_id req)); [by intros [= <- <-]|].
    destruct (ip6_nexthop_lookup _ _ _ _) as [nh|e].
    + destruct (nh_at w nh) as [n|]; simpl; [|discriminate].
      destruct (_ || _); [by intros [= <- <-]|].
      unfold ip6_route_delete. destruct (w_rib6 w !! _).
      * intros [= <- <-]. done.
      * by intros [= <- <-].
    + destruct (_ && _); by intros [= <- <-].
Qed.

(** X9: NH_ADD of a host that has no nexthop on any interface and no /128
    route, followed by NH_DEL of that host, gives back the state NH_ADD
    started from: the slot is free again and the route is gone. *)
Theorem nh_add_then_del_restores (w : world) (req : gr_ip6_nh_add_req)
    (del : gr_ip6_nh_del_req) :
  let a := add_nh req in
  add_checked MAX_VRFS w a →
  (∀ j s, w_pool w !! j = Some s →
          nh_matches (api_vrf_id a) GR_IFACE_ID_UNDEF (api_ipv6 a) s = false) →
  (∃ j, w_pool w !! j = Some None) →
  w_rib6 w !! rib6_key (api_vrf_id a) (api_ipv6 a) RTE_IPV6_MAX_DEPTH = None →
  size (w_rib6 w) < IP6_MAX_ROUTES →
  del_vrf_id del = api_vrf_id a →
  del_host del = api_ipv6 a →
  ∃ w1, nh6_add MAX_VRFS IP6_MAX_ROUTES w req = Done (0%N, w1)
        ∧ w1 ≠ w
        ∧ nh6_del MAX_VRFS w1 del = Done (0%N, w).
Proof.
  intros a Hc Hnone [j Hj] Hkey Hsize Hdv Hdh.
  set (key := rib6_key (api_vrf_id a) (api_ipv6 a) RTE_IPV6_MAX_DEPTH) in *.
  assert (Hmiss : ip6_nexthop_lookup w (api_vrf_id a) (api_iface_id a) (api_ipv6 a)
                  = Err ENOENT).
  { apply Api.nexthop_lookup_none. intros k s Hk. specialize (Hnone k s Hk).
    destruct s as [n|]; [|done]. simpl in *.
    destruct (N.ltb 0 (nh_ref_count n) && N.eqb (nh_vrf_id n) (api_vrf_id a)
              && rte_ipv6_addr_eq (nh_ipv6 n) (api_ipv6 a)); [|done].
    simpl in Hnone. discriminate. }
  pose proof (Api.nh6_add_new MAX_VRFS IP6_MAX_ROUTES w req ENOENT Hc Hmiss) as Hnew. cbv zeta in Hnew.
  fold a in Hnew. fold key in Hnew.
  destruct (list_find _ (w_pool w)) as [[p s]|] eqn:Hfind.
  2:{ apply list_find_None in Hfind.
      exfalso. by apply (Forall_lookup_1 _ _ _ _ Hfind Hj). }
  apply list_find_Some in Hfind as (Hp & Hs & _).
  destruct s; [destruct Hs|].
  rewrite (bool_decide_eq_true_2 (size (w_rib6 w) < IP6_MAX_ROUTES)) in Hnew by done.
  rewrite orb_true_r in Hnew.
  assert (Hlt : p < length (w_pool w)) by (by eapply lookup_lt_Some).
  eexists. split; [exact Hnew|]. split.
  { intros Heq. apply (f_equal w_rib6) in Heq. simpl in Heq.
    apply (f_equal (λ r, r !! key)) in Heq. rewrite lookup_insert_eq, Hkey in Heq.
    discriminate. }
  destruct Hc as (_ & Hvrf & _).
  unfold nh6_del. rewrite Hdv, Hdh, Hvrf. unfold ip6_nexthop_lookup.
  cbn [w_pool w_set_pool].
  rewrite (nexthop_lookup_first _ _ _ _ p (static_entry a)).
  - unfold nh_at at 1. cbn [w_pool w_set_pool].
    rewrite list_lookup_insert_eq by done. rewrite deref_Some, bind_Done.
    rewrite Api.nh6_del_test.
    replace (nh_protected (static_entry a)) with false by reflexivity.
    unfold ip6_route_delete. cbn [w_rib6 w_set_pool w_set_rib6]. fold key.
    rewrite lookup_insert_eq. unfold nexthop_decref. cbn [w_pool w_set_pool].
    rewrite list_lookup_insert_eq by done.
    replace (N.leb (nh_ref_count (static_entry a)) 1) with true by reflexivity.
    rewrite list_insert_insert_eq, (list_insert_id _ _ _ Hp).
    rewrite delete_insert_id by done.
    by destruct w.
  - by apply list_lookup_insert_eq.
  - simpl. unfold rte_ipv6_addr_eq. by rewrite !N.eqb_refl.
  - intros k s Hk Hkp. rewrite list_lookup_insert_ne in Hk by lia. by apply (Hnone k).
Qed.

(** X10: a packet for a host the operator has just added is not held: the
    callback finds the /128 route of the host, its nexthop is REACHABLE, and
    the packet is posted to the output node with that nexthop attached (the
    ring having room); the nexthop keeps an empty hold queue. *)
Theorem static_neighbor_forwards_at_once (w : world) (req : gr_ip6_nh_add_req) (e : N)
    (m : mbuf_ptr) (buf : rte_mbuf) (ifc : iface) :
  let a := add_nh req in
  add_checked MAX_VRFS w a →
  ip6_nexthop_lookup w (api_vrf_id a) (api_iface_id a) (api_ipv6 a) = Err e →
  (∃ j, w_pool w !! j = Some None) →
  size (w_rib6 w) < IP6_MAX_ROUTES →
  w_mbufs w !! m = Some buf →
  dst_addr (m_ip6 buf) = api_ipv6 a →
  md_iface buf = Some ifc →
  if_vrf_id ifc = api_vrf_id a →
  length (w_ring w) < RING_SIZE →
  ∃ w1 w2 p,
    nh6_add MAX_VRFS IP6_MAX_ROUTES w req = Done (0%N, w1)
    ∧ ip6_nexthop_unreachable_cb NH_MAX_HELD_PKTS IP6_MAX_ROUTES RING_SIZE w1 m = Done w2
    ∧ w_ring w2 = w_ring w ++ [to_output m]
    ∧ w_mbufs w2 !! m = Some (mbuf_set_nh (Some p) buf)
    ∧ nh_at w2 p = Some (static_entry a).
Proof.
  intros a Hc Hmiss [j Hj] Hsize Hm Hdst Hifc Hvrf Hring.
  set (key := rib6_key (api_vrf_id a) (api_ipv6 a) RTE_IPV6_MAX_DEPTH) in *.
  pose proof (Api.nh6_add_new MAX_VRFS IP6_MAX_ROUTES w req e Hc Hmiss) as Hnew. cbv zeta in Hnew.
  fold a in Hnew. fold key in Hnew.
  destruct (list_find _ (w_pool w)) as [[p s]|] eqn:Hfind.
  2:{ apply list_find_None in Hfind.
      exfalso. by apply (Forall_lookup_1 _ _ _ _ Hfind Hj). }
  apply list_find_Some in Hfind as (Hp & Hs & _).
  destruct s; [destruct Hs|].
  rewrite (bool_decide_eq_true_2 (size (w_rib6 w) < IP6_MAX_ROUTES)) in Hnew by done.
  rewrite orb_true_r in Hnew.
  assert (Hlt : p < length (w_pool w)) by (by eapply lookup_lt_Some).
  set (w1 := w_set_pool _ _) in Hnew.
  assert (Hn1 : nh_at w1 p = Some (static_entry a)).
  { apply nh_at_Some. simpl. by apply list_lookup_insert_eq. }
  assert (Hres : unreachable_resolve IP6_MAX_ROUTES w1 m = Done (Some p, w1)).
  { unfold unreachable_resolve.
    change (w_mbufs w1) with (w_mbufs w).
    rewrite Hm, deref_Some, bind_Done, Hifc, deref_Some, bind_Done, Hdst, Hvrf.
    unfold ip6_route_lookup.
    rewrite (rib6_lpm_host (w_rib6 w1) _ _ p) by apply lookup_insert_eq.
    rewrite Hn1, deref_Some, bind_Done.
    replace (has_flag (nh_flags (static_entry a)) GR_NH_F_LINK) with false by reflexivity.
    reflexivity. }
  exists w1. eexists. exists p. split; [done|]. split.
  { unfold ip6_nexthop_unreachable_cb. rewrite Hres, bind_Done.
    rewrite (Delivery.unreachable_hold_reachable NH_MAX_HELD_PKTS RING_SIZE w1 m p
               (static_entry a) Hn1 eq_refl).
    change (w_ring w1) with (w_ring w).
    rewrite (bool_decide_eq_true_2 _ Hring). reflexivity. }
  split; [reflexivity|]. split; [|exact Hn1].
  simpl. by rewrite lookup_alter_eq, Hm.
Qed.

End Facts.

(** ff02::1 is refused, then vrf 16 of 16, then interface 2 which does not
    exist *)
Lemma nh_add_refusal_leaves_state_witness :
  nh6_add 16 8 (Scenario.w_link [None])
    (Cases.add_host 0 1 RTE_IPV6_ADDR_ALLNODES_LINK_LOCAL Scenario.mac_peer)
  = Done (EINVAL, Scenario.w_link [None])
  ∧ nh6_add 16 8 (Scenario.w_link [None])
      (Cases.add_host 16 1 Scenario.addr_peer Scenario.mac_peer)
    = Done (EOVERFLOW, Scenario.w_link [None])
  ∧ nh6_add 16 8 (Scenario.w_link [None])
      (Cases.add_host 0 2 Scenario.addr_peer Scenario.mac_peer)
    = Done (ENODEV, Scenario.w_link [None]).
Proof.
  split; [|split].
  - destruct (nh_add_refusal_leaves_state 16 8 (Scenario.w_link [None])
                (Cases.add_host 0 1 RTE_IPV6_ADDR_ALLNODES_LINK_LOCAL Scenario.mac_peer))
      as (Hinval & _). apply Hinval. reflexivity.
  - destruct (nh_add_refusal_leaves_state 16 8 (Scenario.w_link [None])
                (Cases.add_host 16 1 Scenario.addr_peer Scenario.mac_peer))
      as (_ & Hover & _). apply Hover; [reflexivity|]. simpl. lia.
  - destruct (nh_add_refusal_leaves_state 16 8 (Scenario.w_link [None])
                (Cases.add_host 0 2 Scenario.addr_peer Scenario.mac_peer))
      as (_ & _ & Hnodev & _). apply Hnodev; [reflexivity| simpl; lia |reflexivity].
Defined.

Lemma add_peer_checked :
  add_checked 16 (Scenario.w_link [None])
    (add_nh (Cases.add_host 0 1 Scenario.addr_peer Scenario.mac_peer)).
Proof. split; [reflexivity|]. split; [reflexivity|]. exists Scenario.if1. reflexivity. Qed.


(** NH_DEL of [addr_peer], which has no nexthop in [Scenario.w_link [None]] *)
Lemma nh_del_refusal_leaves_state_witness :
  nh6_del 16 (Scenario.w_link [None]) (Scenario.del_host_req Scenario.addr_peer)
  = Done (ENOENT, Scenario.w_link [None])
  ∧ nh6_del 16 (Scenario.w_link [None]) (Cases.del_if_there Scenario.addr_peer)
    = Done (0%N, Scenario.w_link [None]).
Proof.
  assert (Hnone : ∀ j s, w_pool (Scenario.w_link [None]) !! j = Some s →
                         nh_matches 0 GR_IFACE_ID_UNDEF Scenario.addr_peer s = false).
  { intros [|[|j]] s Hj; [| |discriminate Hj]; injection Hj as <-; reflexivity. }
  split.
  - destruct (nh_del_refusal_leaves_state 16 (Scenario.w_link [None])
                (Scenario.del_host_req Scenario.addr_peer)) as (_ & Hmissing & _).
    apply Hmissing; [simpl; lia|exact Hnone].
  - destruct (nh_del_refusal_leaves_state 16 (Scenario.w_link [None])
                (Cases.del_if_there Scenario.addr_peer)) as (_ & Hmissing & _).
    apply Hmissing; [simpl; lia|exact Hnone].
Defined.

(** NH_ADD of [addr_peer] in [Scenario.w_link [None]], then NH_DEL *)
Lemma nh_add_then_del_restores_witness :
  ∃ w1, nh6_add 16 8 (Scenario.w_link [None])
          (Cases.add_host 0 1 Scenario.addr_peer Scenario.mac_peer) = Done (0%N, w1)
        ∧ w1 ≠ Scenario.w_link [None]
        ∧ nh6_del 16 w1 (Scenario.del_host_req Scenario.addr_peer)
          = Done (0%N, Scenario.w_link [None]).
Proof.
  apply (nh_add_then_del_restores 16 8 (Scenario.w_link [None])
           (Cases.add_host 0 1 Scenario.addr_peer Scenario.mac_peer)
           (Scenario.del_host_req Scenario.addr_peer) add_peer_checked).
  - intros [|[|j]] s Hj; [| |discriminate Hj]; injection Hj as <-; reflexivity.
  - exists 1. reflexivity.
  - reflexivity.
  - vm_compute. lia.
  - reflexivity.
  - reflexivity.
Defined.

(** packet 10 of [Scenario.w_link [None]] is for [addr_peer]: once the host is
    added it goes straight to the output node *)
Lemma static_neighbor_forwards_at_once_witness :
  ∃ w1 w2 p,
    nh6_add 16 8 (Scenario.w_link [None])
      (Cases.add_host 0 1 Scenario.addr_peer Scenario.mac_peer) = Done (0%N, w1)
    ∧ ip6_nexthop_unreachable_cb 4 8 8 w1 10 = Done w2
    ∧ w_ring w2 = [to_output 10]
    ∧ w_mbufs w2 !! 10
      = Some (mbuf_set_nh (Some p) (Scenario.data_pkt Scenario.addr_peer None))
    ∧ nh_at w2 p
      = Some (static_entry
                (add_nh (Cases.add_host 0 1 Scenario.addr_peer Scenario.mac_peer))).
Proof.
  apply (static_neighbor_forwards_at_once 4 16 8 8 (Scenario.w_link [None])
           (Cases.add_host 0 1 Scenario.addr_peer Scenario.mac_peer) ENOENT 10
           (Scenario.data_pkt Scenario.addr_peer None) Scenario.if1 add_peer_checked).
  - reflexivity.
  - exists 1. reflexivity.
  - vm_compute. lia.
  - reflexivity.
  - reflexivity.
  - reflexivity.
  - reflexivity.
  - simpl. lia.
Defined.

End Operator.


(** ** NH_LIST *)

Module Listing.

Import Control ControlList.

Section Facts.

Variable tsc_hz : N.
Variable sizeof_resp : N.
Variable sizeof_gr_nexthop : N.
Variable calloc : N → bool.

Lemma reported_Some (w : world) (vrf_id : N) (s : option nexthop) (e : gr_nexthop_entry) :
  reported tsc_hz w vrf_id s = Some e ↔
  ∃ n, s = Some n ∧ listed vrf_id n ∧ e = entry_of tsc_hz w n.
Proof.
  unfold reported, listed. split.
  - destruct s as [n|]; [|discriminate].
    destruct (N.ltb_spec 0 (nh_ref_count n)) as [Href|]; [|discriminate].
    destruct (N.eqb_spec (nh_vrf_id n) vrf_id) as [Hv|Hv];
      destruct (N.eqb_spec vrf_id UINT16_MAX) as [Hall|Hall];
      destruct (rte_ipv6_addr_is_mcast (nh_ipv6 n)) eqn:Hmc; simpl; try discriminate;
      intros [= <-]; exists n; (split; [done|]); (split; [|done]);
      (split; [done|]); (split; [|done]); auto.
  - intros (n & -> & (Href & Hv & Hmc) & ->).
    apply N.ltb_lt in Href. rewrite Href, Hmc.
    destruct Hv as [Hv|Hv].
    + apply N.eqb_eq in Hv. by rewrite Hv.
    + apply N.eqb_eq in Hv. rewrite Hv. by rewrite orb_true_r.
Qed.

(** the traversal with [nh_list_cb] appends what each slot reports, in the
    order of the pool *)
Lemma nh_pool_iter_list (w : world) (vrf_id : N) (pool : list (option nexthop)) :
  ∀ vec, nh_pool_iter pool (nh_list_cb tsc_hz w vrf_id) vec
         = vec ++ omap (reported tsc_hz w vrf_id) pool.
Proof.
  unfold nh_pool_iter.
  induction pool as [|s pool IH]; intros vec.
  - cbn [foldl]. change (omap (reported tsc_hz w vrf_id) []) with (@nil gr_nexthop_entry).
    by rewrite app_nil_r.
  - cbn [foldl]. rewrite IH.
    change (omap (reported tsc_hz w vrf_id) (s :: pool))
      with (match reported tsc_hz w vrf_id s with
            | Some y => y :: omap (reported tsc_hz w vrf_id) pool
            | None => omap (reported tsc_hz w vrf_id) pool
            end).
    destruct s as [n|]; cbn [reported]; [|done].
    unfold nh_list_cb.
    destruct (N.ltb 0 (nh_ref_count n)); cbn [andb]; [|done].
    destruct (N.eqb (nh_vrf_id n) vrf_id); cbn [negb andb orb].
    + destruct (rte_ipv6_addr_is_mcast (nh_ipv6 n)); cbn [negb andb orb]; [done|].
      by rewrite <- app_assoc.
    + destruct (N.eqb vrf_id UINT16_MAX); cbn [negb andb orb]; [|done].
      destruct (rte_ipv6_addr_is_mcast (nh_ipv6 n)); cbn [negb andb orb]; [done|].
      by rewrite <- app_assoc.
Qed.

Lemma omap_length_le {A B : Type} (f : A → option B) (l : list A) :
  length (omap f l) ≤ length l.
Proof.
  induction l as [|x l IH]; [done|].
  change (omap f (x :: l))
    with (match f x with Some y => y :: omap f l | None => omap f l end).
  destruct (f x); simpl; lia.
Qed.

Lemma nh6_list_nhs (w : world) (req : gr_ip6_nh_list_req) (code len : N)
    (resp : gr_ip6_nh_list_resp) :
  nh6_list tsc_hz sizeof_resp sizeof_gr_nexthop calloc w req = (code, len, Some resp) →
  code = 0%N
  ∧ nhs resp = omap (reported tsc_hz w (list_vrf_id req)) (w_pool w)
  ∧ n_nhs resp = N.of_nat (length (nhs resp))
  ∧ len = (sizeof_resp + n_nhs resp * sizeof_gr_nexthop)%N.
Proof.
  unfold nh6_list. rewrite nh_pool_iter_list, app_nil_l.
  destruct (calloc _); [|discriminate]. intros [= <- <- <-]. done.
Qed.

(** X11: a successful NH_LIST reports exactly the nexthops of the index that
    are in the vrf asked for (all of them when the vrf is UINT16_MAX) and whose
    address is not multicast, each once per slot and in the order of the pool,
    with the address, interface, vrf, link-layer address, flags and hold count
    of the nexthop; the count of the response is the number of entries and the
    length returned is that of the header and the entries. *)
Theorem nh_list_reports_the_vrf (w : world) (req : gr_ip6_nh_list_req) (code len : N)
    (resp : gr_ip6_nh_list_resp) :
  nh6_list tsc_hz sizeof_resp sizeof_gr_nexthop calloc w req = (code, len, Some resp) →
  code = 0%N
  ∧ (∀ e, e ∈ nhs resp ↔
          ∃ p n, nh_at w p = Some n ∧ listed (list_vrf_id req) n
                 ∧ e = entry_of tsc_hz w n)
  ∧ (∀ i j ei ej, i < j → nhs resp !! i = Some ei → nhs resp !! j = Some ej →
       ∃ p q ni nj, p < q ∧ nh_at w p = Some ni ∧ nh_at w q = Some nj
                    ∧ ei = entry_of tsc_hz w ni ∧ ej = entry_of tsc_hz w nj)
  ∧ n_nhs resp = N.of_nat (length (nhs resp))
  ∧ length (nhs resp) ≤ length (w_pool w)
  ∧ len = (sizeof_resp + n_nhs resp * sizeof_gr_nexthop)%N.
Proof.
  intros Hrun. apply nh6_list_nhs in Hrun as (Hcode & Hnhs & Hn & Hlen).
  split; [done|]. split; [|split; [|split; [done|split; [|done]]]].
  - intros e. rewrite Hnhs, list_elem_of_omap. split.
    + intros (s & Hs & Hrep). apply reported_Some in Hrep as (n & -> & Hl & ->).
      apply list_elem_of_lookup in Hs as [p Hp].
      exists p, n. split; [by apply nh_at_Some|done].
    + intros (p & n & Hp & Hl & ->). exists (Some n). split.
      * apply nh_at_Some in Hp. by eapply list_elem_of_lookup_2.
      * apply reported_Some. eauto.
  - rewrite Hnhs. clear Hnhs Hn Hlen. unfold nh_at.
    generalize (w_pool w) as pool. intros pool.
    induction pool as [|s pool IH]; intros i j ei ej Hij Hi Hj; [done|].
    simpl in Hi, Hj.
    destruct (reported tsc_hz w (list_vrf_id req) s) as [e0|] eqn:Hrep.
    + destruct i as [|i].
      * simpl in Hi. injection Hi as <-.
        destruct j as [|j]; [lia|]. simpl in Hj.
        apply reported_Some in Hrep as (n0 & -> & _ & ->).
        apply list_elem_of_lookup_2, list_elem_of_omap in Hj as (sj & Hsj & Hrj).
        apply reported_Some in Hrj as (nj & -> & _ & ->).
        apply list_elem_of_lookup in Hsj as [q Hq].
        exists 0, (S q), n0, nj. simpl. rewrite Hq. split; [lia|done].
      * destruct j as [|j]; [lia|]. simpl in Hi, Hj.
        destruct (IH i j ei ej ltac:(lia) Hi Hj) as (p & q & ni & nj & Hpq & Hp & Hq & ?).
        exists (S p), (S q), ni, nj. simpl. split; [lia|done].
    + destruct (IH i j ei ej Hij Hi Hj) as (p & q & ni & nj & Hpq & Hp & Hq & ?).
      exists (S p), (S q), ni, nj. simpl. split; [lia|done].
  - rewrite Hnhs. apply omap_length_le.
Qed.

(** X12: the list of one vrf is the list of all vrfs (vrf UINT16_MAX) with
    the entries of the other vrfs left out, in the same order. *)
Theorem nh_list_of_vrf_filters_all (w : world) (vrf_id : N) (code codeall len lenall : N)
    (resp respall : gr_ip6_nh_list_resp) :
  nh6_list tsc_hz sizeof_resp sizeof_gr_nexthop calloc w {| list_vrf_id := vrf_id |}
  = (code, len, Some resp) →
  nh6_list tsc_hz sizeof_resp sizeof_gr_nexthop calloc w {| list_vrf_id := UINT16_MAX |}
  = (codeall, lenall, Some respall) →
  nhs resp = filter (λ e, e_vrf_id e = vrf_id ∨ vrf_id = UINT16_MAX) (nhs respall)
  ∧ (n_nhs resp ≤ n_nhs respall)%N.
Proof.
  intros Hone Hall.
  apply nh6_list_nhs in Hone as (_ & Hone & Hn1 & _).
  apply nh6_list_nhs in Hall as (_ & Hall & Hn2 & _).
  cbn [list_vrf_id] in Hone, Hall.
  assert (Hf : nhs resp
               = filter (λ e, e_vrf_id e = vrf_id ∨ vrf_id = UINT16_MAX) (nhs respall)).
  { rewrite Hone, Hall. clear.
    induction (w_pool w) as [|s pool IH]; [done|].
    change (omap (reported tsc_hz w vrf_id) (s :: pool))
      with (match reported tsc_hz w vrf_id s with
            | Some y => y :: omap (reported tsc_hz w vrf_id) pool
            | None => omap (reported tsc_hz w vrf_id) pool
            end).
    change (omap (reported tsc_hz w UINT16_MAX) (s :: pool))
      with (match reported tsc_hz w UINT16_MAX s with
            | Some y => y :: omap (reported tsc_hz w UINT16_MAX) pool
            | None => omap (reported tsc_hz w UINT16_MAX) pool
            end).
    destruct s as [n|]; cbn [reported]; [|exact IH].
    destruct (N.ltb 0 (nh_ref_count n)); cbn [andb]; [|exact IH].
    rewrite N.eqb_refl, orb_true_r.
    destruct (rte_ipv6_addr_is_mcast (nh_ipv6 n)); cbn [negb andb].
    { rewrite andb_false_r. exact IH. }
    rewrite andb_true_r.
    rewrite filter_cons.
    change (e_vrf_id (entry_of tsc_hz w n)) with (nh_vrf_id n).
    destruct (N.eqb_spec (nh_vrf_id n) vrf_id) as [Hv|Hv]; cbn [orb].
    - rewrite decide_True by auto. by rewrite IH.
    - destruct (N.eqb_spec vrf_id UINT16_MAX) as [Ha|Ha].
      + rewrite decide_True by auto. by rewrite IH.
      + rewrite decide_False by (intros [?|?]; done). exact IH. }
  split; [done|]. rewrite Hn1, Hn2, Hf.
  pose proof (length_filter (λ e, e_vrf_id e = vrf_id ∨ vrf_id = UINT16_MAX) (nhs respall)).
  lia.
Qed.

(** X13: every entry of a successful NH_LIST is the entry of a nexthop of the
    index, in the vrf asked for, and the age it reports is that of the
    nexthop: 0 when it never received a reply ([last_reply] is 0), else the
    ticks since [last_reply] divided by the tick rate, rounded down; the
    subtraction is that of 64-bit unsigned numbers, so a tick counter behind
    [last_reply] gives the age of the wrapped difference. *)
Theorem nh_list_age_of_entry (w : world) (req : gr_ip6_nh_list_req) (code len : N)
    (resp : gr_ip6_nh_list_resp) (i : nat) (e : gr_nexthop_entry) :
  nh6_list tsc_hz sizeof_resp sizeof_gr_nexthop calloc w req = (code, len, Some resp) →
  nhs resp !! i = Some e →
  (rte_get_tsc_cycles w < 2 ^ 64)%N →
  ∃ p n,
    nh_at w p = Some n
    ∧ listed (list_vrf_id req) n
    ∧ e_ipv6 e = nh_ipv6 n
    ∧ e_iface_id e = nh_iface_id n
    ∧ e_vrf_id e = nh_vrf_id n
    ∧ (nh_last_reply n = 0%N → e_age e = 0%N)
    ∧ ((0 < nh_last_reply n)%N → (nh_last_reply n ≤ rte_get_tsc_cycles w)%N →
       e_age e = ((rte_get_tsc_cycles w - nh_last_reply n) / tsc_hz)%N)
    ∧ ((rte_get_tsc_cycles w < nh_last_reply n)%N → (nh_last_reply n < 2 ^ 64)%N →
       e_age e = ((2 ^ 64 - (nh_last_reply n - rte_get_tsc_cycles w)) / tsc_hz)%N).
Proof.
  intros Hlist He Htsc.
  destruct (nh6_list_nhs w req code len resp Hlist) as (_ & Hnhs & _).
  rewrite Hnhs in He. apply list_elem_of_lookup_2 in He.
  apply list_elem_of_omap in He as (s & Hs & Hrep).
  apply reported_Some in Hrep as (n & -> & Hlisted & ->).
  apply list_elem_of_lookup in Hs as [p Hp].
  exists p, n. split; [by apply nh_at_Some|]. split; [done|].
  split; [done|]. split; [done|]. split; [done|].
  unfold entry_of. cbn [e_age]. split; [|split].
  - intros Hn. by rewrite Hn.
  - intros Hpos Hle. apply N.ltb_lt in Hpos. rewrite Hpos.
    f_equal. unfold u64_sub.
    rewrite (N.mod_small (nh_last_reply n)) by lia.
    replace (rte_get_tsc_cycles w + 2 ^ 64 - nh_last_reply n)%N
      with ((rte_get_tsc_cycles w - nh_last_reply n) + 1 * 2 ^ 64)%N by lia.
    rewrite N.Div0.mod_add. apply N.mod_small. lia.
  - intros Hbehind Hlt.
    assert (Hpos : (0 <? nh_last_reply n)%N = true) by (apply N.ltb_lt; lia).
    rewrite Hpos. f_equal. unfold u64_sub.
    rewrite (N.mod_small (nh_last_reply n)) by lia.
    replace (rte_get_tsc_cycles w + 2 ^ 64 - nh_last_reply n)%N
      with (2 ^ 64 - (nh_last_reply n - rte_get_tsc_cycles w))%N by lia.
    apply N.mod_small. lia.
Qed.

(** X14: a host the operator has added is reported by the next NH_LIST of its
    vrf, and of all vrfs, with the link-layer address of the request, the flags
    STATIC and REACHABLE, no packet held, and age 0: NH_ADD does not set
    [last_reply]. *)
Theorem added_host_is_listed (MAX_VRFS : N) (IP6_MAX_ROUTES : nat) (w : world)
    (req : gr_ip6_nh_add_req) (e : N) (w1 : world) (lreq : gr_ip6_nh_list_req)
    (code len : N) (resp : gr_ip6_nh_list_resp) :
  let a := add_nh req in
  ip6_nexthop_lookup w (api_vrf_id a) (api_iface_id a) (api_ipv6 a) = Err e →
  nh6_add MAX_VRFS IP6_MAX_ROUTES w req = Done (0%N, w1) →
  list_vrf_id lreq = api_vrf_id a ∨ list_vrf_id lreq = UINT16_MAX →
  nh6_list tsc_hz sizeof_resp sizeof_gr_nexthop calloc w1 lreq = (code, len, Some resp) →
  {| e_ipv6 := api_ipv6 a; e_iface_id := api_iface_id a; e_vrf_id := api_vrf_id a;
     e_mac := api_mac a; e_flags := N.lor GR_NH_F_STATIC GR_NH_F_REACHABLE;
     e_age := 0; e_held_pkts := 0 |} ∈ nhs resp.
Proof.
  intros a Hmiss Hadd Hvrf Hlist.
  destruct (Api.nh6_add_ok_entry MAX_VRFS IP6_MAX_ROUTES w req w1 Hadd) as (Hc & _).
  pose proof (Api.nh6_add_new MAX_VRFS IP6_MAX_ROUTES w req e Hc Hmiss) as Hnew.
  cbv zeta in Hnew. fold a in Hnew.
  destruct (list_find _ (w_pool w)) as [[p s]|] eqn:Hfind.
  2:{ rewrite Hnew in Hadd. discriminate Hadd. }
  apply list_find_Some in Hfind as (Hp & _ & _).
  destruct (bool_decide _ || bool_decide _); rewrite Hnew in Hadd;
    [|discriminate Hadd].
  injection Hadd as <-.
  apply nh6_list_nhs in Hlist as (_ & -> & _).
  apply list_elem_of_omap. exists (Some (static_entry a)). split.
  - cbn [w_pool w_set_pool]. eapply list_elem_of_lookup_2.
    apply list_lookup_insert_eq. by eapply lookup_lt_Some.
  - apply reported_Some. exists (static_entry a). split; [done|]. split; [|done].
    destruct Hc as (Haddr & _). apply orb_false_elim in Haddr as [_ Hmc].
    split; [done|]. split; [|exact Hmc].
    destruct Hvrf as [->| ->]; auto.
Qed.

End Facts.

(** the list of vrf 0 of [Cases.w_two_vrfs], with a tick rate of 1000 per
    second: the router's address and the pending neighbor *)
Lemma nh_list_reports_the_vrf_witness :
  ∃ resp,
    nh6_list 1000 8 48 (λ _, true) Cases.w_two_vrfs {| list_vrf_id := 0 |}
    = (0%N, 104%N, Some resp)
    ∧ (e_ipv6 <$> nhs resp) = [Scenario.addr_router; Scenario.addr_peer]
    ∧ n_nhs resp = 2%N
    ∧ length (nhs resp) ≤ 5.
Proof.
  eexists. split; [vm_compute; reflexivity|].
  match goal with
  | |- context [nhs ?r] =>
      assert (Hrun : nh6_list 1000 8 48 (λ _, true) Cases.w_two_vrfs {| list_vrf_id := 0 |}
                     = (0%N, 104%N, Some r)) by (vm_compute; reflexivity);
      destruct (nh_list_reports_the_vrf 1000 8 48 (λ _, true) Cases.w_two_vrfs
                  {| list_vrf_id := 0 |} _ _ _ Hrun) as (_ & _ & _ & Hn & Hle & _)
  end.
  split; [vm_compute; reflexivity|]. split; [exact Hn|exact Hle].
Defined.

(** the list of vrf 1 against the list of all vrfs *)
Lemma nh_list_of_vrf_filters_all_witness :
  ∃ resp respall,
    nh6_list 1000 8 48 (λ _, true) Cases.w_two_vrfs {| list_vrf_id := 1 |}
    = (0%N, 56%N, Some resp)
    ∧ nh6_list 1000 8 48 (λ _, true) Cases.w_two_vrfs {| list_vrf_id := UINT16_MAX |}
      = (0%N, 152%N, Some respall)
    ∧ nhs resp = filter (λ e, e_vrf_id e = 1%N ∨ 1%N = UINT16_MAX) (nhs respall)
    ∧ (e_age <$> nhs resp) = [2%N]
    ∧ (n_nhs resp ≤ n_nhs respall)%N.
Proof.
  eexists _, _. split; [vm_compute; reflexivity|]. split; [vm_compute; reflexivity|].
  match goal with
  | |- nhs ?r = filter _ (nhs ?ra) ∧ _ =>
      assert (Hone : nh6_list 1000 8 48 (λ _, true) Cases.w_two_vrfs {| list_vrf_id := 1 |}
                     = (0%N, 56%N, Some r)) by (vm_compute; reflexivity);
      assert (Hall : nh6_list 1000 8 48 (λ _, true) Cases.w_two_vrfs
                       {| list_vrf_id := UINT16_MAX |}
                     = (0%N, 152%N, Some ra)) by (vm_compute; reflexivity);
      destruct (nh_list_of_vrf_filters_all 1000 8 48 (λ _, true) Cases.w_two_vrfs 1
                  _ _ _ _ _ _ Hone Hall) as [Hf Hle]
  end.
  split; [exact Hf|]. split; [vm_compute; reflexivity|exact Hle].
Defined.

(** the neighbor of vrf 1 in [Cases.w_two_vrfs] replied 2000 ticks ago: two
    seconds *)
Lemma nh_list_age_of_entry_witness :
  ∃ len r,
    nh6_list 1000 8 48 (λ _, true) Cases.w_two_vrfs {| list_vrf_id := 1 |}
    = (0%N, len, Some r)
    ∧ ∀ i e, nhs r !! i = Some e → e_age e = 2%N.
Proof.
  destruct (nh6_list 1000 8 48 (λ _, true) Cases.w_two_vrfs {| list_vrf_id := 1 |})
    as [[code len] [r|]] eqn:Hrun; [|vm_compute in Hrun; discriminate].
  assert (Hcode : code = 0%N) by (vm_compute in Hrun; congruence).
  subst code. exists len, r. split; [reflexivity|].
  intros i e He.
  destruct (nh_list_age_of_entry 1000 8 48 (λ _, true) Cases.w_two_vrfs
              {| list_vrf_id := 1 |} 0 len r i e Hrun He)
    as (p & n & Hn & (_ & Hvrf & _) & _ & _ & _ & _ & Hage & _);
    [vm_compute; reflexivity|].
  assert (Hpeer : n = Cases.peer_vrf1).
  { destruct Hvrf as [Hvrf|Hall]; [|discriminate Hall].
    destruct p as [|[|[|[|[|p]]]]]; vm_compute in Hn; try discriminate;
      injection Hn as <-; try reflexivity; vm_compute in Hvrf; discriminate. }
  subst n. rewrite Hage; [reflexivity|reflexivity|vm_compute; discriminate].
Defined.

(** [addr_peer] added in [Scenario.w_link [None]] and listed *)
Lemma added_host_is_listed_witness :
  ∃ resp,
    nh6_list 1000 8 48 (λ _, true) Scenario.w_added {| list_vrf_id := 0 |}
    = (0%N, 104%N, Some resp)
    ∧ {| e_ipv6 := Scenario.addr_peer; e_iface_id := 1; e_vrf_id := 0;
         e_mac := Scenario.mac_peer; e_flags := N.lor GR_NH_F_STATIC GR_NH_F_REACHABLE;
         e_age := 0; e_held_pkts := 0 |} ∈ nhs resp.
Proof.
  eexists. split; [vm_compute; reflexivity|].
  match goal with
  | |- _ ∈ nhs ?r =>
      apply (added_host_is_listed 1000 8 48 (λ _, true) 16 8 (Scenario.w_link [None])
               (Cases.add_host 0 1 Scenario.addr_peer Scenario.mac_peer) ENOENT
               Scenario.w_added {| list_vrf_id := 0 |} 0 104 r)
  end.
  - reflexivity.
  - vm_compute. reflexivity.
  - left. reflexivity.
  - vm_compute. reflexivity.
Defined.

End Listing.


(** ** Solicitations from a neighbor *)

Module Solicited.

Import Control NdpNsInput.

Section Facts.

Variable MBUF_POOL_SIZE : nat.
Variable IP6_MAX_ROUTES : nat.
Variable RING_SIZE : nat.

(** the node up to line 93, for a solicitation that passes the checks of lines
    73-81 and whose target is an address of the router *)
Lemma ns_input_local (w : world) (mbuf : mbuf_ptr) (b : rte_mbuf) (ifc : iface)
    (local : nh_ptr) (l : nexthop) :
  w_mbufs w !! mbuf = Some b →
  ns_for_router w b ifc local l →
  ndp_ns_input_one MBUF_POOL_SIZE w mbuf
  = match ns_plan MBUF_POOL_SIZE w mbuf ifc (md_src b) (md_dst b)
            (bool_decide (is_Some (icmp6_get_opt (m_icmp6 b) ICMP6_OPT_SRC_LLADDR))) with
    | inl next => Done ([(next, mbuf)], w)
    | inr plan =>
        l1 ← deref (nh_at (rp_world plan) local);
        Done (rp_enqueued plan ++ [(IP_OUTPUT, mbuf)],
              mbuf_update mbuf
                (forge_advert (rp_solicited plan) l1 (default local (rp_remote plan))
                   (rp_dst plan)) (rp_world plan))
    end.
Proof.
  intros Hm (Hifc & Hhop & Hcode & Hmc & Hfound & Hl & Hlocal). unfold ndp_ns_input_one.
  rewrite Hm, deref_Some, bind_Done, Hhop, Hcode, Hmc.
  replace (N.leb 0 (md_len b)) with true by (symmetry; apply N.leb_le; lia).
  rewrite !N.eqb_refl. cbn [negb].
  rewrite Hifc, deref_Some, bind_Done, Hfound, Hl, deref_Some, bind_Done, Hlocal.
  cbn [negb]. reflexivity.
Qed.

(** the buffer the node has written the advertisement to *)
Lemma forge_advert_is_advert (solicited : bool) (l : nexthop) (nh : nh_ptr)
    (dst : rte_ipv6_addr) (b : rte_mbuf) :
  advert_of l solicited dst (forge_advert solicited l nh dst b)
  ∧ md_nh (forge_advert solicited l nh dst b) = Some nh.
Proof. by repeat split. Qed.

(** X15: a solicitation for an address of the router that comes from a
    specified source is answered, in the buffer it came in, by a neighbor
    advertisement with Solicited = 1, Router and Override set, the target and
    its link-layer address, sent from the target address to the source of the
    solicitation with hop limit 255; the nexthop attached for the output is
    that of the sender if the pool has one, else the local one. The reply is
    the last buffer enqueued and goes to ip6_output; without a source
    link-layer address option it is the only one, and no other buffer, no
    nexthop and no post is touched. *)
Theorem ns_specified_source_reply (w : world) (mbuf : mbuf_ptr) (b : rte_mbuf)
    (ifc : iface) (local : nh_ptr) (l : nexthop) :
  w_mbufs w !! mbuf = Some b →
  ns_for_router w b ifc local l →
  rte_ipv6_addr_is_unspec (md_src b) = false →
  icmp6_get_opt (m_icmp6 b) ICMP6_OPT_SRC_LLADDR = None
  ∨ size (w_mbufs w) < MBUF_POOL_SIZE →
  ∃ ctl w' b',
    ndp_ns_input_one MBUF_POOL_SIZE w mbuf = Done (ctl ++ [(IP_OUTPUT, mbuf)], w')
    ∧ w_mbufs w' !! mbuf = Some b'
    ∧ advert_of l true (md_src b) b'
    ∧ md_nh b' = Some (default local (sender_nexthop w ifc (md_src b)))
    ∧ w_pool w' = w_pool w
    ∧ w_rib6 w' = w_rib6 w
    ∧ w_ring w' = w_ring w
    ∧ (icmp6_get_opt (m_icmp6 b) ICMP6_OPT_SRC_LLADDR = None →
       ctl = [] ∧ ∀ k, k ≠ mbuf → w_mbufs w' !! k = w_mbufs w !! k).
Proof.
  intros Hm Hns Hsrc Hroom.
  rewrite (ns_input_local w mbuf b ifc local l Hm Hns).
  destruct Hns as (_ & _ & _ & _ & _ & Hl & _).
  unfold ns_plan. rewrite Hsrc. fold (sender_nexthop w ifc (md_src b)).
  destruct (icmp6_get_opt (m_icmp6 b) ICMP6_OPT_SRC_LLADDR) as [mac|] eqn:Hopt.
  - (* the option is there: a copy is made *)
    destruct Hroom as [?|Hroom]; [done|].
    rewrite (bool_decide_eq_true_2 (is_Some (Some mac))) by eauto.
    unfold rte_pktmbuf_copy. rewrite Hm, (bool_decide_eq_true_2 _ Hroom).
    cbn [rp_world rp_enqueued rp_remote rp_solicited rp_dst].
    set (copy := fresh (dom (w_mbufs w))).
    assert (Hne : copy ≠ mbuf).
    { intros Heq. apply (is_fresh (dom (w_mbufs w))). fold copy. rewrite Heq.
      apply elem_of_dom. eauto. }
    match goal with
    | |- context [nh_at ?w2 local] =>
        change (nh_at w2 local) with (nh_at w local)
    end.
    rewrite Hl, deref_Some, bind_Done.
    eexists [(CONTROL, copy)], _, _. split; [reflexivity|].
    split.
    { cbn [w_mbufs mbuf_update w_set_mbufs].
      rewrite lookup_alter_eq, lookup_alter_ne, lookup_insert_ne, Hm by done.
      reflexivity. }
    split; [apply forge_advert_is_advert|]. split; [reflexivity|].
    split; [reflexivity|]. split; [reflexivity|]. split; [reflexivity|].
    discriminate.
  - rewrite (bool_decide_eq_false_2 (is_Some None)) by (by intros [? ?]).
    cbn [rp_world rp_enqueued rp_remote rp_solicited rp_dst].
    rewrite Hl, deref_Some, bind_Done.
    eexists [], _, _. split; [reflexivity|].
    split; [by rewrite mbuf_update_lookup_eq, Hm|].
    split; [apply forge_advert_is_advert|]. split; [reflexivity|].
    split; [reflexivity|]. split; [reflexivity|]. split; [reflexivity|].
    intros _. split; [done|]. intros k Hk. by apply mbuf_update_lookup_ne.
Qed.

(** what the node does with a solicitation that carries the link-layer address
    of its sender, a buffer being left in the pool *)
Lemma ns_input_with_lladdr (w : world) (mbuf : mbuf_ptr) (b : rte_mbuf)
    (ifc : iface) (local : nh_ptr) (l : nexthop) (mac : rte_ether_addr) :
  w_mbufs w !! mbuf = Some b →
  ns_for_router w b ifc local l →
  rte_ipv6_addr_is_unspec (md_src b) = false →
  icmp6_get_opt (m_icmp6 b) ICMP6_OPT_SRC_LLADDR = Some mac →
  size (w_mbufs w) < MBUF_POOL_SIZE →
  let copy := fresh (dom (w_mbufs w)) in
  let c := mbuf_set_callback (Some cb_ndp_probe_input)
             (mbuf_set_iface (Some ifc)
                (mbuf_set_icmp6 (icmp6_set_target (md_src b) (m_icmp6 b))
                   (copy_of b))) in
  let reply := forge_advert true l (default local (sender_nexthop w ifc (md_src b)))
                 (md_src b) b in
  copy ≠ mbuf
  ∧ w_mbufs w !! copy = None
  ∧ ndp_ns_input_one MBUF_POOL_SIZE w mbuf
    = Done ([(CONTROL, copy); (IP_OUTPUT, mbuf)],
            w_set_mbufs (<[mbuf := reply]> (<[copy := c]> (w_mbufs w))) w).
Proof.
  intros Hm Hns Hsrc Hopt Hroom copy c reply.
  assert (Hfresh : w_mbufs w !! copy = None).
  { apply not_elem_of_dom. apply is_fresh. }
  assert (Hne : copy ≠ mbuf) by (intros Heq; rewrite Heq in Hfresh; congruence).
  split; [done|]. split; [done|].
  rewrite (ns_input_local w mbuf b ifc local l Hm Hns).
  destruct Hns as (_ & _ & _ & _ & _ & Hl & _).
  unfold ns_plan. rewrite Hsrc, Hopt. fold (sender_nexthop w ifc (md_src b)).
  rewrite (bool_decide_eq_true_2 (is_Some (Some mac))) by eauto.
  unfold rte_pktmbuf_copy. rewrite Hm, (bool_decide_eq_true_2 _ Hroom).
  cbn [rp_world rp_enqueued rp_remote rp_solicited rp_dst]. fold copy.
  match goal with
  | |- context [nh_at ?w2 local] => change (nh_at w2 local) with (nh_at w local)
  end.
  rewrite Hl, deref_Some, bind_Done. cbn [app]. do 2 f_equal.
  destruct w as [pool rib ifaces addrs mbufs ring tsc].
  unfold mbuf_update, w_set_mbufs.
  cbn [w_mbufs w_pool w_rib6 w_ifaces w_addrs w_ring w_tsc] in *. f_equal.
  apply map_eq. intros k.
  destruct (decide (k = mbuf)) as [->|Hk].
  { rewrite lookup_alter_eq, lookup_alter_ne, lookup_insert_ne, lookup_insert_eq, Hm by done.
    reflexivity. }
  rewrite lookup_alter_ne, lookup_insert_ne by done.
  destruct (decide (k = copy)) as [->|Hkc].
  - rewrite lookup_alter_eq, !lookup_insert_eq. reflexivity.
  - rewrite lookup_alter_ne, !lookup_insert_ne by done. reflexivity.
Qed.

(** X16: when the solicitation carries the link-layer address of its sender,
    the node first hands a copy to the control edge for [ndp_probe_input_cb]:
    a buffer not in use before, with the packet of the solicitation except for
    the target, which is replaced by the address of the sender, and with the
    receiving interface in its metadata; so the callback reads the sender and
    its link-layer address from it. No other buffer than the copy and the
    reply is written. *)
Theorem ns_copy_handed_to_control (w : world) (mbuf : mbuf_ptr) (b : rte_mbuf)
    (ifc : iface) (local : nh_ptr) (l : nexthop) (mac : rte_ether_addr) :
  w_mbufs w !! mbuf = Some b →
  ns_for_router w b ifc local l →
  rte_ipv6_addr_is_unspec (md_src b) = false →
  icmp6_get_opt (m_icmp6 b) ICMP6_OPT_SRC_LLADDR = Some mac →
  size (w_mbufs w) < MBUF_POOL_SIZE →
  ∃ copy w' c,
    ndp_ns_input_one MBUF_POOL_SIZE w mbuf
    = Done ([(CONTROL, copy); (IP_OUTPUT, mbuf)], w')
    ∧ w_mbufs w !! copy = None
    ∧ w_mbufs w' !! copy = Some c
    ∧ m_pkt_len c = m_pkt_len b
    ∧ icmp6_type (m_icmp6 c) = icmp6_type (m_icmp6 b)
    ∧ nd_opts (m_icmp6 c) = nd_opts (m_icmp6 b)
    ∧ nd_target (m_icmp6 c) = md_src b
    ∧ md_iface c = Some ifc
    ∧ md_callback c = Some cb_ndp_probe_input
    ∧ (icmp6_type (m_icmp6 b) = ICMP6_TYPE_NEIGH_SOLICIT →
       probe_parse (m_icmp6 c) = Some (md_src b, mac))
    ∧ (∀ k, k ≠ mbuf → k ≠ copy → w_mbufs w' !! k = w_mbufs w !! k).
Proof.
  intros Hm Hns Hsrc Hopt Hroom.
  destruct (ns_input_with_lladdr w mbuf b ifc local l mac Hm Hns Hsrc Hopt Hroom)
    as (Hne & Hfresh & Hrun).
  eexists _, _, _. split; [exact Hrun|]. split; [done|].
  split.
  { cbn [w_mbufs w_set_mbufs]. rewrite lookup_insert_ne by done. apply lookup_insert_eq. }
  split; [done|]. split; [done|]. split; [done|]. split; [done|]. split; [done|].
  split; [done|]. split.
  - intros Htype. unfold probe_parse. cbn [m_icmp6 mbuf_set_callback mbuf_set_iface
      mbuf_set_icmp6 icmp6_type icmp6_set_target nd_target].
    rewrite Htype, N.eqb_refl.
    change (icmp6_get_opt (icmp6_set_target (md_src b) (m_icmp6 b)) ICMP6_OPT_SRC_LLADDR)
      with (icmp6_get_opt (m_icmp6 b) ICMP6_OPT_SRC_LLADDR).
    by rewrite Hopt.
  - intros k Hk Hkc. cbn [w_mbufs w_set_mbufs]. by rewrite !lookup_insert_ne.
Qed.

(** X17: when the solicitation carries the link-layer address of its sender
    and the packet pool has no buffer left for the copy, the solicitation goes
    to the error edge: no reply is built, nothing is handed to the control
    edge, and the state is as it was. *)
Theorem ns_copy_failure_is_an_error (w : world) (mbuf : mbuf_ptr) (b : rte_mbuf)
    (ifc : iface) (local : nh_ptr) (l : nexthop) (mac : rte_ether_addr) :
  w_mbufs w !! mbuf = Some b →
  ns_for_router w b ifc local l →
  rte_ipv6_addr_is_unspec (md_src b) = false →
  icmp6_get_opt (m_icmp6 b) ICMP6_OPT_SRC_LLADDR = Some mac →
  MBUF_POOL_SIZE ≤ size (w_mbufs w) →
  ndp_ns_input_one MBUF_POOL_SIZE w mbuf = Done ([(ERROR, mbuf)], w).
Proof.
  intros Hm Hns Hsrc Hopt Hfull.
  rewrite (ns_input_local w mbuf b ifc local l Hm Hns).
  unfold ns_plan. rewrite Hsrc, Hopt.
  rewrite (bool_decide_eq_true_2 (is_Some (Some mac))) by eauto.
  unfold rte_pktmbuf_copy. rewrite Hm.
  rewrite (bool_decide_eq_false_2 (size (w_mbufs w) < MBUF_POOL_SIZE)) by lia.
  reflexivity.
Qed.

(** X18: a solicitation teaches the router its sender. When the solicitation
    carries the link-layer address of a sender that has no nexthop yet, and
    the pool has a free slot and the route table room for one route, the copy
    the node hands to the control edge makes [ndp_probe_input_cb] create the
    nexthop of the sender on the receiving interface, REACHABLE with the
    address of the option, and route the sender's /128 to it. The copy is then
    freed, and the reply stays in its buffer. *)
Theorem solicitation_teaches_sender (fuel : nat) (w : world) (mbuf : mbuf_ptr)
    (b : rte_mbuf) (ifc : iface) (local : nh_ptr) (l : nexthop) (mac : rte_ether_addr)
    (e : N) :
  w_mbufs w !! mbuf = Some b →
  ns_for_router w b ifc local l →
  icmp6_type (m_icmp6 b) = ICMP6_TYPE_NEIGH_SOLICIT →
  rte_ipv6_addr_is_unspec (md_src b) || rte_ipv6_addr_is_mcast (md_src b) = false →
  icmp6_get_opt (m_icmp6 b) ICMP6_OPT_SRC_LLADDR = Some mac →
  size (w_mbufs w) < MBUF_POOL_SIZE →
  ip6_nexthop_lookup w (if_vrf_id ifc) (if_id ifc) (md_src b) = Err e →
  (∃ j, w_pool w !! j = Some None) →
  is_Some (w_rib6 w !! rib6_key (if_vrf_id ifc) (md_src b) RTE_IPV6_MAX_DEPTH)
  ∨ size (w_rib6 w) < IP6_MAX_ROUTES →
  ∃ copy w1 w2 p n reply,
    ndp_ns_input_one MBUF_POOL_SIZE w mbuf
    = Done ([(CONTROL, copy); (IP_OUTPUT, mbuf)], w1)
    ∧ ndp_probe_input_cb IP6_MAX_ROUTES RING_SIZE fuel w1 copy = Done w2
    ∧ w_pool w !! p = Some None
    ∧ ip6_nexthop_lookup w2 (if_vrf_id ifc) (if_id ifc) (md_src b) = Ret p
    ∧ ip6_route_lookup w2 (if_vrf_id ifc) (if_id ifc) (md_src b) = Some p
    ∧ nh_at w2 p = Some n
    ∧ nh_lladdr n = mac
    ∧ nh_flags n = GR_NH_F_REACHABLE
    ∧ nh_last_reply n = rte_get_tsc_cycles w
    ∧ nh_held_pkts_num n = 0%N
    ∧ w_mbufs w2 !! copy = None
    ∧ w_mbufs w2 !! mbuf = Some reply
    ∧ advert_of l true (md_src b) reply
    ∧ md_nh reply = Some local.
Proof.
  intros Hm Hns Htype Haddr Hopt Hroom Hmiss Hfree Hroute.
  assert (Hsrc : rte_ipv6_addr_is_unspec (md_src b) = false).
  { by apply orb_false_iff in Haddr as [? _]. }
  destruct (ns_input_with_lladdr w mbuf b ifc local l mac Hm Hns Hsrc Hopt Hroom)
    as (Hne & Hfresh & Hrun).
  set (copy := fresh (dom (w_mbufs w))) in *.
  set (c := mbuf_set_callback _ _) in Hrun.
  set (reply := forge_advert _ _ _ _ _) in Hrun.
  set (w1 := w_set_mbufs _ w) in Hrun.
  assert (Hparse : probe_parse (m_icmp6 c) = Some (md_src b, mac)).
  { unfold probe_parse, c. cbn [m_icmp6 mbuf_set_callback mbuf_set_iface
      mbuf_set_icmp6 icmp6_type icmp6_set_target nd_target].
    rewrite Htype, N.eqb_refl.
    change (icmp6_get_opt (icmp6_set_target (md_src b) (m_icmp6 b)) ICMP6_OPT_SRC_LLADDR)
      with (icmp6_get_opt (m_icmp6 b) ICMP6_OPT_SRC_LLADDR).
    by rewrite Hopt. }
  assert (Hc : w_mbufs w1 !! copy = Some c).
  { unfold w1. cbn [w_mbufs w_set_mbufs]. rewrite lookup_insert_ne by done.
    apply lookup_insert_eq. }
  destruct (Learning.probe_cb_unknown_sender IP6_MAX_ROUTES RING_SIZE fuel w1 copy c
              (md_src b) mac ifc e Hc Hparse eq_refl Hmiss Haddr Hfree Hroute)
    as (w2 & p & Hcb & Hp & Hpool & Hrib & Hmb & _).
  assert (Hlt : p < length (w_pool w)) by (by eapply lookup_lt_Some).
  exists copy, w1, w2, p, (learned_entry w1 ifc (md_src b) mac), reply.
  split; [exact Hrun|]. split; [exact Hcb|]. split; [exact Hp|].
  split.
  { unfold ip6_nexthop_lookup. rewrite Hpool.
    apply (Learning.lookup_after_insert (w_pool w1) p
             (learned_entry w1 ifc (md_src b) mac) (if_id ifc) e);
      [done|exact Hmiss|done|by right]. }
  split.
  { unfold ip6_route_lookup. apply rib6_lpm_host. rewrite Hrib. apply lookup_insert_eq. }
  split.
  { apply nh_at_Some. rewrite Hpool. by apply list_lookup_insert_eq. }
  split; [done|]. split; [done|]. split; [done|]. split; [done|].
  split; [rewrite Hmb; apply lookup_delete_eq|].
  split.
  { rewrite Hmb, lookup_delete_ne by done. unfold w1. cbn [w_mbufs w_set_mbufs].
    apply lookup_insert_eq. }
  split; [apply forge_advert_is_advert|].
  unfold reply. cbn [md_nh forge_advert]. unfold sender_nexthop. by rewrite Hmiss.
Qed.

End Facts.

(** the solicitation of fe80::1 by fe80::2 in [Scenario.w_solicited] passes the
    checks and asks for the address of nexthop 0 *)
Lemma solicit_from_peer_for_router :
  ns_for_router (Scenario.w_solicited Scenario.solicit_from_peer)
    Scenario.solicit_from_peer Scenario.if1 0 Scenario.local_ll.
Proof. repeat split; vm_compute; reflexivity. Qed.

(** the reply to fe80::2, which has no nexthop: it is sent with the local
    nexthop attached *)
Lemma ns_specified_source_reply_witness :
  ∃ ctl w' b',
    ndp_ns_input_one 8 (Scenario.w_solicited Scenario.solicit_from_peer) 40
    = Done (ctl ++ [(IP_OUTPUT, 40)], w')
    ∧ w_mbufs w' !! 40 = Some b'
    ∧ advert_of Scenario.local_ll true Scenario.addr_ll_peer b'
    ∧ md_nh b' = Some 0.
Proof.
  destruct (ns_specified_source_reply 8 (Scenario.w_solicited Scenario.solicit_from_peer)
              40 Scenario.solicit_from_peer Scenario.if1 0 Scenario.local_ll)
    as (ctl & w' & b' & Hrun & Hb & Hadv & Hnh & _).
  - reflexivity.
  - exact solicit_from_peer_for_router.
  - reflexivity.
  - right. vm_compute. lia.
  - exists ctl, w', b'. exact (conj Hrun (conj Hb (conj Hadv Hnh))).
Defined.

(** the copy of the same solicitation *)
Lemma ns_copy_handed_to_control_witness :
  ∃ copy w' c,
    ndp_ns_input_one 8 (Scenario.w_solicited Scenario.solicit_from_peer) 40
    = Done ([(CONTROL, copy); (IP_OUTPUT, 40)], w')
    ∧ w_mbufs w' !! copy = Some c
    ∧ probe_parse (m_icmp6 c) = Some (Scenario.addr_ll_peer, Scenario.mac_peer)
    ∧ md_iface c = Some Scenario.if1.
Proof.
  destruct (ns_copy_handed_to_control 8 (Scenario.w_solicited Scenario.solicit_from_peer)
              40 Scenario.solicit_from_peer Scenario.if1 0 Scenario.local_ll
              Scenario.mac_peer)
    as (copy & w' & c & Hrun & _ & Hc & _ & _ & _ & _ & Hif & _ & Hparse & _).
  - reflexivity.
  - exact solicit_from_peer_for_router.
  - reflexivity.
  - reflexivity.
  - vm_compute. lia.
  - exists copy, w', c. exact (conj Hrun (conj Hc (conj (Hparse eq_refl) Hif))).
Defined.

(** the same solicitation when the packet pool holds one buffer only *)
Lemma ns_copy_failure_is_an_error_witness :
  ndp_ns_input_one 1 (Scenario.w_solicited Scenario.solicit_from_peer) 40
  = Done ([(ERROR, 40)], Scenario.w_solicited Scenario.solicit_from_peer).
Proof.
  apply (ns_copy_failure_is_an_error 1 (Scenario.w_solicited Scenario.solicit_from_peer)
           40 Scenario.solicit_from_peer Scenario.if1 0 Scenario.local_ll
           Scenario.mac_peer).
  - reflexivity.
  - exact solicit_from_peer_for_router.
  - reflexivity.
  - reflexivity.
  - vm_compute. lia.
Defined.

(** fe80::2 is learned in slot 1 from its solicitation *)
Lemma solicitation_teaches_sender_witness :
  ∃ copy w1 w2 n,
    ndp_ns_input_one 8 (Scenario.w_solicited Scenario.solicit_from_peer) 40
    = Done ([(CONTROL, copy); (IP_OUTPUT, 40)], w1)
    ∧ ndp_probe_input_cb 8 8 0 w1 copy = Done w2
    ∧ ip6_nexthop_lookup w2 0 1 Scenario.addr_ll_peer = Ret 1
    ∧ nh_at w2 1 = Some n
    ∧ nh_lladdr n = Scenario.mac_peer
    ∧ nh_flags n = GR_NH_F_REACHABLE.
Proof.
  destruct (solicitation_teaches_sender 8 8 8 0
              (Scenario.w_solicited Scenario.solicit_from_peer) 40
              Scenario.solicit_from_peer Scenario.if1 0 Scenario.local_ll
              Scenario.mac_peer ENOENT)
    as (copy & w1 & w2 & p & n & reply & Hrun & Hcb & Hp & Hfound & _ & Hn & Hmac
        & Hflags & _).
  - reflexivity.
  - exact solicit_from_peer_for_router.
  - reflexivity.
  - reflexivity.
  - reflexivity.
  - vm_compute. lia.
  - reflexivity.
  - exists 1. reflexivity.
  - right. vm_compute. lia.
  - assert (Hp1 : p = 1).
    { destruct p as [|[|p]]; [discriminate Hp|reflexivity|discriminate Hp]. }
    subst p. exists copy, w1, w2, n.
    exact (conj Hrun (conj Hcb (conj Hfound (conj Hn (conj Hmac Hflags))))).
Defined.
End Solicited.


(** ** Solicits that are not sent, and what a solicit writes *)

Module Soliciting.

Import NdpNsOutput.

Section Facts.

Variable NH_UCAST_PROBES : N.

(** X19: [ndp_ns_output] sends a buffer to the error edge exactly when the
    buffer names no nexthop or the interface of the nexthop has no preferred
    address for it, and then nothing is written: no probe is counted,
    [last_request] is not set and the buffer is left as it was. *)
Theorem ns_output_error_exactly_when (w : world) (mbuf : mbuf_ptr) (buf : rte_mbuf) :
  w_mbufs w !! mbuf = Some buf →
  (md_data buf = None → ndp_ns_output_one NH_UCAST_PROBES w mbuf = Done (ERROR, w))
  ∧ (∀ nh n, md_data buf = Some nh → nh_at w nh = Some n →
       ip6_addr_get_preferred w (nh_iface_id n) (nh_ipv6 n) = None →
       ndp_ns_output_one NH_UCAST_PROBES w mbuf = Done (ERROR, w))
  ∧ (∀ w', ndp_ns_output_one NH_UCAST_PROBES w mbuf = Done (ERROR, w') →
       w' = w
       ∧ (md_data buf = None
          ∨ ∃ nh n, md_data buf = Some nh ∧ nh_at w nh = Some n
                    ∧ ip6_addr_get_preferred w (nh_iface_id n) (nh_ipv6 n) = None)).
Proof.
  intros Hm. unfold ndp_ns_output_one. rewrite Hm, deref_Some, bind_Done.
  split; [by intros ->|]. split.
  { intros nh n -> Hn Hpref. by rewrite Hn, deref_Some, bind_Done, Hpref. }
  intros w' Hrun.
  destruct (md_data buf) as [nh|]; [|injection Hrun as <-; by split; [|left]].
  destruct (nh_at w nh) as [n|] eqn:Hn; [|discriminate].
  rewrite deref_Some, bind_Done in Hrun.
  destruct (ip6_addr_get_preferred _ _ _) as [local|] eqn:Hpref.
  2:{ injection Hrun as <-. split; [done|]. right. by exists nh, n. }
  exfalso.
  destruct (nh_at w local) as [l|]; [|discriminate].
  rewrite deref_Some, bind_Done in Hrun.
  destruct (_ && _).
  - match type of Hrun with
    | context [nh_at ?w1 local] => destruct (nh_at w1 local); [|discriminate]
    end.
    discriminate.
  - match type of Hrun with
    | context [nh_at ?w1 local] => destruct (nh_at w1 local); [|discriminate]
    end.
    discriminate.
Qed.

(** the parts of the state that the writes to a nexthop and to a buffer leave
    alone *)
Ltac frame :=
  unfold mbuf_update, nh_update;
  repeat (match goal with
          | |- context [match nh_at ?w ?p with _ => _ end] => destruct (nh_at w p)
          end);
  cbn [w_pool w_rib6 w_ring w_addrs w_ifaces w_set_pool w_set_mbufs];
  rewrite ?length_insert; reflexivity.

(** X20: whatever [ndp_ns_output] does with a buffer, it writes nothing but
    that buffer, the probe counters and [last_request] of nexthops: the
    routes, the ring of posts, the addresses of the interfaces and every other
    buffer are as before, every nexthop keeps its flags, addresses, interface,
    [last_reply], reference count and hold queue, and a count of unicast
    probes that was within NH_UCAST_PROBES stays within it. *)
Theorem ns_output_writes_probe_state_only (w : world) (mbuf : mbuf_ptr) (next : edge)
    (w' : world) :
  ndp_ns_output_one NH_UCAST_PROBES w mbuf = Done (next, w') →
  w_rib6 w' = w_rib6 w
  ∧ w_ring w' = w_ring w
  ∧ w_addrs w' = w_addrs w
  ∧ w_ifaces w' = w_ifaces w
  ∧ (∀ k, k ≠ mbuf → w_mbufs w' !! k = w_mbufs w !! k)
  ∧ length (w_pool w') = length (w_pool w)
  ∧ pool_kept (probed_only NH_UCAST_PROBES) w w'.
Proof.
  unfold ndp_ns_output_one. intros Hrun.
  assert (Hsame : pool_kept (probed_only NH_UCAST_PROBES) w w).
  { intros p x Hx. exists x. split; [done|]. by repeat split. }
  destruct (w_mbufs w !! mbuf) as [buf|]; [|discriminate].
  rewrite deref_Some, bind_Done in Hrun.
  destruct (md_data buf) as [nh|]; [|by injection Hrun as <- <-].
  destruct (nh_at w nh) as [n|] eqn:Hn; [|discriminate].
  rewrite deref_Some, bind_Done in Hrun.
  destruct (ip6_addr_get_preferred _ _ _) as [local|]; [|by injection Hrun as <- <-].
  destruct (nh_at w local) as [l|]; [|discriminate].
  rewrite deref_Some, bind_Done in Hrun.
  destruct (negb (N.eqb (nh_last_reply n) 0)
            && N.ltb (nh_ucast_probes n) NH_UCAST_PROBES) eqn:Hcond.
  - apply andb_true_iff in Hcond as [_ Hlt]. apply N.ltb_lt in Hlt.
    match type of Hrun with
    | context [nh_at ?w1 local] => destruct (nh_at w1 local); [|discriminate]
    end.
    rewrite deref_Some, bind_Done in Hrun. injection Hrun as <- <-.
    split; [frame|]. split; [frame|]. split; [frame|]. split; [frame|].
    split.
    { intros k Hk. by rewrite mbuf_update_lookup_ne, !nh_update_mbufs. }
    split; [frame|].
    intros p x Hx.
    destruct (decide (p = nh)) as [->|Hne].
    + rewrite Hn in Hx. injection Hx as <-.
      eexists. split.
      { rewrite nh_at_mbuf_update. apply nh_at_update_eq. by apply nh_at_update_eq. }
      repeat split. cbn. lia.
    + exists x. split; [|by repeat split].
      by rewrite nh_at_mbuf_update, !nh_at_update_ne.
  - match type of Hrun with
    | context [nh_at ?w1 local] => destruct (nh_at w1 local); [|discriminate]
    end.
    rewrite deref_Some, bind_Done in Hrun. injection Hrun as <- <-.
    split; [frame|]. split; [frame|]. split; [frame|]. split; [frame|].
    split.
    { intros k Hk. by rewrite mbuf_update_lookup_ne, !nh_update_mbufs. }
    split; [frame|].
    intros p x Hx.
    destruct (decide (p = nh)) as [->|Hne].
    + rewrite Hn in Hx. injection Hx as <-.
      eexists. split.
      { rewrite nh_at_mbuf_update. apply nh_at_update_eq. by apply nh_at_update_eq. }
      by repeat split.
    + exists x. split; [|by repeat split].
      by rewrite nh_at_mbuf_update, !nh_at_update_ne.
Qed.

End Facts.

(** the solicit for fe80::2 when interface 1 has no address *)
Lemma ns_output_error_exactly_when_witness :
  ndp_ns_output_one 3 Cases.w_soliciting_unaddressed 50
  = Done (ERROR, Cases.w_soliciting_unaddressed).
Proof.
  destruct (ns_output_error_exactly_when 3 Cases.w_soliciting_unaddressed 50
              (Scenario.solicit_request 1)) as (_ & Hpref & _); [reflexivity|].
  apply (Hpref 1 (Scenario.peer_probed 0 0)); reflexivity.
Defined.

(** the third unicast probe of fe80::2 *)
Lemma ns_output_writes_probe_state_only_witness :
  ∃ w',
    ndp_ns_output_one 3 (Scenario.w_soliciting (Scenario.peer_probed 500 2)) 50
    = Done (OUTPUT, w')
    ∧ w_rib6 w' = w_rib6 (Scenario.w_soliciting (Scenario.peer_probed 500 2))
    ∧ w_ring w' = []
    ∧ pool_kept (probed_only 3) (Scenario.w_soliciting (Scenario.peer_probed 500 2)) w'.
Proof.
  destruct (ndp_ns_output_one 3 (Scenario.w_soliciting (Scenario.peer_probed 500 2)) 50)
    as [[next w']| | |] eqn:Hrun; try (vm_compute in Hrun; discriminate Hrun).
  destruct (ns_output_writes_probe_state_only 3 _ 50 next w' Hrun)
    as (Hrib & Hring & _ & _ & _ & _ & Hkept).
  assert (Hnext : next = OUTPUT).
  { vm_compute in Hrun. by injection Hrun as <- _. }
  subst next. exists w'. exact (conj eq_refl (conj Hrib (conj Hring Hkept))).
Defined.
End Soliciting.


(** ** ICMP echo *)

Module Echo.

Import IcmpInput.

(** [(uint16_t)~v] is zero for the sum 0xffff only *)
Lemma uint16_not_zero (v : N) : uint16_not v = 0%N ↔ (v mod 2 ^ 16 = 0xffff)%N.
Proof. unfold uint16_not. apply N.lxor_eq_0_iff. Qed.

Section Facts.

Variable rte_raw_cksum : icmp_data → N → N.

(** X21: [icmp_input] answers a message exactly when it is an echo request
    with code 0, at least ICMP_MIN_SIZE bytes long, whose checksum over its
    length verifies. A shorter message or one whose checksum fails is invalid
    whatever its type, and so is an echo request with another code; every
    other type is unsupported. *)
Theorem echo_answered_exactly_when (mbuf : icmp_mbuf) :
  let valid := (ICMP_MIN_SIZE ≤ l_len (m_local mbuf))%N
               ∧ (rte_raw_cksum (m_icmp mbuf) (l_len (m_local mbuf)) mod 2 ^ 16
                  = 0xffff)%N in
  let request := icmp_type (m_icmp mbuf) = RTE_ICMP_TYPE_ECHO_REQUEST in
  (fst (icmp_input_one rte_raw_cksum mbuf) = OUTPUT
   ↔ valid ∧ request ∧ icmp_code (m_icmp mbuf) = 0%N)
  ∧ (fst (icmp_input_one rte_raw_cksum mbuf) = UNSUPPORTED ↔ valid ∧ ¬ request)
  ∧ (fst (icmp_input_one rte_raw_cksum mbuf) = INVALID
     ↔ ¬ valid ∨ (request ∧ icmp_code (m_icmp mbuf) ≠ 0%N)).
Proof.
  cbv zeta. unfold icmp_input_one.
  destruct (N.ltb_spec (l_len (m_local mbuf)) ICMP_MIN_SIZE) as [Hlen|Hlen].
  { cbn [orb fst]. repeat split; try discriminate; try (intros; lia); tauto. }
  cbn [orb].
  destruct (N.eqb_spec (uint16_not (rte_raw_cksum (m_icmp mbuf) (l_len (m_local mbuf)))) 0)
    as [Hck|Hck]; rewrite uint16_not_zero in Hck.
  2:{ cbn [negb fst]. repeat split; try discriminate; try tauto. }
  cbn [negb].
  destruct (N.eqb_spec (icmp_type (m_icmp mbuf)) RTE_ICMP_TYPE_ECHO_REQUEST) as [Hty|Hty].
  - destruct (N.eqb_spec (icmp_code (m_icmp mbuf)) 0) as [Hco|Hco]; cbn [negb fst].
    + repeat split; try discriminate; try tauto.
    + repeat split; try discriminate; try tauto.
  - cbn [fst]. repeat split; try discriminate; try tauto.
Qed.

(** X22: the answer to an echo request is written in the buffer of the
    request: the type becomes echo reply, source and destination address are
    exchanged, and the code, the checksum, the identifier, the sequence number
    and the payload are the bytes of the request, as is the length. A message
    that is not answered is enqueued as it came. *)
Theorem echo_reply_in_place (mbuf : icmp_mbuf) (next : edge) (mbuf' : icmp_mbuf) :
  icmp_input_one rte_raw_cksum mbuf = (next, mbuf') →
  (next = OUTPUT →
   icmp_type (m_icmp mbuf') = RTE_ICMP_TYPE_ECHO_REPLY
   ∧ icmp_code (m_icmp mbuf') = 0%N
   ∧ icmp_rest (m_icmp mbuf') = icmp_rest (m_icmp mbuf)
   ∧ l_src (m_local mbuf') = l_dst (m_local mbuf)
   ∧ l_dst (m_local mbuf') = l_src (m_local mbuf)
   ∧ l_len (m_local mbuf') = l_len (m_local mbuf))
  ∧ (next ≠ OUTPUT → mbuf' = mbuf).
Proof.
  unfold icmp_input_one.
  destruct (_ || _); [intros [= <- <-]; by split|].
  destruct (N.eqb _ _); [|intros [= <- <-]; by split].
  destruct (N.eqb_spec (icmp_code (m_icmp mbuf)) 0) as [Hco|Hco]; cbn [negb].
  - intros [= <- <-]. split; [|done]. intros _. by rewrite Hco.
  - intros [= <- <-]. by split.
Qed.

(** X23: the node answers no message twice: what it sends to the output edge
    is an echo reply, which it would send on unchanged, to the unsupported edge
    if its checksum verifies and to the invalid edge if not, if it came
    back. *)
Theorem echo_reply_is_not_answered (mbuf : icmp_mbuf) (mbuf' : icmp_mbuf) :
  icmp_input_one rte_raw_cksum mbuf = (OUTPUT, mbuf') →
  ∃ next,
    icmp_input_one rte_raw_cksum mbuf' = (next, mbuf')
    ∧ next ≠ OUTPUT
    ∧ (next = UNSUPPORTED
       ↔ (rte_raw_cksum (m_icmp mbuf') (l_len (m_local mbuf')) mod 2 ^ 16 = 0xffff)%N).
Proof.
  intros Hrun.
  assert (Hty : icmp_type (m_icmp mbuf') = RTE_ICMP_TYPE_ECHO_REPLY
                ∧ (ICMP_MIN_SIZE ≤ l_len (m_local mbuf'))%N).
  { revert Hrun. unfold icmp_input_one.
    destruct (N.ltb_spec (l_len (m_local mbuf)) ICMP_MIN_SIZE) as [Hlen|Hlen];
      [discriminate|].
    cbn [orb]. destruct (negb _); [discriminate|].
    destruct (N.eqb _ _); [|discriminate].
    destruct (negb _); [discriminate|]. by intros [= <-]. }
  destruct Hty as [Hty Hlen]. unfold icmp_input_one. rewrite Hty.
  destruct (N.ltb_spec (l_len (m_local mbuf')) ICMP_MIN_SIZE) as [?|_]; [lia|].
  cbn [orb].
  destruct (N.eqb_spec (uint16_not (rte_raw_cksum (m_icmp mbuf') (l_len (m_local mbuf')))) 0)
    as [Hck|Hck]; rewrite uint16_not_zero in Hck; cbn [negb].
  - exists UNSUPPORTED. by repeat split.
  - exists INVALID. repeat split; try discriminate. done.
Qed.

End Facts.

(** the echo request [Cases.ping] is answered *)
Lemma echo_answered_exactly_when_witness :
  fst (icmp_input_one Cases.raw_cksum Cases.ping) = OUTPUT.
Proof.
  destruct (echo_answered_exactly_when Cases.raw_cksum Cases.ping) as [[_ Hout] _].
  apply Hout. repeat split; vm_compute; congruence.
Defined.

(** the answer goes from 192.0.2.1 to 192.0.2.2 *)
Lemma echo_reply_in_place_witness :
  ∃ mbuf',
    icmp_input_one Cases.raw_cksum Cases.ping = (OUTPUT, mbuf')
    ∧ icmp_type (m_icmp mbuf') = RTE_ICMP_TYPE_ECHO_REPLY
    ∧ l_src (m_local mbuf') = 0xc0000201%N
    ∧ l_dst (m_local mbuf') = 0xc0000202%N.
Proof.
  destruct (icmp_input_one Cases.raw_cksum Cases.ping) as [next mbuf'] eqn:Hrun.
  destruct (echo_reply_in_place Cases.raw_cksum Cases.ping next mbuf' Hrun) as [Hout _].
  assert (Hnext : next = OUTPUT) by (vm_compute in Hrun; congruence).
  subst next. destruct (Hout eq_refl) as (Hty & _ & _ & Hsrc & Hdst & _).
  exists mbuf'. exact (conj eq_refl (conj Hty (conj Hsrc Hdst))).
Defined.

(** the answer to [Cases.ping] still carries the checksum of the request: it
    would be invalid if it came back *)
Lemma echo_reply_is_not_answered_witness :
  ∃ mbuf',
    icmp_input_one Cases.raw_cksum Cases.ping = (OUTPUT, mbuf')
    ∧ fst (icmp_input_one Cases.raw_cksum mbuf') ≠ OUTPUT.
Proof.
  destruct (icmp_input_one Cases.raw_cksum Cases.ping) as [next mbuf'] eqn:Hrun.
  assert (Hnext : next = OUTPUT) by (vm_compute in Hrun; congruence).
  subst next.
  destruct (echo_reply_is_not_answered Cases.raw_cksum Cases.ping mbuf' Hrun)
    as (next & Hback & Hnot & _).
  exists mbuf'. split; [reflexivity|]. by rewrite Hback.
Defined.
End Echo.


(** ** IPv4 prefixes *)

Module Prefixes.

Import NetTypes.

(** the bits of a byte mask *)
Lemma testbit_byte_mask (k n : N) :
  N.testbit (N.shiftl (N.ones 8) k) n = (k <=? n)%N && (n <? k + 8)%N.
Proof.
  destruct (N.leb_spec k n) as [Hle|Hlt]; cbn [andb].
  - rewrite N.shiftl_spec_high' by done.
    destruct (N.ltb_spec n (k + 8)) as [Hlt|Hge].
    + apply N.ones_spec_low. lia.
    + apply N.ones_spec_high. lia.
  - by apply N.shiftl_spec_low.
Qed.

(** the bits of a number shifted to the left *)
Lemma testbit_shiftl (x k n : N) :
  N.testbit (N.shiftl x k) n = (k <=? n)%N && N.testbit x (n - k).
Proof.
  destruct (N.leb_spec k n); cbn [andb].
  - by apply N.shiftl_spec_high'.
  - by apply N.shiftl_spec_low.
Qed.

(** settle the comparisons of a goal by arithmetic *)
Ltac compare :=
  repeat match goal with
         | |- context [(?a <=? ?b)%N] => destruct (N.leb_spec a b); try lia
         | |- context [(?a <? ?b)%N] => destruct (N.ltb_spec a b); try lia
         end.

(** where each bit of a number goes when its four bytes are reversed *)
Lemma bswap32_spec (x n : N) :
  N.testbit (bswap32 x) n
  = if (n <? 8)%N then N.testbit x (n + 24)
    else if (n <? 16)%N then N.testbit x (n + 8)
    else if (n <? 24)%N then N.testbit x (n - 8)
    else if (n <? 32)%N then N.testbit x (n - 24)
    else false.
Proof.
  unfold bswap32.
  change 0xff000000%N with (N.shiftl (N.ones 8) 24).
  change 0x00ff0000%N with (N.shiftl (N.ones 8) 16).
  change 0x0000ff00%N with (N.shiftl (N.ones 8) 8).
  change 0x000000ff%N with (N.shiftl (N.ones 8) 0).
  rewrite !N.lor_spec, !N.land_spec, !testbit_byte_mask, !N.shiftr_spec', !testbit_shiftl.
  compare; cbn [andb orb];
    rewrite ?andb_true_r, ?andb_false_r, ?orb_false_r; reflexivity.
Qed.

(** reversing the bytes commutes with the bitwise and *)
Lemma bswap32_land (x y : N) : bswap32 (N.land x y) = N.land (bswap32 x) (bswap32 y).
Proof.
  apply N.bits_inj. intros n. rewrite N.land_spec, !bswap32_spec, !N.land_spec.
  by repeat destruct (_ <? _)%N.
Qed.

(** a 32-bit number has no bit above the 32 low ones *)
Lemma testbit_above_32 (x n : N) : (x < 2 ^ 32)%N → (32 ≤ n)%N → N.testbit x n = false.
Proof.
  intros Hx Hn. destruct (N.eq_dec x 0%N) as [->|Hx0]; [apply N.bits_0|].
  apply N.bits_above_log2. apply N.log2_lt_pow2; [lia|].
  eapply N.lt_le_trans; [exact Hx|]. apply N.pow_le_mono_r; lia.
Qed.

(** the mask of a prefix length keeps the bits of the network *)
Lemma mask_spec (p n : N) :
  (p ≤ 32)%N →
  N.testbit ((N.shiftl UINT64_MAX (32 - p) mod 2 ^ 64) mod 2 ^ 32) n
  = (32 - p <=? n)%N && (n <? 32)%N.
Proof.
  intros Hp.
  destruct (N.ltb_spec n 32) as [Hn|Hn].
  2:{ rewrite andb_false_r. by apply N.mod_pow2_bits_high. }
  rewrite N.mod_pow2_bits_low, N.mod_pow2_bits_low by lia. rewrite andb_true_r.
  destruct (N.leb_spec (32 - p) n) as [Hle|Hlt].
  - rewrite N.shiftl_spec_high' by done.
    change UINT64_MAX with (N.ones 64). apply N.ones_spec_low. lia.
  - by apply N.shiftl_spec_low.
Qed.

(** masking an address clears the bits of the host *)
Lemma land_mask (a p : N) :
  (a < 2 ^ 32)%N → (p ≤ 32)%N →
  N.land a ((N.shiftl UINT64_MAX (32 - p) mod 2 ^ 64) mod 2 ^ 32)
  = (a / 2 ^ (32 - p) * 2 ^ (32 - p))%N.
Proof.
  intros Ha Hp. rewrite <- N.shiftr_div_pow2, <- N.shiftl_mul_pow2.
  apply N.bits_inj. intros n. rewrite N.land_spec, mask_spec by done.
  destruct (N.leb_spec (32 - p) n) as [Hle|Hlt].
  - rewrite N.shiftl_spec_high', N.shiftr_spec' by done.
    replace (n - (32 - p) + (32 - p))%N with n by lia.
    destruct (N.ltb_spec n 32) as [Hn|Hn]; [by rewrite andb_true_r|].
    rewrite andb_false_r. symmetry. by apply testbit_above_32.
  - rewrite N.shiftl_spec_low by done. cbn [andb]. apply andb_false_r.
Qed.

Section Facts.

Variable little_endian : bool.
Variable sscanf_net : cstring → scanned.
Variable inet_pton : cstring → option N.

(** the mask in the byte order of the host *)
Lemma htonl_land (x y : N) :
  N.land (htonl little_endian x) (htonl little_endian y)
  = htonl little_endian (N.land x y).
Proof. unfold htonl. destruct little_endian; [by rewrite bswap32_land|done]. Qed.

(** X24: a prefix that is accepted is stored in network byte order, whatever
    the byte order of the host. With [zero_mask] the address stored has its
    32 - prefixlen low bits cleared and its prefixlen high bits as they were
    read, for every length from 0 to 32: /0 gives 0.0.0.0 and /32 the address
    itself. Without [zero_mask] the address is stored as it was read. *)
Theorem ip4_net_parse_clears_host_bits (s : cstring) (net : ip4_net) (zero_mask : bool)
    (addr : cstring) (p a : N) :
  sscanf_net s = scan_both addr p →
  (p ≤ 32)%N →
  inet_pton addr = Some a →
  (a < 2 ^ 32)%N →
  ∃ stored,
    br_ip4_net_parse little_endian sscanf_net inet_pton s net zero_mask
    = (0%Z, None, {| ip := htonl little_endian stored; prefixlen := p |})
    ∧ (zero_mask = false → stored = a)
    ∧ (zero_mask = true →
       (stored mod 2 ^ (32 - p) = 0)%N
       ∧ (stored / 2 ^ (32 - p) = a / 2 ^ (32 - p))%N
       ∧ (p = 0%N → stored = 0%N)
       ∧ (p = 32%N → stored = a)).
Proof.
  intros Hs Hp Ha Hlt.
  exists (if zero_mask then (a / 2 ^ (32 - p) * 2 ^ (32 - p))%N else a). split.
  { unfold br_ip4_net_parse. rewrite Hs. cbn [scan_count N.eqb Pos.eqb negb prefixlen].
    replace (32 <? p)%N with false by (symmetry; apply N.ltb_ge; lia).
    rewrite Ha. cbn [ip prefixlen].
    destruct zero_mask; [|done].
    by rewrite htonl_land, land_mask. }
  split; [by intros ->|]. intros ->.
  assert (Hpow : (2 ^ (32 - p) ≠ 0)%N) by (by apply N.pow_nonzero).
  split; [by apply N.Div0.mod_mul|]. split; [by apply N.div_mul|]. split.
  - intros ->. change (32 - 0)%N with 32%N. by rewrite N.div_small.
  - intros ->. change (2 ^ (32 - 32))%N with 1%N. by rewrite N.div_1_r, N.mul_1_r.
Qed.

(** X25: a text is refused, with -1 and EINVAL, exactly when [sscanf] did not
    convert both the address and the length, or the length is above 32, or
    [inet_pton] rejects the address. A refusal never writes the address of
    [*net]; it has overwritten its prefix length when both parts were
    converted. *)
Theorem ip4_net_parse_refusal (s : cstring) (net : ip4_net) (zero_mask : bool) :
  let r := br_ip4_net_parse little_endian sscanf_net inet_pton s net zero_mask in
  (r.1.1 = (-1)%Z
   ↔ scan_count (sscanf_net s) ≠ 2%N
     ∨ ∃ addr p, sscanf_net s = scan_both addr p
                 ∧ ((32 < p)%N ∨ inet_pton addr = None))
  ∧ (r.1.1 = (-1)%Z ∨ r.1.1 = 0%Z)
  ∧ (r.1.1 = (-1)%Z →
     r.1.2 = Some EINVAL
     ∧ ip r.2 = ip net
     ∧ (∀ addr p, sscanf_net s = scan_both addr p → prefixlen r.2 = p)
     ∧ (scan_count (sscanf_net s) ≠ 2%N → r.2 = net)).
Proof.
  cbv zeta. unfold br_ip4_net_parse.
  destruct (sscanf_net s) as [|addr|addr p] eqn:Hs; cbn [scan_count N.eqb Pos.eqb negb fst snd].
  - split; [split; [by left|done]|]. split; [by left|]. by repeat split.
  - split; [split; [by left|done]|]. split; [by left|]. by repeat split.
  - cbn [prefixlen ip].
    destruct (N.ltb_spec 32 p) as [Hp|Hp]; cbn [fst snd].
    { split; [split; [intros _; right; exists addr, p; by split; [|left]|done]|].
      split; [by left|]. intros _. repeat split; try done.
      by intros ? ? [= _ <-]. }
    destruct (inet_pton addr) as [a|] eqn:Ha; cbn [fst snd].
    + split.
      { split; [discriminate|]. intros [?|(addr' & p' & [= <- <-] & [?|?])]; [done|lia|].
        congruence. }
      split; [by right|]. discriminate.
    + split; [split; [intros _; right; exists addr, p; by split; [|right]|done]|].
      split; [by left|]. intros _. repeat split; try done.
      by intros ? ? [= _ <-].
Qed.

End Facts.

(** 192.0.2.99/24 on a little-endian host: 192.0.2.0 is stored, its bytes
    reversed in the number *)
Lemma ip4_net_parse_clears_host_bits_witness :
  br_ip4_net_parse true (λ _, scan_both [] 24) (λ _, Some 0xc0000263%N) []
    {| ip := 0; prefixlen := 0 |} true
  = (0%Z, None, {| ip := 0x000200c0; prefixlen := 24 |}).
Proof.
  destruct (ip4_net_parse_clears_host_bits true (λ _, scan_both [] 24)
              (λ _, Some 0xc0000263%N) [] {| ip := 0; prefixlen := 0 |} true [] 24
              0xc0000263%N) as (stored & Hrun & _ & Hmask).
  - reflexivity.
  - lia.
  - reflexivity.
  - reflexivity.
  - rewrite Hrun. destruct (Hmask eq_refl) as (Hlow & Hhigh & _).
    assert (Hst : stored = 0xc0000200%N).
    { rewrite (N.div_mod stored (2 ^ (32 - 24))) by done. rewrite Hlow, Hhigh.
      reflexivity. }
    rewrite Hst. reflexivity.
Defined.

(** a length of 33 is refused, and written to [*net] *)
Lemma ip4_net_parse_refusal_witness :
  br_ip4_net_parse true (λ _, scan_both [] 33) (λ _, Some 0xc0000263%N) []
    {| ip := 7; prefixlen := 8 |} true
  = ((-1)%Z, Some EINVAL, {| ip := 7; prefixlen := 33 |}).
Proof.
  destruct (ip4_net_parse_refusal true (λ _, scan_both [] 33) (λ _, Some 0xc0000263%N) []
              {| ip := 7; prefixlen := 8 |} true) as (Hiff & _ & Hrefused).
  destruct (br_ip4_net_parse _ _ _ _ _ _) as [[ret errno] [i p]].
  cbn [fst snd] in *.
  assert (Hret : ret = (-1)%Z).
  { apply Hiff. right. exists [], 33%N. split; [reflexivity|left; lia]. }
  destruct (Hrefused Hret) as (-> & Hip & Hp & _). cbn [ip prefixlen] in *.
  by rewrite Hret, Hip, (Hp [] 33%N eq_refl).
Defined.
End Prefixes.

